(** * Provider routing and task coordination (agenticSeek-financial)

    A shallow embedding of [src/orchestrator/multi_llm_router.py] and
    [src/orchestrator/task_coordinator.py], and the properties of the
    routing / coordination layer proved over it.

    Conventions of the embedding.
    - A Python [dict] is an insertion-ordered association list with
      distinct keys ([dict_set] overwrites in place or appends).
    - A raised [Exception] is a value of [exn]; a call that may raise
      returns [result A].
    - A Python [float] is an IEEE-754 binary64 number, computed with the
      Standard Library's executable specification ([SpecFloat]).
    - A Python [str] is modelled by the [string] of its UTF-8 code
      units; [in], [split], [==] and [+] act on it as on the str.
      The builtins whose result depends on the Unicode database
      ([str.upper], [str.lower], the classes of [re], [int]) are
      parameters ([Builtins]); on ASCII text they act as the
      definitions given for that range ([conforms]).
    - The external collaborators (the chat-model constructors of
      langchain, the process environment, the agents' analysis calls,
      the clock, the order in which a thread pool completes its futures)
      are variables of the sections that use them. *)

From Stdlib Require Import ZArith List String Ascii Bool Lia Permutation.
From Stdlib Require Import Floats.SpecFloat DecimalString.
Import ListNotations.

Local Open Scope string_scope.
Local Open Scope Z_scope.

(** ** Python prelude *)

Module Py.

(** *** Exceptions *)

Inductive exn_class :=
| ValueError | RuntimeError | OverflowError | ZeroDivisionError
| IndexError | OtherError.

(** [exn_msg] is what [str(e)] returns. *)
Record exn := Exn { exn_cls : exn_class; exn_msg : string }.

Inductive result (A : Type) :=
| Ok (a : A)
| Raise (e : exn).
Arguments Ok {A} a.
Arguments Raise {A} e.

Definition bind {A B} (m : result A) (k : A -> result B) : result B :=
  match m with
  | Ok a => k a
  | Raise e => Raise e
  end.

(** *** Dictionaries *)

Section Dict.
Variable V : Type.

Definition pydict := list (string * V).

Fixpoint dict_get (d : pydict) (k : string) : option V :=
  match d with
  | [] => None
  | (k', v) :: d' => if String.eqb k k' then Some v else dict_get d' k
  end.

(** [k in d] *)
Definition dict_mem (d : pydict) (k : string) : bool :=
  match dict_get d k with
  | Some _ => true
  | None => false
  end.

(** [d.get(k, dflt)] *)
Definition dict_get_default (d : pydict) (k : string) (dflt : V) : V :=
  match dict_get d k with
  | Some v => v
  | None => dflt
  end.

(** [d[k] = v]: an existing key keeps its position. *)
Fixpoint dict_set (d : pydict) (k : string) (v : V) : pydict :=
  match d with
  | [] => [(k, v)]
  | (k', v') :: d' =>
      if String.eqb k k' then (k', v) :: d'
      else (k', v') :: dict_set d' k v
  end.

Definition dict_keys (d : pydict) : list string := map fst d.
End Dict.

Arguments dict_get {V} d k.
Arguments dict_mem {V} d k.
Arguments dict_get_default {V} d k dflt.
Arguments dict_set {V} d k v.
Arguments dict_keys {V} d.

(** *** Floats: IEEE-754 binary64 *)

Definition float := spec_float.
Definition prec : Z := 53.
Definition emax : Z := 1024.

Definition fadd : float -> float -> float := SFadd prec emax.
Definition fmul : float -> float -> float := SFmul prec emax.
Definition fdiv : float -> float -> float := SFdiv prec emax.
Definition fzero : float := S754_zero false.

(** [x < y], [x > y] and [x == y] on floats. *)
Definition flt (x y : float) : bool := SFltb x y.
Definition fgt (x y : float) : bool := SFltb y x.
Definition feq (x y : float) : bool := SFeqb x y.

(** [bool(x)]: a float is falsy exactly when it compares equal to zero. *)
Definition float_truthy (x : float) : bool := negb (feq x fzero).

(** The double nearest to the fraction [n / d]; [ratio 667 10] is the
    value of the literal [66.7]. *)
Definition ratio (n : Z) (d : positive) : float :=
  match n with
  | Z0 => S754_zero false
  | Zpos p => fdiv (S754_finite false p 0) (S754_finite false d 0)
  | Zneg p => fdiv (S754_finite true p 0) (S754_finite false d 0)
  end.

(** Conversion of a (small) [int] operand in mixed arithmetic. *)
Definition float_of_int (z : Z) : float :=
  binary_normalize prec emax z 0 false.

(** [a / b] on two [int]s: the correctly rounded quotient, or an
    exception when [b] is zero or the quotient exceeds the float
    range. *)
Definition int_truediv (a b : Z) : result float :=
  match b with
  | Z0 => Raise (Exn ZeroDivisionError "division by zero")
  | _ =>
      match a with
      | Z0 => Ok (S754_zero (b <? 0))
      | _ =>
          match fdiv (S754_finite (a <? 0) (Z.to_pos (Z.abs a)) 0)
                     (S754_finite (b <? 0) (Z.to_pos (Z.abs b)) 0) with
          | S754_infinity _ | S754_nan =>
              Raise (Exn OverflowError
                         "integer division result too large for a float")
          | q => Ok q
          end
      end
  end.

(** [round(x, 1)] on a float: the exact binary value is rounded to
    one decimal place, ties to even, and the double nearest to that
    decimal is returned. *)
Definition round_half_even (num den : Z) : Z :=
  let q := num / den in
  let r := num mod den in
  match 2 * r ?= den with
  | Lt => q
  | Gt => q + 1
  | Eq => if Z.even q then q else q + 1
  end.

Definition tenths (m : positive) (e : Z) : Z :=
  if 0 <=? e then Zpos m * 2 ^ e * 10
  else round_half_even (Zpos m * 10) (2 ^ (- e)).

Definition round1 (x : float) : float :=
  match x with
  | S754_finite s m e =>
      match tenths m e with
      | Zpos p => fdiv (S754_finite s p 0) (S754_finite false 10 0)
      | _ => S754_zero s
      end
  | _ => x
  end.

(** *** Numbers and values *)

#[warnings="-register-all"] Inductive pyval :=
| VNone
| VBool (b : bool)
| VInt (z : Z)
| VFloat (f : float)
| VStr (s : string)
| VDict (d : list (string * pyval)).

(** [round(x, 1)] on a number: an [int] is returned unchanged. *)
Definition round1_num (x : pyval) : pyval :=
  match x with
  | VFloat f => VFloat (round1 f)
  | _ => x
  end.

(** *** Text *)

Definition is_upper (c : ascii) : bool :=
  let n := nat_of_ascii c in (65 <=? n)%nat && (n <=? 90)%nat.
Definition is_lower (c : ascii) : bool :=
  let n := nat_of_ascii c in (97 <=? n)%nat && (n <=? 122)%nat.
Definition is_digit (c : ascii) : bool :=
  let n := nat_of_ascii c in (48 <=? n)%nat && (n <=? 57)%nat.
(** [\s]: tab, newline, vertical tab, form feed, carriage return, the
    four separators 0x1c-0x1f and the space. *)
Definition is_space (c : ascii) : bool :=
  let n := nat_of_ascii c in
  ((9 <=? n)%nat && (n <=? 13)%nat)
  || ((28 <=? n)%nat && (n <=? 32)%nat).

Definition upper_char (c : ascii) : ascii :=
  if is_lower c then ascii_of_nat (nat_of_ascii c - 32) else c.
Definition lower_char (c : ascii) : ascii :=
  if is_upper c then ascii_of_nat (nat_of_ascii c + 32) else c.

Fixpoint str_map (f : ascii -> ascii) (s : string) : string :=
  match s with
  | EmptyString => EmptyString
  | String c s' => String (f c) (str_map f s')
  end.

(** [s.upper()] and [s.lower()] on ASCII text; a code unit outside
    the range is kept. *)
Definition upper : string -> string := str_map upper_char.
Definition lower : string -> string := str_map lower_char.

(** [needle in hay] *)
Fixpoint contains (needle hay : string) : bool :=
  if String.prefix needle hay then true
  else match hay with
       | EmptyString => false
       | String _ hay' => contains needle hay'
       end.

(** [s.split(".")[0]]: the text before the first period. *)
Fixpoint before_period (s : string) : string :=
  match s with
  | EmptyString => EmptyString
  | String c s' =>
      if Ascii.eqb c "."%char then EmptyString
      else String c (before_period s')
  end.

(** [sep.join(l)] *)
Definition join (sep : string) (l : list string) : string :=
  String.concat sep l.

(** [len(l)] *)
Definition len {A} (l : list A) : Z := Z.of_nat (List.length l).

(** [bool(s)] for an optional string: [None] and the empty string are
    falsy. *)
Definition str_truthy (o : option string) : bool :=
  match o with
  | Some s => negb (String.eqb s EmptyString)
  | None => false
  end.

(** *** The pattern [confidence[:\s]+(\d+)] on ASCII text

    [re.search] returns the leftmost match.  The separator class and
    the digit class are disjoint, so the greedy separator run never
    has to give characters back. *)

Fixpoint strip_prefix (p s : string) : option string :=
  match p, s with
  | EmptyString, _ => Some s
  | String a p', String b s' =>
      if Ascii.eqb a b then strip_prefix p' s' else None
  | String _ _, EmptyString => None
  end.

Definition is_sep (c : ascii) : bool := Ascii.eqb c ":"%char || is_space c.

Fixpoint drop_while (f : ascii -> bool) (s : string) : string :=
  match s with
  | EmptyString => EmptyString
  | String c s' => if f c then drop_while f s' else s
  end.

Fixpoint take_while (f : ascii -> bool) (s : string) : string :=
  match s with
  | EmptyString => EmptyString
  | String c s' => if f c then String c (take_while f s') else EmptyString
  end.

(** A match starting at the first character of [s]; the result is
    group 1. *)
Definition match_confidence (s : string) : option string :=
  match strip_prefix "confidence" s with
  | None => None
  | Some rest =>
      match rest with
      | EmptyString => None
      | String c _ =>
          if is_sep c then
            match take_while is_digit (drop_while is_sep rest) with
            | EmptyString => None
            | digits => Some digits
            end
          else None
      end
  end.

Fixpoint search_confidence (s : string) : option string :=
  match match_confidence s with
  | Some digits => Some digits
  | None =>
      match s with
      | EmptyString => None
      | String _ s' => search_confidence s'
      end
  end.

(** The number that a run of ASCII decimal digits denotes. *)
Definition digit_value (c : ascii) : Z := Z.of_nat (nat_of_ascii c - 48).

Fixpoint decimal_value_from (acc : Z) (s : string) : Z :=
  match s with
  | EmptyString => acc
  | String c s' => decimal_value_from (10 * acc + digit_value c) s'
  end.

Definition decimal_value : string -> Z := decimal_value_from 0.

(** [str(n)] *)
Definition decimal (n : nat) : string :=
  NilZero.string_of_uint (Nat.to_uint n).

(** [int(digits)] on a non-empty run of ASCII decimal digits: the
    conversion of more than [sys.get_int_max_str_digits()] digits (4300
    by default, leading zeros included) raises [ValueError]. *)
Definition int_max_str_digits : nat := 4300.

Definition too_many_digits (n : nat) : exn :=
  Exn ValueError
      ("Exceeds the limit (4300 digits) for integer string conversion: "
       ++ "value has " ++ decimal n
       ++ " digits; use sys.set_int_max_str_digits() to increase the limit").

Definition int_of_decimal (digits : string) : result Z :=
  if (int_max_str_digits <? String.length digits)%nat
  then Raise (too_many_digits (String.length digits))
  else Ok (decimal_value digits).

(** *** Builtins that consult the Unicode database

    [str.upper] and [str.lower] map every cased character of Unicode
    (the long s upper-cases to S); [\s] and [\d] of [re] match every
    Unicode space and decimal digit, and [int] converts them.  The
    model takes these builtins as parameters. *)
Record Builtins := {
  (** [s.upper()] *)
  str_upper : string -> string;
  (** [s.lower()] *)
  str_lower : string -> string;
  (** [re.search(r'confidence[:\s]+(\d+)', s)]: group 1 of the
      leftmost match, if there is one. *)
  re_search_confidence : string -> option string;
  (** [int(s)] on a group matched by [\d+] *)
  int_of_str : string -> result Z
}.

(** Text of the ASCII range, and non-empty runs of ASCII digits. *)
Definition is_ascii (s : string) : bool :=
  forallb (fun c => (nat_of_ascii c <? 128)%nat) (list_ascii_of_string s).

Definition is_decimal (s : string) : bool :=
  match s with
  | EmptyString => false
  | _ => forallb is_digit (list_ascii_of_string s)
  end.

(** What the builtins do on ASCII text. *)
Definition conforms (py : Builtins) : Prop :=
  (forall s, is_ascii s = true -> str_upper py s = upper s)
  /\ (forall s, is_ascii s = true -> str_lower py s = lower s)
  /\ (forall s, is_ascii s = true ->
        re_search_confidence py s = search_confidence s)
  /\ (forall s, is_decimal s = true -> int_of_str py s = int_of_decimal s).

(** The builtins restricted to the ASCII range: every other character
    is left as it is and belongs to no class. *)
Definition ascii_builtins : Builtins :=
  {| str_upper := upper;
     str_lower := lower;
     re_search_confidence := search_confidence;
     int_of_str := int_of_decimal |}.

(** [sum(l)] on a list of [int]s. *)
Definition sum (l : list Z) : Z := fold_left Z.add l 0.

(** The line feed, as in ["\n"]. *)
Definition LF : string := String (ascii_of_nat 10) EmptyString.

Module Notations.
Notation "x <- m ;; k" := (bind m (fun x => k))
  (at level 61, m at next level, right associativity).
Notation "' pat <- m ;; k" :=
  (bind m (fun x => match x with pat => k end))
  (at level 61, pat pattern, m at next level, right associativity).
End Notations.

End Py.

(** ** The router: [multi_llm_router.py] *)

Module Router.
Import Py Py.Notations.

Inductive TaskComplexity := SIMPLE | MODERATE | COMPLEX | CRITICAL.

(** A per-model cost entry, [{"input": i, "output": o}]. *)
Definition cost_entry (i o : float) : pydict float :=
  [("input", i); ("output", o)].

(** Cost per 1M tokens. *)
Definition COST_MAP : pydict (pydict float) :=
  [ ("gpt-4o", cost_entry (ratio 250 100) (ratio 1000 100));
    ("gpt-4o-mini", cost_entry (ratio 15 100) (ratio 60 100));
    ("gpt-3.5-turbo", cost_entry (ratio 50 100) (ratio 150 100));
    ("claude-3-5-sonnet-20241022", cost_entry (ratio 300 100) (ratio 1500 100));
    ("claude-3-5-haiku-20241022", cost_entry (ratio 80 100) (ratio 400 100));
    ("claude-3-opus-20240229", cost_entry (ratio 1500 100) (ratio 7500 100));
    ("llama-3.3-70b-versatile", cost_entry (ratio 59 100) (ratio 79 100));
    ("llama-3.1-8b-instant", cost_entry (ratio 5 100) (ratio 8 100));
    ("gemini-2.0-flash-exp", cost_entry (ratio 0 100) (ratio 0 100));
    ("gemini-1.5-pro", cost_entry (ratio 125 100) (ratio 500 100)) ].

(** Model recommendations by complexity, in order of preference. *)
Definition COMPLEXITY_MODELS (c : TaskComplexity) : list (string * string) :=
  match c with
  | SIMPLE =>
      [ ("groq", "llama-3.1-8b-instant");
        ("google", "gemini-2.0-flash-exp");
        ("openai", "gpt-4o-mini") ]
  | MODERATE =>
      [ ("openai", "gpt-4o-mini");
        ("google", "gemini-2.0-flash-exp");
        ("anthropic", "claude-3-5-haiku-20241022");
        ("groq", "llama-3.3-70b-versatile") ]
  | COMPLEX =>
      [ ("openai", "gpt-4o");
        ("anthropic", "claude-3-5-sonnet-20241022");
        ("google", "gemini-1.5-pro") ]
  | CRITICAL =>
      [ ("anthropic", "claude-3-opus-20240229");
        ("openai", "gpt-4o");
        ("anthropic", "claude-3-5-sonnet-20241022") ]
  end.

Record MultiLLMRouter := {
  default_provider : option string;
  default_model : option string;
  cost_optimization : bool;
  temperature : float;
  available_providers : pydict bool
}.

(** The chat-model classes of langchain. *)
Inductive chat_class :=
| ChatOpenAI | ChatAnthropic | ChatGroq | ChatGoogleGenerativeAI.

Section Construction.
(** [os.getenv] *)
Variable getenv : string -> option string.

Definition has_key (name : string) : bool := str_truthy (getenv name).

(** Which providers have API keys configured. *)
Definition _check_available_providers : pydict bool :=
  [ ("openai", has_key "OPENAI_API_KEY");
    ("anthropic", has_key "ANTHROPIC_API_KEY");
    ("groq", has_key "GROQ_API_KEY");
    ("google", has_key "GOOGLE_API_KEY") ].

Definition __init__ (default_provider default_model : option string)
    (cost_optimization : bool) (temperature : float) : MultiLLMRouter :=
  {| default_provider := default_provider;
     default_model := default_model;
     cost_optimization := cost_optimization;
     temperature := temperature;
     available_providers := _check_available_providers |}.
End Construction.

Definition _get_fallback_model (provider : string) : string :=
  dict_get_default
    [ ("openai", "gpt-4o-mini");
      ("anthropic", "claude-3-5-haiku-20241022");
      ("groq", "llama-3.1-8b-instant");
      ("google", "gemini-2.0-flash-exp") ]
    provider "gpt-4o-mini".

(** [(model_cost.get("input", 0) + model_cost.get("output", 0)) / 2]
    for [model_cost = COST_MAP.get(model, {})]. *)
Definition avg_cost (model : string) : float :=
  let model_cost := dict_get_default COST_MAP model [] in
  fdiv (fadd (dict_get_default model_cost "input" fzero)
             (dict_get_default model_cost "output" fzero))
       (float_of_int 2).

(** [max_cost and self.cost_optimization], followed by
    [avg_cost > max_cost]. *)
Definition over_budget (self : MultiLLMRouter) (max_cost : option float)
    (model : string) : bool :=
  match max_cost with
  | Some c =>
      float_truthy c && cost_optimization self && fgt (avg_cost model) c
  | None => false
  end.

Definition no_provider : exn :=
  Exn RuntimeError "No LLM providers available. Please configure API keys.".

Section Routing.
(** The objects built by langchain, and its constructors, which may
    raise. *)
Variable LLM : Type.
Variable construct : chat_class -> string -> float -> result LLM.

Definition _create_llm (self : MultiLLMRouter) (provider model : string)
  : result LLM :=
  if String.eqb provider "openai" then
    construct ChatOpenAI model (temperature self)
  else if String.eqb provider "anthropic" then
    construct ChatAnthropic model (temperature self)
  else if String.eqb provider "groq" then
    construct ChatGroq model (temperature self)
  else if String.eqb provider "google" then
    construct ChatGoogleGenerativeAI model (temperature self)
  else Raise (Exn ValueError ("Unsupported provider: " ++ provider)).

(** The loop over the recommended models of the tier. *)
Fixpoint route_recommended (self : MultiLLMRouter)
    (max_cost : option float) (recommended_models : list (string * string))
  : option (LLM * string * string) :=
  match recommended_models with
  | [] => None
  | (provider, model) :: rest =>
      if negb (dict_get_default (available_providers self) provider false)
      then route_recommended self max_cost rest
      else if over_budget self max_cost model
      then route_recommended self max_cost rest
      else
        match _create_llm self provider model with
        | Ok llm => Some (llm, provider, model)
        | Raise _ => route_recommended self max_cost rest
        end
  end.

(** The fallback loop over [available_providers.items()]. *)
Fixpoint route_fallback (self : MultiLLMRouter) (items : pydict bool)
  : option (LLM * string * string) :=
  match items with
  | [] => None
  | (provider, available) :: rest =>
      if available then
        let fallback_model := _get_fallback_model provider in
        match _create_llm self provider fallback_model with
        | Ok llm => Some (llm, provider, fallback_model)
        | Raise _ => route_fallback self rest
        end
      else route_fallback self rest
  end.

Definition route_by_tier (self : MultiLLMRouter)
    (complexity : TaskComplexity) (max_cost : option float)
  : result (LLM * string * string) :=
  match route_recommended self max_cost (COMPLEXITY_MODELS complexity) with
  | Some r => Ok r
  | None =>
      match route_fallback self (available_providers self) with
      | Some r => Ok r
      | None => Raise no_provider
      end
  end.

(** Whether the default provider/model pair is specified and its
    provider is available. *)
Definition default_applies (self : MultiLLMRouter) : bool :=
  str_truthy (default_provider self) && str_truthy (default_model self)
  && match default_provider self with
     | Some p => dict_get_default (available_providers self) p false
     | None => false
     end.

Definition route_task (self : MultiLLMRouter) (task_description : string)
    (complexity : TaskComplexity) (max_cost : option float)
  : result (LLM * string * string) :=
  match default_provider self, default_model self with
  | Some dp, Some dm =>
      if default_applies self then
        llm <- _create_llm self dp dm ;;
        Ok (llm, dp, dm)
      else route_by_tier self complexity max_cost
  | _, _ => route_by_tier self complexity max_cost
  end.
End Routing.

Arguments _create_llm {LLM} construct self provider model.
Arguments route_recommended {LLM} construct self max_cost recommended_models.
Arguments route_fallback {LLM} construct self items.
Arguments route_by_tier {LLM} construct self complexity max_cost.
Arguments route_task {LLM} construct self task_description complexity max_cost.

(** [costs["input"]] *)
Definition getitem (d : pydict float) (k : string) : result float :=
  match dict_get d k with
  | Some v => Ok v
  | None => Raise (Exn OtherError k)
  end.

(** The [int] zeros of the default entry are converted to floats by
    the multiplications. *)
Definition estimate_cost (provider model : string)
    (input_tokens output_tokens : Z) : result float :=
  let costs := dict_get_default COST_MAP model (cost_entry fzero fzero) in
  i <- int_truediv input_tokens 1000000 ;;
  ci <- getitem costs "input" ;;
  let input_cost := fmul i ci in
  o <- int_truediv output_tokens 1000000 ;;
  co <- getitem costs "output" ;;
  let output_cost := fmul o co in
  Ok (fadd input_cost output_cost).

(** *** Recommendation by task type *)

Definition task_complexity_map : pydict TaskComplexity :=
  [ ("quick_lookup", SIMPLE);
    ("screening", SIMPLE);
    ("comparison", MODERATE);
    ("analysis", COMPLEX);
    ("deep_analysis", CRITICAL) ].

(** [if budget:] followed by [avg_cost > budget]. *)
Definition over_given_budget (budget : option float) (model : string) : bool :=
  match budget with
  | Some b => float_truthy b && fgt (avg_cost model) b
  | None => false
  end.

(** The loop of [recommend_model] over the recommended models. *)
Fixpoint recommend_from (self : MultiLLMRouter) (budget : option float)
    (recommended : list (string * string)) : option (string * string) :=
  match recommended with
  | [] => None
  | (provider, model) :: rest =>
      if negb (dict_get_default (available_providers self) provider false)
      then recommend_from self budget rest
      else if over_given_budget budget model
      then recommend_from self budget rest
      else Some (provider, model)
  end.

(** The fallback loop of [recommend_model]. *)
Fixpoint first_available (items : pydict bool) : option (string * string) :=
  match items with
  | [] => None
  | (provider, available) :: rest =>
      if available then Some (provider, _get_fallback_model provider)
      else first_available rest
  end.

Definition no_suitable_model : exn :=
  Exn RuntimeError "No suitable model found".

Definition recommend_model (self : MultiLLMRouter) (task_type : string)
    (budget : option float) : result (string * string) :=
  let complexity := dict_get_default task_complexity_map task_type MODERATE in
  let recommended := COMPLEXITY_MODELS complexity in
  match recommend_from self budget recommended with
  | Some r => Ok r
  | None =>
      match first_available (available_providers self) with
      | Some r => Ok r
      | None => Raise no_suitable_model
      end
  end.

(** *** Available models by provider *)

(** [sum(self.COMPLEXITY_MODELS.values(), [])] *)
Definition all_recommendations : list (string * string) :=
  (COMPLEXITY_MODELS SIMPLE ++ COMPLEXITY_MODELS MODERATE
   ++ COMPLEXITY_MODELS COMPLEX ++ COMPLEXITY_MODELS CRITICAL)%list.

(** [[model for p, model in ... if p == provider]] *)
Definition models_of (provider : string) : list string :=
  map snd (filter (fun pm => String.eqb (fst pm) provider)
                  all_recommendations).

Section AvailableModels.
(** [list(set(models))]: the members of a list, once each, in an order
    that the language does not fix. *)
Variable list_of_set : list string -> list string.

Fixpoint collect_models (items : pydict bool)
    (available : pydict (list string)) : pydict (list string) :=
  match items with
  | [] => available
  | (provider, is_available) :: rest =>
      if is_available then
        collect_models rest
          (dict_set available provider (list_of_set (models_of provider)))
      else collect_models rest available
  end.

(** Get available models by provider. *)
Definition get_available_models (self : MultiLLMRouter)
  : pydict (list string) :=
  collect_models (available_providers self) [].
End AvailableModels.

End Router.

(** ** The coordinator: [task_coordinator.py] *)

Module Coordinator.
Import Py Py.Notations Router.

(** The result of one agent call, a dict.  The coordinator reads two
    of its keys, ["error"] and ["analysis"], both holding text; the
    other fields are carried along. *)
Definition AgentResult := pydict string.

(** A task tuple [(agent_type, *args)]. *)
Record Task := { task_type : string; task_args : list pyval }.

Record TaskCoordinator (Agent : Type) := {
  llm_router : MultiLLMRouter;
  max_workers : Z;
  agents : pydict Agent
}.
Arguments llm_router {Agent} t.
Arguments max_workers {Agent} t.
Arguments agents {Agent} t.

(** *** The agent cache *)

Inductive agent_class :=
| StockAnalystAgent | CryptoAnalystAgent | TechnicalAgent | FundamentalAgent.

(** What the coordinator asks of its collaborators, in the order of
    the calls: a selection by the router, and the construction of an
    agent that succeeded. *)
Inductive event :=
| Routed (agent_type : string)
| Built (agent_type : string) (object_id : nat).

Section Agents.
Variable LLM : Type.
Variable construct : chat_class -> string -> float -> result LLM.

(** An agent object; [agent_id] is its identity. *)
Record Agent := {
  agent_id : nat;
  agent_kind : agent_class;
  agent_llm : LLM
}.

(** The coordinator, the next free object identity, and the calls
    made so far (oldest first). *)
Record World := {
  self : TaskCoordinator Agent;
  next_id : nat;
  events : list event
}.

Definition __init__ (llm_router : MultiLLMRouter) (max_workers : Z)
  : World :=
  {| self := {| llm_router := llm_router;
                max_workers := max_workers;
                agents := [] |};
     next_id := 0;
     events := [] |}.

(** [_initialize_llm] of the four agent classes (the same in each):
    the agents know three providers.  [provider.lower()] is compared
    with three ASCII names.  A character outside ASCII lower-cases to
    text that holds a character outside ASCII, except the Kelvin sign,
    which lower-cases to k, a letter of none of the names; so [lower]
    decides the comparisons as [str.lower] does. *)
Definition _initialize_llm (provider model_name : string)
    (temperature : float) : result LLM :=
  if String.eqb (lower provider) "openai" then
    construct ChatOpenAI model_name temperature
  else if String.eqb (lower provider) "anthropic" then
    construct ChatAnthropic model_name temperature
  else if String.eqb (lower provider) "groq" then
    construct ChatGroq model_name temperature
  else Raise (Exn ValueError ("Unsupported LLM provider: " ++ provider)).

(** [Cls(llm_provider=provider, model_name=model)], with the default
    temperature [0.1].  The data clients the constructors also build
    only read the environment and open a session. *)
Definition new_agent (cls : agent_class) (provider model : string)
    (object_id : nat) : result Agent :=
  llm <- _initialize_llm provider model (ratio 1 10) ;;
  Ok {| agent_id := object_id; agent_kind := cls; agent_llm := llm |}.

Definition class_of (agent_type : string) : option agent_class :=
  if String.eqb agent_type "stock_analyst" then Some StockAnalystAgent
  else if String.eqb agent_type "crypto_analyst" then Some CryptoAnalystAgent
  else if String.eqb agent_type "technical" then Some TechnicalAgent
  else if String.eqb agent_type "fundamental" then Some FundamentalAgent
  else None.

Definition log (e : event) (w : World) : World :=
  {| self := self w; next_id := next_id w; events := (events w ++ [e])%list |}.

Definition cache (agent_type : string) (agent : Agent) (w : World) : World :=
  {| self := {| llm_router := llm_router (self w);
                max_workers := max_workers (self w);
                agents := dict_set (agents (self w)) agent_type agent |};
     next_id := S (next_id w);
     events := (events w ++ [Built agent_type (agent_id agent)])%list |}.

(** Get or create an agent instance. *)
Definition _get_or_create_agent (agent_type : string)
    (complexity : TaskComplexity) (w : World) : result Agent * World :=
  match dict_get (agents (self w)) agent_type with
  | Some agent => (Ok agent, w)
  | None =>
      let w1 := log (Routed agent_type) w in
      match route_task construct (llm_router (self w))
              (agent_type ++ " analysis") complexity None with
      | Raise e => (Raise e, w1)
      | Ok (_, provider, model) =>
          match class_of agent_type with
          | None =>
              (Raise (Exn ValueError ("Unknown agent type: " ++ agent_type)),
               w1)
          | Some cls =>
              match new_agent cls provider model (next_id w1) with
              | Raise e => (Raise e, w1)
              | Ok agent => (Ok agent, cache agent_type agent w1)
              end
          end
      end
  end.

(** A sequence of requests made to one coordinator, each with its
    outcome. *)
Fixpoint requests (reqs : list (string * TaskComplexity)) (w : World)
  : list (result Agent) * World :=
  match reqs with
  | [] => ([], w)
  | (agent_type, complexity) :: rest =>
      let '(r, w1) := _get_or_create_agent agent_type complexity w in
      let '(rs, w2) := requests rest w1 in
      (r :: rs, w2)
  end.

(** Ghost counts over the log. *)
Definition is_routed (agent_type : string) (e : event) : bool :=
  match e with
  | Routed t => String.eqb t agent_type
  | Built _ _ => false
  end.

Definition is_built (agent_type : string) (e : event) : bool :=
  match e with
  | Routed _ => false
  | Built t _ => String.eqb t agent_type
  end.

Definition selections (agent_type : string) (w : World) : nat :=
  List.length (filter (is_routed agent_type) (events w)).

Definition constructions (agent_type : string) (w : World) : nat :=
  List.length (filter (is_built agent_type) (events w)).
End Agents.

Arguments agent_id {LLM} a.
Arguments agent_kind {LLM} a.
Arguments agent_llm {LLM} a.
Arguments self {LLM} w.
Arguments next_id {LLM} w.
Arguments events {LLM} w.
Arguments _initialize_llm {LLM} construct provider model_name temperature.
Arguments new_agent {LLM} construct cls provider model object_id.
Arguments log {LLM} e w.
Arguments cache {LLM} agent_type agent w.
Arguments _get_or_create_agent {LLM} construct agent_type complexity w.
Arguments requests {LLM} construct reqs w.
Arguments selections {LLM} agent_type w.
Arguments constructions {LLM} agent_type w.

(** *** Running a batch *)

Section Batch.
(** The builtins of the language that depend on the Unicode database. *)
Variable py : Builtins.
(** The outcome of the agent call for each task. *)
Variable execute : Task -> result AgentResult.
(** The order in which a pool hands back its futures. *)
Variable as_completed : forall A : Type, list A -> list A.
(** [datetime.now().isoformat()] *)
Variable now : string.

Variable Agent : Type.
Variable self : TaskCoordinator Agent.

(** The body of the [try] statement of both execution paths. *)
Definition settle (results : pydict AgentResult) (agent_type : string)
    (outcome : result AgentResult) : pydict AgentResult :=
  match outcome with
  | Ok result => dict_set results agent_type result
  | Raise e => dict_set results agent_type [("error", exn_msg e)]
  end.

(** [ThreadPoolExecutor(max_workers=n)] *)
Definition ThreadPoolExecutor (n : Z) : result unit :=
  if n <=? 0 then
    Raise (Exn ValueError "max_workers must be greater than 0")
  else Ok tt.

(** Execute tasks in parallel: one future per task, settled in the
    order of completion. *)
Definition _execute_parallel (tasks : list Task)
  : result (pydict AgentResult) :=
  executor <- ThreadPoolExecutor (max_workers self) ;;
  let future_to_task :=
    map (fun task => (task_type task, execute task)) tasks in
  Ok (fold_left (fun results future =>
                   settle results (fst future) (snd future))
                (as_completed _ future_to_task) []).

(** Execute tasks sequentially. *)
Definition _execute_sequential (tasks : list Task)
  : pydict AgentResult :=
  fold_left (fun results task =>
               settle results (task_type task) (execute task))
            tasks [].

(** One line of the summary, if the entry yields one. *)
Definition summary_line (agent_type : string) (result : AgentResult)
  : option string :=
  match dict_get result "error" with
  | Some error => Some (agent_type ++ ": Error - " ++ error)
  | None =>
      match dict_get result "analysis" with
      | Some analysis =>
          let first_sentence :=
            if String.eqb analysis EmptyString then "No analysis"
            else before_period analysis in
          Some (agent_type ++ ": " ++ first_sentence)
      | None => None
      end
  end.

Fixpoint summaries (results : pydict AgentResult) : list string :=
  match results with
  | [] => []
  | (agent_type, result) :: rest =>
      match summary_line agent_type result with
      | Some line => line :: summaries rest
      | None => summaries rest
      end
  end.

(** Create a summary from multiple agent results. *)
Definition _create_summary (results : pydict AgentResult) : string :=
  join LF (summaries results).

(** The keyword found in one analysis, if any. *)
Definition keyword (analysis : string) : option string :=
  if contains "BUY" (str_upper py analysis) then Some "BUY"
  else if contains "SELL" (str_upper py analysis) then Some "SELL"
  else if contains "HOLD" (str_upper py analysis) then Some "HOLD"
  else None.

(** The confidence number found in one analysis, if any; the
    conversion of the digits found may raise. *)
Definition stated_confidence (analysis : string) : result (option Z) :=
  if contains "confidence" (str_lower py analysis) then
    match re_search_confidence py (str_lower py analysis) with
    | Some digits =>
        confidence <- int_of_str py digits ;;
        Ok (Some confidence)
    | None => Ok None
    end
  else Ok None.

Definition push {A} (l : list A) (o : option A) : list A :=
  match o with
  | Some a => (l ++ [a])%list
  | None => l
  end.

(** The first loop of [_determine_consensus]; an exception raised by
    a conversion leaves the loop and the function. *)
Fixpoint collect (results : pydict AgentResult)
    (recommendations : list string) (confidence_scores : list Z)
  : result (list string * list Z) :=
  match results with
  | [] => Ok (recommendations, confidence_scores)
  | (agent_type, result) :: rest =>
      if dict_mem result "error" then
        collect rest recommendations confidence_scores
      else
        let analysis := dict_get_default result "analysis" EmptyString in
        let recommendations := push recommendations (keyword analysis) in
        confidence <- stated_confidence analysis ;;
        collect rest recommendations (push confidence_scores confidence)
  end.

Definition count (l : list string) (x : string) : Z :=
  Z.of_nat (count_occ string_dec l x).

Definition max3 (a b c : Z) : Z := Z.max (Z.max a b) c.

(** The majority test, and the share of the winning (or largest)
    count. *)
Definition majority (buy_count sell_count hold_count total : Z)
  : result (string * float) :=
  if (sell_count <? buy_count) && (hold_count <? buy_count) then
    agreement <- int_truediv buy_count total ;;
    Ok ("BUY", agreement)
  else if (buy_count <? sell_count) && (hold_count <? sell_count) then
    agreement <- int_truediv sell_count total ;;
    Ok ("SELL", agreement)
  else if (buy_count <? hold_count) && (sell_count <? hold_count) then
    agreement <- int_truediv hold_count total ;;
    Ok ("HOLD", agreement)
  else
    agreement <- int_truediv (max3 buy_count sell_count hold_count) total ;;
    Ok ("MIXED", agreement).

(** [sum(confidence_scores) / len(confidence_scores) if
    confidence_scores else 5] *)
Definition average_confidence (confidence_scores : list Z)
  : result pyval :=
  match confidence_scores with
  | [] => Ok (VInt 5)
  | _ =>
      a <- int_truediv (sum confidence_scores) (len confidence_scores) ;;
      Ok (VFloat a)
  end.

(** Determine consensus recommendation from multiple agents. *)
Definition _determine_consensus (results : pydict AgentResult)
  : result (pydict pyval) :=
  '(recommendations, confidence_scores) <- collect results [] [] ;;
  match recommendations with
  | [] =>
      Ok [ ("recommendation", VStr "INSUFFICIENT_DATA");
           ("confidence", VInt 0);
           ("agreement", VInt 0) ]
  | _ =>
      let buy_count := count recommendations "BUY" in
      let sell_count := count recommendations "SELL" in
      let hold_count := count recommendations "HOLD" in
      let total := len recommendations in
      '(consensus, agreement) <-
        majority buy_count sell_count hold_count total ;;
      avg_confidence <- average_confidence confidence_scores ;;
      Ok [ ("recommendation", VStr consensus);
           ("confidence", round1_num avg_confidence);
           ("agreement",
            VFloat (round1 (fmul agreement (float_of_int 100))));
           ("breakdown", VDict [ ("BUY", VInt buy_count);
                                 ("SELL", VInt sell_count);
                                 ("HOLD", VInt hold_count) ]) ]
  end.

(** The [analyses] field: the result mapping as a value. *)
Definition analyses_value (results : pydict AgentResult) : pyval :=
  VDict (map (fun entry =>
                (fst entry,
                 VDict (map (fun f => (fst f, VStr (snd f))) (snd entry))))
             results).

Definition aggregate (key : string) (id : string)
    (results : pydict AgentResult) : result (pydict pyval) :=
  let summary := _create_summary results in
  consensus <- _determine_consensus results ;;
  Ok [ (key, VStr id);
       ("timestamp", VStr now);
       ("analyses", analyses_value results);
       ("summary", VStr summary);
       ("consensus", VDict consensus) ].

Definition _aggregate_stock_results := aggregate "ticker".
Definition _aggregate_crypto_results := aggregate "symbol".

Definition run (parallel : bool) (tasks : list Task)
  : result (pydict AgentResult) :=
  if parallel then _execute_parallel tasks
  else Ok (_execute_sequential tasks).

Definition analyze_stock_comprehensive (ticker : string)
    (include_fundamental include_technical parallel : bool)
  : result (pydict pyval) :=
  let tasks :=
    ((if include_fundamental
      then [ {| task_type := "fundamental"; task_args := [VStr ticker] |} ]
      else [])
     ++ (if include_technical
         then [ {| task_type := "technical"; task_args := [VStr ticker] |} ]
         else [])
     ++ [ {| task_type := "stock_analyst";
             task_args := [VStr ticker] |} ])%list in
  results <- run parallel tasks ;;
  _aggregate_stock_results ticker results.

Definition analyze_crypto_comprehensive (symbol : string)
    (include_onchain include_technical parallel : bool)
  : result (pydict pyval) :=
  let tasks :=
    ([ {| task_type := "crypto_analyst";
          task_args :=
            [ VStr symbol;
              VDict [("include_onchain", VBool include_onchain)] ] |} ]
     ++ (if include_technical
         then [ {| task_type := "technical"; task_args := [VStr symbol] |} ]
         else []))%list in
  results <- run parallel tasks ;;
  _aggregate_crypto_results symbol results.

(** The futures submitted by [batch_analyze], one per supported
    ticker. *)
Fixpoint submit_all (tickers : list string) (asset_type : string)
  : list (string * result (pydict pyval)) :=
  match tickers with
  | [] => []
  | ticker :: rest =>
      if String.eqb asset_type "stock" then
        (ticker, analyze_stock_comprehensive ticker true true true)
          :: submit_all rest asset_type
      else if String.eqb asset_type "crypto" then
        (ticker, analyze_crypto_comprehensive ticker true true true)
          :: submit_all rest asset_type
      else submit_all rest asset_type
  end.

Definition settle_ticker (results : pydict pyval) (ticker : string)
    (outcome : result (pydict pyval)) : pydict pyval :=
  match outcome with
  | Ok result => dict_set results ticker (VDict result)
  | Raise e => dict_set results ticker (VDict [("error", VStr (exn_msg e))])
  end.

(** Analyze multiple assets in batch. *)
Definition batch_analyze (tickers : list string) (asset_type : string)
    (analysis_type : string) : result (pydict pyval) :=
  executor <- ThreadPoolExecutor (max_workers self) ;;
  let future_to_ticker := submit_all tickers asset_type in
  let results :=
    fold_left (fun results future =>
                 settle_ticker results (fst future) (snd future))
              (as_completed _ future_to_ticker) [] in
  Ok [ ("batch_analysis", VBool true);
       ("asset_type", VStr asset_type);
       ("total_analyzed", VInt (len results));
       ("results", VDict results);
       ("timestamp", VStr now) ].
End Batch.

Arguments _execute_parallel execute as_completed {Agent} self tasks.
Arguments run execute as_completed {Agent} self parallel tasks.
Arguments analyze_stock_comprehensive py execute as_completed now {Agent} self
  ticker include_fundamental include_technical parallel.
Arguments analyze_crypto_comprehensive py execute as_completed now {Agent}
  self symbol include_onchain include_technical parallel.
Arguments submit_all py execute as_completed now {Agent} self
  tickers asset_type.
Arguments batch_analyze py execute as_completed now {Agent} self
  tickers asset_type analysis_type.

(** *** Calling the agents *)

(** The analysis methods of the agents. *)
Inductive agent_method :=
| analyze_stock | analyze_crypto | analyze_technical | analyze_fundamentals.

(** [{"comparison_type": ..., "assets": ..., "results": ...,
    "timestamp": ...}] *)
Record Comparison := {
  comparison_type : string;
  assets : list string;
  results : pydict AgentResult;
  timestamp : string
}.

(** [args and isinstance(args[-1], dict)]: a trailing dict holds the
    keyword arguments. *)
Definition split_kwargs (args : list pyval) : list pyval * pydict pyval :=
  match rev args with
  | VDict kwargs :: front => (rev front, kwargs)
  | _ => (args, [])
  end.

(** [args[0]] *)
Definition first_arg (args : list pyval) : result pyval :=
  match args with
  | x :: _ => Ok x
  | [] => Raise (Exn IndexError "tuple index out of range")
  end.

Section Dispatch.
Variable LLM : Type.
Variable construct : chat_class -> string -> float -> result LLM.
(** A call of an analysis method of an agent, with its first argument
    and its keyword arguments. *)
Variable call :
  Agent LLM -> agent_method -> pyval -> pydict pyval -> result AgentResult.
(** [FundamentalAgent.compare_companies] *)
Variable compare_companies :
  Agent LLM -> list string -> result (pydict pyval).
(** [datetime.now().isoformat()] *)
Variable now : string.

(** Execute a single agent task. *)
Definition _execute_agent_task (agent_type : string) (args : list pyval)
    (w : World LLM) : result AgentResult * World LLM :=
  match _get_or_create_agent construct agent_type MODERATE w with
  | (Raise e, w1) => (Raise e, w1)
  | (Ok agent, w1) =>
      let '(args, kwargs) := split_kwargs args in
      if String.eqb agent_type "stock_analyst" then
        (x <- first_arg args ;; call agent analyze_stock x [], w1)
      else if String.eqb agent_type "crypto_analyst" then
        (x <- first_arg args ;; call agent analyze_crypto x kwargs, w1)
      else if String.eqb agent_type "technical" then
        (x <- first_arg args ;; call agent analyze_technical x [], w1)
      else if String.eqb agent_type "fundamental" then
        (x <- first_arg args ;; call agent analyze_fundamentals x [], w1)
      else
        (Raise (Exn ValueError ("Unknown agent type: " ++ agent_type)), w1)
  end.

(** The loop of [compare_assets] over the tickers. *)
Fixpoint compare_each (agent : Agent LLM) (tickers : list string)
    (results : pydict AgentResult) : result (pydict AgentResult) :=
  match tickers with
  | [] => Ok results
  | ticker :: rest =>
      r <- call agent analyze_crypto (VStr ticker) [] ;;
      compare_each agent rest (dict_set results ticker r)
  end.

(** Compare multiple assets using appropriate agents. *)
Definition compare_assets (tickers : list string) (asset_type : string)
    (w : World LLM) : result (pydict pyval + Comparison) * World LLM :=
  if String.eqb asset_type "stock" then
    match _get_or_create_agent construct "fundamental" MODERATE w with
    | (Raise e, w1) => (Raise e, w1)
    | (Ok agent, w1) =>
        (r <- compare_companies agent tickers ;; Ok (inl r), w1)
    end
  else if String.eqb asset_type "crypto" then
    match _get_or_create_agent construct "crypto_analyst" MODERATE w with
    | (Raise e, w1) => (Raise e, w1)
    | (Ok agent, w1) =>
        (results <- compare_each agent tickers [] ;;
         Ok (inr {| comparison_type := "crypto";
                    assets := tickers;
                    results := results;
                    timestamp := now |}), w1)
    end
  else (Raise (Exn ValueError ("Unsupported asset type: " ++ asset_type)), w).
End Dispatch.

Arguments _execute_agent_task {LLM} construct call agent_type args w.
Arguments compare_each {LLM} call agent tickers results.
Arguments compare_assets {LLM} construct call compare_companies now
  tickers asset_type w.


End Coordinator.

(** ** Vocabulary of the statements *)

Module Spec.
Import Py Py.Notations Router Coordinator.

(** *** Batches *)

(** A failure entry is one with an ["error"] key, as the summary and the
    consensus tell them apart. *)
Definition is_failure (entry : string * AgentResult) : bool :=
  dict_mem (snd entry) "error".

Definition is_success (entry : string * AgentResult) : bool :=
  negb (is_failure entry).

(** The entry recorded for an outcome. *)
Definition entry_of (outcome : result AgentResult) : AgentResult :=
  match outcome with
  | Ok r => r
  | Raise e => [("error", exn_msg e)]
  end.

(** What a batch records for one task. *)
Definition recorded (execute : Task -> result AgentResult) (t : Task)
  : string * AgentResult :=
  (task_type t, entry_of (execute t)).

(** The result mapping of a batch in which [bad] raised [e]: one entry
    per task name; the entry of [bad] is the failure record of [e]; every
    other entry is the result returned; one failure entry in all. *)
Definition isolates (execute : Task -> result AgentResult)
    (tasks : list Task) (bad : Task) (e : exn)
    (results : pydict AgentResult) : Prop :=
  List.length results = List.length tasks
  /\ NoDup (dict_keys results)
  /\ (forall name,
         In name (dict_keys results) <-> In name (map task_type tasks))
  /\ dict_get results (task_type bad) = Some [("error", exn_msg e)]
  /\ (forall t, In t tasks -> t <> bad ->
        exists r, execute t = Ok r /\ dict_get results (task_type t) = Some r)
  /\ List.length (filter is_failure results) = 1%nat
  /\ List.length (filter is_success results) = (List.length tasks - 1)%nat.

(** *** Routing *)

Definition available (self : MultiLLMRouter) (provider : string) : Prop :=
  dict_get (available_providers self) provider = Some true.

(** The ceiling is strictly below the average cost of every candidate
    of the tier. *)
Definition below_all (c : float) (complexity : TaskComplexity) : Prop :=
  forall p m, In (p, m) (COMPLEXITY_MODELS complexity) ->
              flt c (avg_cost m) = true.

(** With such a ceiling, the router answers with the fallback model of
    an available provider, outside the tier's list, or fails because no
    provider is available. *)
Definition respects_ceiling {LLM : Type}
    (construct : chat_class -> string -> float -> result LLM)
    (self : MultiLLMRouter) (complexity : TaskComplexity) (c : float)
  : Prop :=
  below_all c complexity ->
  forall task_description,
    match route_task construct self task_description complexity (Some c) with
    | Ok (_, p, m) =>
        available self p /\ m = _get_fallback_model p
        /\ ~ In (p, m) (COMPLEXITY_MODELS complexity)
    | Raise e => e = no_provider /\ forall p, ~ available self p
    end.

(** *** Floats *)

Definition nonneg_finite (q : float) : Prop :=
  q = S754_zero false \/ exists m e, q = S754_finite false m e.

(** *** Consensus *)


Definition largest (recommendations : list string) : Z :=
  max3 (count recommendations "BUY") (count recommendations "SELL")
       (count recommendations "HOLD").

Definition breakdown (recommendations : list string) : pyval :=
  VDict [ ("BUY", VInt (count recommendations "BUY"));
          ("SELL", VInt (count recommendations "SELL"));
          ("HOLD", VInt (count recommendations "HOLD")) ].

Definition verdict (consensus : string) (confidence : pyval)
    (agreement : float) (recommendations : list string) : pydict pyval :=
  [ ("recommendation", VStr consensus);
    ("confidence", confidence);
    ("agreement", VFloat agreement);
    ("breakdown", breakdown recommendations) ].

(** [x * 100], rounded to one decimal place. *)
Definition percentage (share : float) : float :=
  round1 (fmul share (float_of_int 100)).

Definition insufficient_data : pydict pyval :=
  [ ("recommendation", VStr "INSUFFICIENT_DATA");
    ("confidence", VInt 0);
    ("agreement", VInt 0) ].

Definition has_all_fields (v : pydict pyval) : bool :=
  dict_mem v "recommendation" && dict_mem v "confidence"
  && dict_mem v "agreement" && dict_mem v "breakdown".

(** Every verdict carries the breakdown next to the recommendation, the
    confidence and the agreement. *)
Definition verdict_has_breakdown (py : Builtins)
    (results : pydict AgentResult) : Prop :=
  forall v, _determine_consensus py results = Ok v ->
            has_all_fields v = true.


(** Ten times the magnitude [m * 2 ^ e] of a float, as a fraction. *)
Definition tenfold_num (m : positive) (e : Z) : Z :=
  10 * Zpos m * 2 ^ Z.max e 0.
Definition tenfold_den (e : Z) : Z := 2 ^ Z.max (- e) 0.

(** The double nearest to the decimal [k / 10], with sign [s]. *)
Definition tenths_of (s : bool) (k : Z) : float :=
  match k with
  | Zpos p => fdiv (S754_finite s p 0) (S754_finite false 10 0)
  | _ => S754_zero s
  end.

(** [a] is [x] rounded to one decimal place: the decimal [k / 10] for
    the integer [k] nearest to ten times the magnitude of [x], the even
    one of two that are equally near, with the sign of [x]; an infinity
    or a NaN is left as it is. *)
Definition one_decimal (x a : float) : Prop :=
  match x with
  | S754_finite s m e =>
      exists k : Z,
        0 <= k
        /\ 2 * Z.abs (tenfold_num m e - k * tenfold_den e) <= tenfold_den e
        /\ (2 * Z.abs (tenfold_num m e - k * tenfold_den e) = tenfold_den e
            -> Z.even k = true)
        /\ a = tenths_of s k
  | _ => a = x
  end.

(** A verdict with recommendation [consensus] whose agreement is the
    share [tally / total] as a percentage, rounded to one decimal
    place. *)
Definition agrees (v : pydict pyval) (consensus : string)
    (tally total : Z) : Prop :=
  dict_get v "recommendation" = Some (VStr consensus)
  /\ exists share a,
       int_truediv tally total = Ok share
       /\ one_decimal (fmul share (float_of_int 100)) a
       /\ dict_get v "agreement" = Some (VFloat a).

(** The analysis text of an entry, [result.get("analysis", "")]. *)
Definition analysis_of (entry : string * AgentResult) : string :=
  dict_get_default (snd entry) "analysis" EmptyString.

(** Every analysis is ASCII text. *)
Definition ascii_results (results : pydict AgentResult) : bool :=
  forallb (fun entry => is_ascii (analysis_of entry)) results.

(** *** Summary *)





(** *** Agent cache *)

Definition cached {LLM : Type} (w : World LLM) (agent_type : string)
    (a : Agent LLM) : Prop :=
  dict_get (agents (self w)) agent_type = Some a.

(** The cache and the log agree: a cached type was built once, any
    other type never. *)
Definition consistent {LLM : Type} (w : World LLM) : Prop :=
  NoDup (dict_keys (agents (self w)))
  /\ forall t, constructions t w
               = if dict_mem (agents (self w)) t then 1%nat else 0%nat.

(** At most one selection by the router and one construction per type,
    over a sequence of requests to a new coordinator. *)
Definition single_selection {LLM : Type}
    (construct : chat_class -> string -> float -> result LLM)
    (router : MultiLLMRouter) (workers : Z)
    (reqs : list (string * TaskComplexity)) : Prop :=
  let w := snd (requests construct reqs
                         (Coordinator.__init__ LLM router workers)) in
  forall t, (selections t w <= 1)%nat /\ (constructions t w <= 1)%nat.

(** *** Further vocabulary: routing *)

(** The chat-model constructors never raise. *)
Definition never_raises {LLM : Type}
    (construct : chat_class -> string -> float -> result LLM) : Prop :=
  forall cls model t, exists llm, construct cls model t = Ok llm.

(** A candidate the tier loop passes over: its provider is unavailable,
    or it is over budget, or its chat model cannot be built. *)
Definition passed_over {LLM : Type}
    (construct : chat_class -> string -> float -> result LLM)
    (self : MultiLLMRouter) (max_cost : option float)
    (candidate : string * string) : Prop :=
  dict_get_default (available_providers self) (fst candidate) false = false
  \/ over_budget self max_cost (snd candidate) = true
  \/ exists e, _create_llm construct self (fst candidate) (snd candidate)
               = Raise e.

(** [list(set(l))] has the members of [l], once each. *)
Definition set_like (list_of_set : list string -> list string) : Prop :=
  forall l, NoDup (list_of_set l)
            /\ forall x, In x (list_of_set l) <-> In x l.

(** The provider and model of a routing outcome. *)
Definition names {LLM : Type} (r : option (LLM * string * string))
  : option (string * string) :=
  match r with
  | Some (_, p, m) => Some (p, m)
  | None => None
  end.

(** *** Further vocabulary: consensus *)

(** The tally that one entry contributes, if any. *)
Definition opinion (py : Builtins) (entry : string * AgentResult)
  : list string :=
  if is_failure entry then []
  else push [] (keyword py (analysis_of entry)).

Definition opinions (py : Builtins) (results : pydict AgentResult)
  : list string :=
  flat_map (opinion py) results.

(** The confidences that the successful entries state, when every
    conversion returns. *)
Fixpoint scores (py : Builtins) (results : pydict AgentResult)
  : result (list Z) :=
  match results with
  | [] => Ok []
  | entry :: rest =>
      if is_failure entry then scores py rest
      else
        confidence <- stated_confidence py (analysis_of entry) ;;
        others <- scores py rest ;;
        Ok (push [] confidence ++ others)%list
  end.

(** An exception raised by [int] on some text. *)
Definition conversion_error (py : Builtins) (e : exn) : Prop :=
  exists digits, int_of_str py digits = Raise e.

(** Two exceptions that are the same, or are both raised by a
    conversion (of the confidence of one entry and of another). *)
Definition same_error (py : Builtins) (e e' : exn) : Prop :=
  e = e' \/ (conversion_error py e /\ conversion_error py e').

(** Two outcomes of the consensus that are the same verdict, or are
    both an exception. *)
Definition same_verdict (py : Builtins) (x y : result (pydict pyval))
  : Prop :=
  match x, y with
  | Ok a, Ok b => a = b
  | Raise e, Raise e' => same_error py e e'
  | _, _ => False
  end.

(** The number of entries without an ["error"] key. *)
Definition successes (results : pydict AgentResult) : Z :=
  len (filter is_success results).

(** [winner] has strictly more tallies than each of the other two
    classes. *)
Definition strict_winner (recommendations : list string) (winner : string)
  : Prop :=
  In winner ["BUY"; "SELL"; "HOLD"]
  /\ forall other, In other ["BUY"; "SELL"; "HOLD"] -> other <> winner ->
       count recommendations other < count recommendations winner.

(** *** Further vocabulary: the pipelines *)

(** Two outcomes of a comprehensive analysis that differ at most in
    the order of their entries, or are both an exception. *)
Definition same_analysis (py : Builtins) (x y : result (pydict pyval))
  : Prop :=
  match x, y with
  | Ok a, Ok b =>
      dict_get a "consensus" = dict_get b "consensus"
      /\ dict_get a "timestamp" = dict_get b "timestamp"
      /\ exists ra rb,
           dict_get a "analyses" = Some (VDict ra)
           /\ dict_get b "analyses" = Some (VDict rb)
           /\ Permutation ra rb
  | Raise e, Raise e' => same_error py e e'
  | _, _ => False
  end.

(** The names of the sub-tasks of a comprehensive stock analysis. *)
Definition stock_sub_tasks (include_fundamental include_technical : bool)
  : list string :=
  ((if include_fundamental then ["fundamental"] else [])
   ++ (if include_technical then ["technical"] else [])
   ++ ["stock_analyst"])%list.

(** The record returned by [batch_analyze]. *)
Definition batch_record (asset_type : string) (results : pydict pyval)
    (now : string) : pydict pyval :=
  [ ("batch_analysis", VBool true);
    ("asset_type", VStr asset_type);
    ("total_analyzed", VInt (len results));
    ("results", VDict results);
    ("timestamp", VStr now) ].

(** *** Further vocabulary: agents *)

(** The analysis method of each agent class. *)
Definition method_of (cls : agent_class) : agent_method :=
  match cls with
  | StockAnalystAgent => analyze_stock
  | CryptoAnalystAgent => analyze_crypto
  | TechnicalAgent => analyze_technical
  | FundamentalAgent => analyze_fundamentals
  end.

(** Every cached agent is of the class of its type, and was built
    before the next object. *)
Definition well_kinded {LLM : Type} (w : World LLM) : Prop :=
  forall t a, cached w t a ->
    class_of t = Some (agent_kind a) /\ (agent_id a < next_id w)%nat.

(** The worlds a new coordinator reaches by requests for agents. *)
Definition reached {LLM : Type}
    (construct : chat_class -> string -> float -> result LLM)
    (router : MultiLLMRouter) (workers : Z)
    (reqs : list (string * TaskComplexity)) : World LLM :=
  snd (requests construct reqs (Coordinator.__init__ LLM router workers)).

(** Only the Google key is configured. *)
Definition google_only (getenv : string -> option string) : Prop :=
  has_key getenv "OPENAI_API_KEY" = false
  /\ has_key getenv "ANTHROPIC_API_KEY" = false
  /\ has_key getenv "GROQ_API_KEY" = false
  /\ has_key getenv "GOOGLE_API_KEY" = true.

Definition unsupported_google : exn :=
  Exn ValueError "Unsupported LLM provider: google".

End Spec.

(** ** Concrete inputs *)

Module Examples.
Import Py Py.Notations Router Coordinator Spec.

(** Environments with a single API key. *)
Definition env_openai (name : string) : option string :=
  if String.eqb name "OPENAI_API_KEY" then Some "sk-test" else None.

Definition env_google (name : string) : option string :=
  if String.eqb name "GOOGLE_API_KEY" then Some "g-test" else None.

(** Constructors that never raise. *)
Definition always (cls : chat_class) (model : string) (temperature : float)
  : result chat_class :=
  Ok cls.

Definition router_openai : MultiLLMRouter :=
  Router.__init__ env_openai None None true (ratio 1 10).

(** A router built with [cost_optimization=False]. *)
Definition router_unoptimised : MultiLLMRouter :=
  Router.__init__ env_openai None None false (ratio 1 10).

Definition router_google : MultiLLMRouter :=
  Router.__init__ env_google None None true (ratio 1 10).

Definition coordinator : TaskCoordinator unit :=
  {| llm_router := router_openai; max_workers := 4; agents := [] |}.

(** A pool that hands its futures back last first. *)
Definition last_first (A : Type) (l : list A) : list A := rev l.

Definition fundamental : Task :=
  {| task_type := "fundamental"; task_args := [VStr "AAPL"] |}.
Definition technical : Task :=
  {| task_type := "technical"; task_args := [VStr "AAPL"] |}.
Definition stock_analyst : Task :=
  {| task_type := "stock_analyst"; task_args := [VStr "AAPL"] |}.

Definition three_tasks : list Task := [fundamental; technical; stock_analyst].

Definition timeout : exn := Exn OtherError "Read timed out.".

(** The technical agent fails; the others answer. *)
Definition technical_fails (t : Task) : result AgentResult :=
  if String.eqb (task_type t) "technical" then Raise timeout
  else Ok [ ("ticker", "AAPL");
            ("analysis", "BUY. Strong fundamentals, confidence: 8") ].

Definition three_opinions : pydict AgentResult :=
  [ ("A", [("analysis", "BUY, confidence: 8")]);
    ("B", [("analysis", "BUY, confidence: 6")]);
    ("C", [("analysis", "SELL")]) ].


Definition all_failed : pydict AgentResult :=
  [ ("fundamental", [("error", "Read timed out.")]);
    ("technical", [("error", "Read timed out.")]) ].


(** Two votes for SELL and one for BUY. *)
Definition sell_majority : pydict AgentResult :=
  [ ("A", [("analysis", "SELL, confidence: 9")]);
    ("B", [("analysis", "BUY")]);
    ("C", [("analysis", "SELL")]) ].



(** A coordinator built with [max_workers=0]. *)
Definition idle_coordinator : TaskCoordinator unit :=
  {| llm_router := router_openai; max_workers := 0; agents := [] |}.

Definition twice_technical : list (string * TaskComplexity) :=
  [ ("technical", MODERATE); ("technical", MODERATE) ].

(** A constructor that always raises. *)
Definition unreachable_api (cls : chat_class) (model : string)
    (temperature : float) : result chat_class :=
  Raise (Exn OtherError "Connection refused").

Definition env_empty (name : string) : option string := None.

Definition router_none : MultiLLMRouter :=
  Router.__init__ env_empty None None true (ratio 1 10).

(** A batch in which the technical task is given twice. *)
Definition repeated_tasks : list Task :=
  [ technical; fundamental;
    {| task_type := "technical"; task_args := [VStr "MSFT"] |} ].

(** The outcome names the ticker asked for. *)
Definition echo (t : Task) : result AgentResult :=
  match task_args t with
  | VStr ticker :: _ => Ok [("ticker", ticker); ("analysis", "HOLD")]
  | _ => Raise (Exn IndexError "tuple index out of range")
  end.

(** Every agent call times out. *)
Definition all_time_out (t : Task) : result AgentResult := Raise timeout.

(** An agent method that answers for BTC and times out otherwise. *)
Definition answers_btc (a : Agent chat_class) (m : agent_method)
    (x : pyval) (kwargs : pydict pyval) : result AgentResult :=
  match x with
  | VStr "BTC" => Ok [("symbol", "BTC"); ("analysis", "HOLD")]
  | _ => Raise timeout
  end.

(** An agent method that answers for every ticker. *)
Definition answers_all (a : Agent chat_class) (m : agent_method)
    (x : pyval) (kwargs : pydict pyval) : result AgentResult :=
  match x with
  | VStr ticker => Ok [("symbol", ticker); ("analysis", "HOLD")]
  | _ => Raise timeout
  end.

Definition no_comparison (a : Agent chat_class) (tickers : list string)
  : result (pydict pyval) :=
  Ok [].

Definition new_world : World chat_class :=
  Coordinator.__init__ chat_class router_openai 4.

End Examples.

Import Py Py.Notations Router Coordinator Spec Examples.

(** ** Dictionaries *)

Section DictFacts.
Variable V : Type.
Implicit Types (d : pydict V) (k : string) (v : V).

Lemma dict_get_none_iff d k : dict_get d k = None <-> ~ In k (dict_keys d).
Proof.
  induction d as [|[k' v'] d IH]; simpl.
  - tauto.
  - destruct (String.eqb_spec k k') as [->|Hne].
    + split; [discriminate | intros H; exfalso; apply H; now left].
    + rewrite IH. split.
      * intros H [Heq|Hin]; [congruence | tauto].
      * intros H Hin. apply H. now right.
Qed.

Lemma dict_set_fresh d k v :
  dict_get d k = None -> dict_set d k v = (d ++ [(k, v)])%list.
Proof.
  induction d as [|[k' v'] d IH]; simpl; [reflexivity|].
  destruct (String.eqb_spec k k'); [discriminate|].
  intros H. now rewrite IH.
Qed.

Lemma dict_get_in d k v :
  NoDup (dict_keys d) -> In (k, v) d -> dict_get d k = Some v.
Proof.
  induction d as [|[k' v'] d IH]; simpl; [tauto|].
  intros Hnd [Heq|Hin].
  - inversion Heq; subst. now rewrite String.eqb_refl.
  - inversion Hnd as [|? ? Hnotin Hnd']; subst.
    destruct (String.eqb_spec k k') as [->|Hne].
    + exfalso. apply Hnotin. unfold dict_keys.
      change k' with (fst (k', v)). now apply in_map.
    + now apply IH.
Qed.

Lemma dict_get_some_in d k v : dict_get d k = Some v -> In (k, v) d.
Proof.
  induction d as [|[k' v'] d IH]; simpl; [discriminate|].
  destruct (String.eqb_spec k k') as [->|Hne].
  - intros [= ->]. now left.
  - intros H. right. now apply IH.
Qed.

Lemma dict_keys_set d k v :
  dict_keys (dict_set d k v)
  = if dict_mem d k then dict_keys d else (dict_keys d ++ [k])%list.
Proof.
  unfold dict_mem. induction d as [|[k' v'] d IH]; simpl; [reflexivity|].
  destruct (String.eqb_spec k k') as [->|Hne]; simpl; [reflexivity|].
  rewrite IH. now destruct (dict_get d k).
Qed.

Lemma dict_set_nodup d k v :
  NoDup (dict_keys d) -> NoDup (dict_keys (dict_set d k v)).
Proof.
  intros Hnd. rewrite dict_keys_set. unfold dict_mem.
  destruct (dict_get d k) eqn:E; [assumption|].
  apply dict_get_none_iff in E.
  apply NoDup_app; auto.
  - constructor; [simpl; tauto | constructor].
  - intros x Hx [<-|[]]. auto.
Qed.

Lemma dict_get_set_eq d k v : dict_get (dict_set d k v) k = Some v.
Proof.
  induction d as [|[k' v'] d IH]; simpl.
  - now rewrite String.eqb_refl.
  - destruct (String.eqb_spec k k') as [->|Hne]; simpl.
    + now rewrite String.eqb_refl.
    + destruct (String.eqb_spec k k'); [congruence | assumption].
Qed.

Lemma dict_get_set_ne d k k' v :
  k <> k' -> dict_get (dict_set d k v) k' = dict_get d k'.
Proof.
  intros Hne. induction d as [|[k0 v0] d IH]; simpl.
  - destruct (String.eqb_spec k' k); [congruence | reflexivity].
  - destruct (String.eqb_spec k k0) as [->|Hne0]; simpl.
    + destruct (String.eqb_spec k' k0); [congruence | reflexivity].
    + now rewrite IH.
Qed.
End DictFacts.

(** ** Lists *)

Section ListFacts.
Variable A : Type.

Lemma filter_perm (p : A -> bool) (l l' : list A) :
  Permutation l l' -> Permutation (filter p l) (filter p l').
Proof.
  induction 1 as [|x l l' _ IH|x y l|l l' l'' _ IH1 _ IH2]; simpl.
  - constructor.
  - destruct (p x); [now constructor | assumption].
  - destruct (p x), (p y); try apply Permutation_refl. apply perm_swap.
  - now transitivity (filter p l').
Qed.

Lemma filter_split_length (p : A -> bool) (l : list A) :
  (List.length (filter p l) + List.length (filter (fun x => negb (p x)) l)
   = List.length l)%nat.
Proof.
  induction l as [|x l IH]; simpl; [reflexivity|].
  destruct (p x); simpl; lia.
Qed.

Lemma filter_none (p : A -> bool) (l : list A) :
  (forall y, In y l -> p y = false) -> filter p l = [].
Proof.
  induction l as [|a l IH]; simpl; intros H; [reflexivity|].
  rewrite (H a) by now left. apply IH. intros y Hy. apply H. now right.
Qed.

(** A predicate that holds of exactly one member of a duplicate-free
    list selects one element. *)
Lemma filter_unique (p : A -> bool) (l : list A) (x : A) :
  NoDup l -> In x l -> p x = true ->
  (forall y, In y l -> y <> x -> p y = false) ->
  List.length (filter p l) = 1%nat.
Proof.
  induction l as [|a l IH]; simpl; [tauto|].
  intros Hnd [->|Hin] Hx Hothers.
  - rewrite Hx. simpl. inversion Hnd as [|? ? Hnotin _]; subst.
    rewrite filter_none; [reflexivity|].
    intros y Hy. apply Hothers; [now right|]. intros ->. contradiction.
  - inversion Hnd as [|? ? Hnotin Hnd']; subst.
    rewrite (Hothers a); [|now left|intros ->; contradiction].
    apply IH; auto.
Qed.
End ListFacts.

(** ** Range of the float operations *)

Section FloatRange.

Lemma digits2_size (p : positive) : digits2_pos p = Pos.size p.
Proof. induction p; simpl; congruence. Qed.

Lemma Zdigits2_log2 (p : positive) :
  Zdigits2 (Zpos p) = Z.succ (Z.log2 (Zpos p)).
Proof.
  destruct p; simpl; rewrite ?digits2_size; try lia.
Qed.

Lemma Zdigits2_nonneg (m : Z) : 0 <= Zdigits2 m.
Proof. destruct m; simpl; lia. Qed.

Lemma Zdigits2_upper (m k : Z) :
  0 <= m -> 0 <= k -> m < 2 ^ k -> Zdigits2 m <= k.
Proof.
  intros Hm Hk Hlt. destruct m as [|p|p]; simpl; [lia| |lia].
  change (Z.pos (digits2_pos p)) with (Zdigits2 (Zpos p)).
  rewrite Zdigits2_log2.
  apply (Z.log2_lt_pow2 (Zpos p) k) in Hlt; lia.
Qed.

Lemma Zdigits2_bound (m : Z) : 0 <= m -> m < 2 ^ Zdigits2 m.
Proof.
  intros Hm. destruct m as [|p|p]; [simpl; lia| |lia].
  rewrite Zdigits2_log2. apply Z.log2_spec. lia.
Qed.

Lemma Zdigits2_succ (m : Z) : 0 <= m -> Zdigits2 (m + 1) <= Zdigits2 m + 1.
Proof.
  intros Hm. pose proof (Zdigits2_bound m Hm) as Hb.
  pose proof (Zdigits2_nonneg m) as Hd.
  apply Zdigits2_upper; try lia.
  rewrite Z.pow_add_r by lia. change (2 ^ 1) with 2.
  lia.
Qed.

Lemma shr_1_half (mrs : shr_record) :
  0 <= shr_m mrs -> shr_m (shr_1 mrs) = shr_m mrs / 2.
Proof.
  destruct mrs as [m r s]. simpl. intros Hm.
  rewrite <- Z.div2_div.
  destruct m as [|[p|p|]|p]; try reflexivity; lia.
Qed.

Lemma iter_shr_1 (n : positive) :
  forall mrs : shr_record,
    0 <= shr_m mrs ->
    shr_m (iter_pos shr_1 n mrs) = shr_m mrs / 2 ^ Zpos n.
Proof.
  assert (Hhalf : forall mrs, 0 <= shr_m mrs -> 0 <= shr_m (shr_1 mrs)).
  { intros mrs H. rewrite shr_1_half by exact H. apply Z.div_pos; lia. }
  induction n as [n IH|n IH|]; intros mrs Hm; cbn [iter_pos].
  - pose proof (Z.pow_pos_nonneg 2 (Zpos n) ltac:(lia) ltac:(lia)) as Hp.
    rewrite IH, IH, shr_1_half; auto.
    + rewrite (Z.div_div _ 2) by lia. rewrite Z.div_div by lia.
      f_equal. replace (Z.pos n~1) with (1 + Z.pos n + Z.pos n) by lia.
      rewrite !Z.pow_add_r by lia. reflexivity.
    + rewrite IH by auto. apply Z.div_pos; [auto | lia].
  - pose proof (Z.pow_pos_nonneg 2 (Zpos n) ltac:(lia) ltac:(lia)) as Hp.
    rewrite IH, IH; auto.
    + rewrite Z.div_div by lia.
      f_equal. replace (Z.pos n~0) with (Z.pos n + Z.pos n) by lia.
      rewrite Z.pow_add_r by lia. reflexivity.
    + rewrite IH by auto. apply Z.div_pos; [auto | lia].
  - rewrite shr_1_half by exact Hm. reflexivity.
Qed.

Lemma record_of_loc_m (m : Z) (l : location) :
  shr_m (shr_record_of_loc m l) = m.
Proof. destruct l as [|[| |]]; reflexivity. Qed.

(** One normalising shift: the mantissa stays non-negative, the
    exponent becomes the larger of the old one and the canonical one,
    and the magnitude does not grow. *)
Lemma shr_fexp_bounds (m e : Z) (l : location) :
  0 <= m ->
  let D := Zdigits2 m + e in
  let '(mrs, e') := shr_fexp prec emax m e l in
  0 <= shr_m mrs
  /\ e' = Z.max e (fexp prec emax D)
  /\ Zdigits2 (shr_m mrs) + e' <= Z.max D (fexp prec emax D).
Proof.
  intros Hm D. unfold shr_fexp, shr. fold D.
  destruct (fexp prec emax D - e) as [|n|n] eqn:Hn.
  - rewrite record_of_loc_m. repeat split; [exact Hm | lia | ].
    fold D. lia.
  - rewrite iter_shr_1 by (rewrite record_of_loc_m; exact Hm).
    rewrite record_of_loc_m.
    assert (Hq : 0 <= m / 2 ^ Z.pos n) by (apply Z.div_pos; lia).
    repeat split; [exact Hq | lia | ].
    destruct (Z.eq_dec (m / 2 ^ Z.pos n) 0) as [Hz|Hnz].
    + rewrite Hz. simpl. lia.
    + assert (Hge : 2 ^ Z.pos n <= m).
      { destruct (Z.lt_ge_cases m (2 ^ Z.pos n)) as [Hlt|]; [|assumption].
        rewrite Z.div_small in Hnz by lia. congruence. }
      pose proof (Zdigits2_bound m Hm) as Hb.
      pose proof (Zdigits2_nonneg m) as Hd.
      assert (Hnd : Z.pos n < Zdigits2 m).
      { apply (Z.pow_lt_mono_r_iff 2); lia. }
      assert (Zdigits2 (m / 2 ^ Z.pos n) <= Zdigits2 m - Z.pos n).
      { apply Zdigits2_upper; try lia.
        apply Z.div_lt_upper_bound; [lia|].
        rewrite <- Z.pow_add_r by lia.
        replace (Z.pos n + (Zdigits2 m - Z.pos n)) with (Zdigits2 m) by lia.
        exact Hb. }
      unfold D. lia.
  - rewrite record_of_loc_m. repeat split; [exact Hm | lia | ].
    fold D. lia.
Qed.

Lemma round_nearest_even_bounds (m : Z) (l : location) :
  m <= round_nearest_even m l <= m + 1.
Proof.
  destruct l as [|[| |]]; simpl; try lia. destruct (Z.even m); lia.
Qed.

(** Rounding a non-negative mantissa of moderate magnitude never
    overflows. *)
Lemma binary_round_aux_finite (sx : bool) (mx ex : Z) (lx : location) :
  0 <= mx -> ex <= 0 -> Zdigits2 mx + ex <= 1001 ->
  binary_round_aux prec emax sx mx ex lx = S754_zero sx
  \/ exists m e, binary_round_aux prec emax sx mx ex lx = S754_finite sx m e.
Proof.
  intros Hm He HD. unfold binary_round_aux.
  pose proof (shr_fexp_bounds mx ex lx Hm) as H1.
  destruct (shr_fexp prec emax mx ex lx) as [mrs' e'].
  destruct H1 as (Hm' & He' & HD').
  pose proof (round_nearest_even_bounds (shr_m mrs') (loc_of_shr_record mrs'))
    as Hr.
  set (m1 := round_nearest_even (shr_m mrs') (loc_of_shr_record mrs')) in *.
  assert (Hm1 : 0 <= m1) by lia.
  assert (Hd1 : Zdigits2 m1 <= Zdigits2 (shr_m mrs') + 1).
  { destruct (Z.eq_dec m1 (shr_m mrs')) as [->|Hne]; [lia|].
    replace m1 with (shr_m mrs' + 1) by lia. now apply Zdigits2_succ. }
  pose proof (shr_fexp_bounds m1 e' loc_Exact Hm1) as H2.
  destruct (shr_fexp prec emax m1 e' loc_Exact) as [mrs'' e''].
  destruct H2 as (Hm'' & He'' & _).
  destruct (shr_m mrs'') as [|m|m]; [now left | | lia].
  right. exists m, e''.
  assert (Hle : e'' <= emax - prec).
  { unfold fexp, SpecFloat.emin, emax, prec in *. lia. }
  apply Z.leb_le in Hle. now rewrite Hle.
Qed.

(** The quotient of two positive integers, the first less than
    [2 ^ 1000] times the second, is a non-negative finite float. *)
Lemma fdiv_finite (sa sb : bool) (a b : positive) :
  Zpos a < 2 ^ 1000 * Zpos b ->
  let q := fdiv (S754_finite sa a 0) (S754_finite sb b 0) in
  q = S754_zero (xorb sa sb) \/ exists m e, q = S754_finite (xorb sa sb) m e.
Proof.
  intros Hab. unfold fdiv, SFdiv, SFdiv_core_binary.
  set (e' := Z.min (fexp prec emax
                      (Zdigits2 (Z.pos a) + 0 - (Zdigits2 (Z.pos b) + 0)))
                   (0 - 0)).
  assert (He' : e' <= 0) by (unfold e'; lia).
  set (m' := match 0 - 0 - e' with
             | 0 => Z.pos a
             | Z.pos _ => Z.shiftl (Z.pos a) (0 - 0 - e')
             | Z.neg _ => 0
             end).
  assert (Hm' : m' = Zpos a * 2 ^ (- e')).
  { unfold m'. destruct (0 - 0 - e') as [|s|s] eqn:Hs.
    - replace (- e') with 0 by lia. simpl. lia.
    - rewrite Z.shiftl_mul_pow2 by lia. f_equal. f_equal. lia.
    - lia. }
  clearbody m' e'.
  pose proof (Z.div_eucl_eq m' (Zpos b)) as Heq.
  destruct (Z.div_eucl m' (Z.pos b)) as [q r] eqn:Hqr.
  assert (Hq : q = m' / Zpos b) by (unfold Z.div; now rewrite Hqr).
  assert (Hpow : 0 < 2 ^ (- e')) by (apply Z.pow_pos_nonneg; lia).
  assert (Hq0 : 0 <= q) by (rewrite Hq; apply Z.div_pos; nia).
  assert (Hqlt : q < 2 ^ (1000 - e')).
  { rewrite Hq. apply Z.div_lt_upper_bound; [lia|].
    replace (1000 - e') with (1000 + - e') by lia.
    rewrite Z.pow_add_r by lia. rewrite Hm'. nia. }
  apply binary_round_aux_finite; try assumption.
  pose proof (Zdigits2_upper q (1000 - e') Hq0) as Hd. lia.
Qed.

(** [a / b] returns for integers in that range. *)
Lemma int_truediv_returns (a b : Z) :
  0 <= a -> 0 < b -> a < 2 ^ 1000 * b ->
  exists q, int_truediv a b = Ok q /\ nonneg_finite q.
Proof.
  intros Ha Hb Hab. unfold int_truediv.
  destruct b as [|b|b]; try lia.
  destruct a as [|a|a]; try lia.
  - exists (S754_zero false). split; [reflexivity | now left].
  - change (Z.pos a <? 0) with false. change (Z.pos b <? 0) with false.
    change (Z.to_pos (Z.abs (Z.pos a))) with a.
    change (Z.to_pos (Z.abs (Z.pos b))) with b.
    destruct (fdiv_finite false false a b Hab) as [Hz|(m & e & Hf)];
      change (xorb false false) with false in *.
    + rewrite Hz. eexists. split; [reflexivity | now left].
    + rewrite Hf. eexists. split; [reflexivity | right; eauto].
Qed.
End FloatRange.

(** ** Failure isolation in a batch *)

Section FailureIsolation.
Variable execute : Task -> result AgentResult.

(** Settling distinct names one after the other appends one entry per
    name. *)
Lemma settle_all (X : Type) (name : X -> string)
    (outcome : X -> result AgentResult) (l : list X) :
  forall acc : pydict AgentResult,
    NoDup (dict_keys acc ++ map name l) ->
    fold_left (fun results x => settle results (name x) (outcome x)) l acc
    = (acc ++ map (fun x => (name x, entry_of (outcome x))) l)%list.
Proof.
  induction l as [|x l IH]; intros acc Hnd; simpl.
  - now rewrite app_nil_r.
  - assert (Hfresh : dict_get acc (name x) = None).
    { apply dict_get_none_iff. intros Hin.
      apply NoDup_remove_2 in Hnd. apply Hnd.
      apply in_or_app. now left. }
    assert (Hstep : settle acc (name x) (outcome x)
                    = (acc ++ [(name x, entry_of (outcome x))])%list).
    { unfold settle. destruct (outcome x); simpl; now apply dict_set_fresh. }
    rewrite Hstep, IH.
    + now rewrite <- app_assoc.
    + unfold dict_keys in *. rewrite map_app. simpl.
      rewrite <- app_assoc. exact Hnd.
Qed.

Lemma sequential_entries (tasks : list Task) :
  NoDup (map task_type tasks) ->
  _execute_sequential execute tasks = map (recorded execute) tasks.
Proof.
  intros Hnd. unfold _execute_sequential.
  now rewrite (settle_all _ task_type execute tasks []).
Qed.

Variable as_completed : forall A : Type, list A -> list A.
Hypothesis as_completed_perm :
  forall (A : Type) (l : list A), Permutation (as_completed A l) l.

Lemma parallel_entries (Agent : Type) (self : TaskCoordinator Agent)
    (tasks : list Task) :
  0 < max_workers self ->
  NoDup (map task_type tasks) ->
  exists results,
    _execute_parallel execute as_completed self tasks = Ok results
    /\ Permutation results (map (recorded execute) tasks).
Proof.
  intros Hw Hnd. unfold _execute_parallel, ThreadPoolExecutor.
  destruct (Z.leb_spec (max_workers self) 0); [lia|]. simpl.
  set (futures := map (fun task => (task_type task, execute task)) tasks).
  assert (Hperm : Permutation (as_completed _ futures) futures)
    by apply as_completed_perm.
  rewrite (settle_all _ (@fst string (result AgentResult))
                      (@snd string (result AgentResult))
                      (as_completed _ futures) []).
  - eexists. split; [reflexivity|]. simpl.
    apply (Permutation_map
             (fun x : string * result AgentResult => (fst x, entry_of (snd x))))
      in Hperm.
    unfold futures in Hperm at 2. rewrite map_map in Hperm. exact Hperm.
  - simpl. apply (Permutation_map fst) in Hperm.
    apply (Permutation_NoDup (Permutation_sym Hperm)).
    unfold futures. now rewrite map_map.
Qed.

Variables (tasks : list Task) (bad : Task) (e : exn).
Hypothesis distinct : NoDup (map task_type tasks).
Hypothesis bad_in : In bad tasks.
Hypothesis bad_raises : execute bad = Raise e.
Hypothesis others_succeed :
  forall t, In t tasks -> t <> bad ->
    exists r, execute t = Ok r /\ dict_mem r "error" = false.

Lemma failures_recorded :
  List.length (filter is_failure (map (recorded execute) tasks)) = 1%nat.
Proof.
  assert (Hlen : forall l : list Task,
             List.length (filter is_failure (map (recorded execute) l))
             = List.length
                 (filter (fun t => is_failure (recorded execute t)) l)).
  { induction l as [|t l IH]; simpl; [reflexivity|].
    destruct (is_failure (recorded execute t)); simpl; now rewrite IH. }
  rewrite Hlen. apply filter_unique with (x := bad).
  - exact (NoDup_map_inv _ _ distinct).
  - exact bad_in.
  - unfold is_failure, recorded. simpl. now rewrite bad_raises.
  - intros t Hin Hne. destruct (others_succeed t Hin Hne) as (r & Hr & Hok).
    unfold is_failure, recorded. simpl. now rewrite Hr.
Qed.

(** Whatever the order in which the entries were recorded. *)
Lemma isolates_any_order (results : pydict AgentResult) :
  Permutation results (map (recorded execute) tasks) ->
  isolates execute tasks bad e results.
Proof.
  intros Hperm.
  assert (Hkeys : Permutation (dict_keys results) (map task_type tasks)).
  { unfold dict_keys. apply (Permutation_map fst) in Hperm.
    now rewrite map_map in Hperm. }
  assert (Hnd : NoDup (dict_keys results))
    by exact (Permutation_NoDup (Permutation_sym Hkeys) distinct).
  assert (Hfail : List.length (filter is_failure results) = 1%nat).
  { rewrite (Permutation_length (filter_perm _ is_failure _ _ Hperm)).
    exact failures_recorded. }
  assert (Hlen : List.length results = List.length tasks).
  { rewrite (Permutation_length Hperm). apply length_map. }
  unfold isolates. repeat split; auto.
  - intros H. exact (Permutation_in _ Hkeys H).
  - intros H. exact (Permutation_in _ (Permutation_sym Hkeys) H).
  - apply dict_get_in; [exact Hnd|].
    apply (Permutation_in _ (Permutation_sym Hperm)).
    apply in_map_iff. exists bad. split; [|exact bad_in].
    unfold recorded. now rewrite bad_raises.
  - intros t Hin Hne. destruct (others_succeed t Hin Hne) as (r & Hr & _).
    exists r. split; [exact Hr|].
    apply dict_get_in; [exact Hnd|].
    apply (Permutation_in _ (Permutation_sym Hperm)).
    apply in_map_iff. exists t. split; [|exact Hin].
    unfold recorded. now rewrite Hr.
  - pose proof (filter_split_length _ is_failure results) as Hsplit.
    unfold is_success. lia.
Qed.

(** C1, amended.  For a batch of sub-tasks with pairwise distinct
    names and an execution function that raises for exactly one of them
    and returns a result without an ["error"] key for each of the
    others, the sequential path, and the parallel path for any order of
    completion on a coordinator whose [max_workers] is positive, return
    a mapping with exactly one entry per sub-task name: one failure
    entry, holding the description of the error raised, and a success
    entry for every other sub-task, equal to the result it returned.
    The failure cancels no sibling and does not abort the batch.  On a
    coordinator whose [max_workers] is not positive the parallel path
    raises [ValueError] when it creates its worker pool, before any
    sub-task is run. *)
Theorem failure_isolation (Agent : Type) (self : TaskCoordinator Agent) :
  isolates execute tasks bad e (_execute_sequential execute tasks)
  /\ (0 < max_workers self ->
      exists results,
        _execute_parallel execute as_completed self tasks = Ok results
        /\ isolates execute tasks bad e results)
  /\ (max_workers self <= 0 ->
      _execute_parallel execute as_completed self tasks
      = Raise (Exn ValueError "max_workers must be greater than 0")).
Proof.
  split; [|split].
  - apply isolates_any_order.
    rewrite sequential_entries by exact distinct. apply Permutation_refl.
  - intros Hw.
    destruct (parallel_entries _ self tasks Hw distinct)
      as (results & Hrun & Hperm).
    exists results. split; [exact Hrun|].
    now apply isolates_any_order.
  - intros Hw. unfold _execute_parallel, ThreadPoolExecutor.
    destruct (Z.leb_spec (max_workers self) 0); [reflexivity | lia].
Qed.
End FailureIsolation.

Lemma three_tasks_distinct : NoDup (map task_type three_tasks).
Proof. repeat constructor; simpl; intuition discriminate. Qed.

Lemma only_technical_fails :
  forall t, In t three_tasks -> t <> technical ->
    exists r, technical_fails t = Ok r /\ dict_mem r "error" = false.
Proof.
  intros t [<-|[<-|[<-|[]]]] Hne;
    [eexists; split; reflexivity | congruence | eexists; split; reflexivity].
Qed.

(** C1, counterexample.  A coordinator built with [max_workers=0]:
    the batch has distinct names and one failing sub-task, and the
    parallel path returns no mapping, it raises. *)
Lemma parallel_batch_needs_workers :
  NoDup (map task_type three_tasks)
  /\ In technical three_tasks
  /\ technical_fails technical = Raise timeout
  /\ (forall t, In t three_tasks -> t <> technical ->
        exists r, technical_fails t = Ok r /\ dict_mem r "error" = false)
  /\ _execute_parallel technical_fails last_first idle_coordinator
                       three_tasks
     = Raise (Exn ValueError "max_workers must be greater than 0").
Proof.
  split; [exact three_tasks_distinct|]. split; [simpl; tauto|].
  split; [reflexivity|]. split; [exact only_technical_fails | reflexivity].
Qed.

Lemma failure_isolation_witness :
  isolates technical_fails three_tasks technical timeout
           (_execute_sequential technical_fails three_tasks)
  /\ exists results,
       _execute_parallel technical_fails last_first coordinator three_tasks
       = Ok results
       /\ isolates technical_fails three_tasks technical timeout results.
Proof.
  destruct (failure_isolation technical_fails last_first
              (fun A l => Permutation_sym (Permutation_rev l))
              three_tasks technical timeout three_tasks_distinct
              (or_intror (or_introl eq_refl)) eq_refl only_technical_fails
              unit coordinator) as (Hseq & Hpar & _).
  split; [exact Hseq | apply Hpar; reflexivity].
Defined.

(** ** The router *)

Section RouterFacts.
Variable LLM : Type.
Variable construct : chat_class -> string -> float -> result LLM.

Lemma get_default_true (d : pydict bool) (k : string) :
  dict_get_default d k false = true -> dict_get d k = Some true.
Proof.
  unfold dict_get_default. destruct (dict_get d k) as [[|]|]; congruence.
Qed.

Lemma route_recommended_available self max_cost recommended llm p m :
  route_recommended construct self max_cost recommended = Some (llm, p, m) ->
  available self p /\ In (p, m) recommended
  /\ over_budget self max_cost m = false.
Proof.
  induction recommended as [|[provider model] rest IH]; simpl; [discriminate|].
  destruct (dict_get_default (available_providers self) provider false) eqn:Hav;
    simpl.
  - destruct (over_budget self max_cost model) eqn:Hob.
    + intros H. destruct (IH H) as (? & ? & ?). auto.
    + destruct (_create_llm construct self provider model).
      * intros [= <- <- <-]. split; [now apply get_default_true|]. auto.
      * intros H. destruct (IH H) as (? & ? & ?). auto.
  - intros H. destruct (IH H) as (? & ? & ?). auto.
Qed.

Lemma route_fallback_in self items llm p m :
  route_fallback construct self items = Some (llm, p, m) ->
  In (p, true) items /\ m = _get_fallback_model p.
Proof.
  induction items as [|[provider [|]] rest IH]; simpl; [discriminate| |].
  - destruct (_create_llm construct self provider
                (_get_fallback_model provider)).
    + intros [= <- <- <-]. auto.
    + intros H. destruct (IH H). auto.
  - intros H. destruct (IH H). auto.
Qed.

Lemma route_by_tier_available self complexity max_cost llm p m :
  NoDup (dict_keys (available_providers self)) ->
  route_by_tier construct self complexity max_cost = Ok (llm, p, m) ->
  available self p.
Proof.
  intros Hnd. unfold route_by_tier.
  destruct (route_recommended construct self max_cost
              (COMPLEXITY_MODELS complexity)) as [r|] eqn:Hrec.
  - intros [= ->]. now apply route_recommended_available in Hrec.
  - destruct (route_fallback construct self (available_providers self))
      as [r|] eqn:Hfb; [|discriminate].
    intros [= ->]. apply route_fallback_in in Hfb.
    apply dict_get_in; tauto.
Qed.

(** Every answer of [route_task] names an available provider, for any
    router whose availability map is a dict. *)
Lemma route_task_available self task_description complexity max_cost llm p m :
  NoDup (dict_keys (available_providers self)) ->
  route_task construct self task_description complexity max_cost
  = Ok (llm, p, m) ->
  available self p.
Proof.
  intros Hnd. unfold route_task.
  destruct (default_provider self) as [dp|] eqn:Hdp;
    [|now apply route_by_tier_available].
  destruct (default_model self) as [dm|] eqn:Hdm;
    [|now apply route_by_tier_available].
  destruct (default_applies self) eqn:Hdef;
    [|now apply route_by_tier_available].
  destruct (_create_llm construct self dp dm); simpl; [|discriminate].
  intros [= <- <- <-].
  unfold default_applies in Hdef. rewrite Hdp in Hdef.
  apply andb_prop in Hdef. now apply get_default_true.
Qed.

Variable getenv : string -> option string.

Lemma init_keys_distinct dp dm co temp :
  NoDup (dict_keys (available_providers
                      (Router.__init__ getenv dp dm co temp))).
Proof.
  simpl. repeat constructor; simpl; intuition discriminate.
Qed.

(** C2. For every router built by the constructor (any environment,
    any default provider and model), every complexity tier and every
    optional cost ceiling: whenever [route_task] returns a (provider,
    model) pair -- from the default override, from the tier's ranked
    candidates or from the fallback over all providers -- the provider
    returned maps to [True] in the router's availability map. *)
Theorem route_task_never_unavailable
    (dp dm : option string) (co : bool) (temp : float)
    (task_description : string) (complexity : TaskComplexity)
    (max_cost : option float) (llm : LLM) (p m : string) :
  route_task construct (Router.__init__ getenv dp dm co temp)
             task_description complexity max_cost = Ok (llm, p, m) ->
  dict_get (available_providers (Router.__init__ getenv dp dm co temp)) p
  = Some true.
Proof.
  apply route_task_available. apply init_keys_distinct.
Qed.

Lemma all_over_budget self c recommended :
  cost_optimization self = true -> float_truthy c = true ->
  (forall p m, In (p, m) recommended -> flt c (avg_cost m) = true) ->
  route_recommended construct self (Some c) recommended = None.
Proof.
  intros Hco Hc. induction recommended as [|[provider model] rest IH];
    intros Hall; cbn [route_recommended]; [reflexivity|].
  assert (Hob : over_budget self (Some c) model = true).
  { unfold over_budget. rewrite Hco, Hc. simpl.
    apply (Hall provider). now left. }
  rewrite Hob, IH; [now destruct (negb _)|].
  intros p m Hin. apply (Hall p). now right.
Qed.

Lemma route_fallback_none self items :
  route_fallback construct self items = None ->
  forall p, In (p, true) items ->
            exists e, _create_llm construct self p (_get_fallback_model p)
                      = Raise e.
Proof.
  induction items as [|[provider [|]] rest IH]; simpl; intros Hn p Hin;
    [contradiction| |].
  - destruct (_create_llm construct self provider _) eqn:Hc; [discriminate|].
    destruct Hin as [[= <-]|Hin]; eauto.
  - destruct Hin as [[=]|Hin]; eauto.
Qed.

Lemma route_fallback_unavailable self items :
  (forall p, ~ In (p, true) items) ->
  route_fallback construct self items = None.
Proof.
  induction items as [|[provider [|]] rest IH]; simpl; intros Hn;
    [reflexivity| |].
  - exfalso. apply (Hn provider). now left.
  - apply IH. intros p Hin. apply (Hn p). now right.
Qed.

Lemma fallback_outside_tier p complexity :
  complexity = COMPLEX \/ complexity = CRITICAL ->
  ~ In (p, _get_fallback_model p) (COMPLEXITY_MODELS complexity).
Proof.
  intros [-> | ->]; simpl; intros H;
    repeat (destruct H as [H|H]; [injection H as <- H; discriminate H|]);
    exact H.
Qed.

(** C4, amended.  For every router built with cost optimisation
    enabled whose default override does not apply, every tier, and
    every non-zero cost ceiling strictly below the average cost of
    every candidate of the tier: the pass over the tier's list selects
    nothing; a pair returned by [route_task] is an available provider
    with that provider's fixed fallback model (on the COMPLEX and
    CRITICAL tiers never an entry of the tier's list); [route_task]
    fails only with the no-provider error, and then the fallback
    model of every available provider could not be created; it fails
    so whenever no provider is available. *)
Theorem ceiling_forces_fallback
    (dp dm : option string) (temp : float)
    (task_description : string) (complexity : TaskComplexity) (c : float) :
  let self := Router.__init__ getenv dp dm true temp in
  default_applies self = false ->
  float_truthy c = true ->
  below_all c complexity ->
  route_recommended construct self (Some c) (COMPLEXITY_MODELS complexity)
  = None
  /\ (forall llm p m,
         route_task construct self task_description complexity (Some c)
         = Ok (llm, p, m) ->
         available self p /\ m = _get_fallback_model p
         /\ (complexity = COMPLEX \/ complexity = CRITICAL ->
             ~ In (p, m) (COMPLEXITY_MODELS complexity)))
  /\ (forall e,
         route_task construct self task_description complexity (Some c)
         = Raise e ->
         e = no_provider
         /\ forall p, available self p ->
                      exists e', _create_llm construct self p
                                   (_get_fallback_model p) = Raise e')
  /\ ((forall p, ~ available self p) ->
      route_task construct self task_description complexity (Some c)
      = Raise no_provider).
Proof.
  intros self Hdef Hc Hbelow.
  assert (Hrec : route_recommended construct self (Some c)
                   (COMPLEXITY_MODELS complexity) = None)
    by (now apply all_over_budget).
  assert (Hroute :
           route_task construct self task_description complexity (Some c)
           = match route_fallback construct self (available_providers self) with
             | Some r => Ok r
             | None => Raise no_provider
             end).
  { unfold route_task. rewrite Hdef.
    unfold route_by_tier. rewrite Hrec.
    now destruct (default_provider self), (default_model self). }
  pose proof (init_keys_distinct dp dm true temp) as Hnd.
  fold self in Hnd.
  split; [exact Hrec|]. rewrite Hroute. split; [|split].
  - intros llm p m.
    destruct (route_fallback construct self (available_providers self))
      as [r|] eqn:Hfb; [|discriminate].
    intros [= ->]. apply route_fallback_in in Hfb. destruct Hfb as [Hin ->].
    split; [|split].
    + apply dict_get_in; assumption.
    + reflexivity.
    + apply fallback_outside_tier.
  - intros e.
    destruct (route_fallback construct self (available_providers self))
      as [r|] eqn:Hfb; [discriminate|].
    intros [= <-]. split; [reflexivity|].
    intros p Hav. apply (route_fallback_none self _ Hfb).
    now apply dict_get_some_in.
  - intros Hnone. rewrite route_fallback_unavailable; [reflexivity|].
    intros p Hin. apply (Hnone p). apply dict_get_in; assumption.
Qed.
End RouterFacts.

Lemma route_task_never_unavailable_witness :
  route_task always router_openai "technical analysis" MODERATE None
  = Ok (ChatOpenAI, "openai", "gpt-4o-mini")
  /\ dict_get (available_providers router_openai) "openai" = Some true.
Proof.
  split; [reflexivity|].
  apply (route_task_never_unavailable chat_class always env_openai
           None None true (ratio 1 10) "technical analysis" MODERATE None
           ChatOpenAI "openai" "gpt-4o-mini").
  reflexivity.
Defined.

Lemma below_all_complex : below_all (ratio 1 1) COMPLEX.
Proof.
  intros p m H. simpl in H.
  repeat (destruct H as [H|H];
          [injection H as _ <-; vm_compute; reflexivity|]).
  destruct H.
Qed.

(** C4, counterexample.  With [cost_optimization=False] the ceiling is
    not consulted: a ceiling of 1.0 on the COMPLEX tier, below the
    average cost of its three candidates, is answered with the tier's
    first candidate, gpt-4o (average cost 6.25), not with a fallback
    model. *)
Lemma ceiling_ignored_when_unoptimised :
  ~ respects_ceiling always router_unoptimised COMPLEX (ratio 1 1).
Proof.
  intros H. specialize (H below_all_complex "fundamental analysis").
  vm_compute in H. destruct H as (_ & H & _). discriminate H.
Qed.

Lemma ceiling_forces_fallback_witness :
  default_applies router_openai = false
  /\ float_truthy (ratio 1 1) = true
  /\ below_all (ratio 1 1) COMPLEX
  /\ available router_openai "openai"
  /\ "gpt-4o-mini" = _get_fallback_model "openai"
  /\ ~ In ("openai", "gpt-4o-mini") (COMPLEXITY_MODELS COMPLEX).
Proof.
  destruct (ceiling_forces_fallback chat_class always env_openai
              None None (ratio 1 10) "fundamental analysis" COMPLEX
              (ratio 1 1) eq_refl eq_refl below_all_complex)
    as (_ & Hok & _).
  destruct (Hok ChatOpenAI "openai" "gpt-4o-mini" eq_refl) as (Ha & Hm & Ht).
  split; [reflexivity|]. split; [reflexivity|].
  split; [exact below_all_complex|]. split; [exact Ha|].
  split; [exact Hm|]. apply Ht. now left.
Defined.

(** ** The consensus *)

Section ConsensusFacts.
Variable py : Builtins.

(** *** The builtins on ASCII text *)

Lemma ascii_conforms : conforms ascii_builtins.
Proof. repeat split; intros; reflexivity. Qed.

Lemma is_ascii_cons c s :
  is_ascii (String c s) = ((nat_of_ascii c <? 128)%nat && is_ascii s)%bool.
Proof. reflexivity. Qed.

Lemma lower_char_ascii c :
  (nat_of_ascii c <? 128)%nat = true ->
  (nat_of_ascii (lower_char c) <? 128)%nat = true.
Proof.
  intros Hc. unfold lower_char, is_upper.
  destruct ((65 <=? nat_of_ascii c)%nat && (nat_of_ascii c <=? 90)%nat)
    eqn:E; [|exact Hc].
  apply andb_prop in E. destruct E as (_ & E). apply Nat.leb_le in E.
  rewrite nat_ascii_embedding by lia. apply Nat.ltb_lt. lia.
Qed.

Lemma lower_ascii s : is_ascii s = true -> is_ascii (lower s) = true.
Proof.
  induction s as [|c s IH]; [reflexivity|].
  change (lower (String c s)) with (String (lower_char c) (lower s)).
  rewrite !is_ascii_cons. intros H. apply andb_prop in H.
  destruct H as (Hc & Hs). now rewrite (lower_char_ascii c Hc), (IH Hs).
Qed.

Lemma take_while_all (f : ascii -> bool) s :
  forallb f (list_ascii_of_string (take_while f s)) = true.
Proof.
  induction s as [|c s IH]; [reflexivity|].
  cbn [take_while]. destruct (f c) eqn:E; [|reflexivity].
  cbn [list_ascii_of_string forallb]. now rewrite E, IH.
Qed.

Lemma match_confidence_decimal s digits :
  match_confidence s = Some digits -> is_decimal digits = true.
Proof.
  unfold match_confidence.
  destruct (strip_prefix "confidence" s) as [rest|]; [|discriminate].
  destruct rest as [|c rest]; [discriminate|].
  destruct (is_sep c); [|discriminate].
  destruct (take_while is_digit (drop_while is_sep (String c rest)))
    as [|d digits'] eqn:E; [discriminate|].
  intros [= <-]. change (is_decimal (String d digits'))
    with (forallb is_digit (list_ascii_of_string (String d digits'))).
  rewrite <- E. apply take_while_all.
Qed.

Lemma search_confidence_step s :
  search_confidence s
  = match match_confidence s with
    | Some digits => Some digits
    | None =>
        match s with
        | EmptyString => None
        | String _ s' => search_confidence s'
        end
    end.
Proof. destruct s; reflexivity. Qed.

Lemma search_confidence_decimal s digits :
  search_confidence s = Some digits -> is_decimal digits = true.
Proof.
  induction s as [|c s IH]; rewrite search_confidence_step.
  - destruct (match_confidence EmptyString) eqn:E; [|discriminate].
    intros [= <-]. exact (match_confidence_decimal _ _ E).
  - destruct (match_confidence (String c s)) eqn:E; [|exact IH].
    intros [= <-]. exact (match_confidence_decimal _ _ E).
Qed.

Lemma conforms_keyword analysis :
  conforms py -> is_ascii analysis = true ->
  keyword py analysis = keyword ascii_builtins analysis.
Proof.
  intros (Hup & _) Ha. unfold keyword. rewrite (Hup analysis Ha).
  reflexivity.
Qed.

Lemma conforms_stated_confidence analysis :
  conforms py -> is_ascii analysis = true ->
  stated_confidence py analysis = stated_confidence ascii_builtins analysis.
Proof.
  intros (_ & Hlow & Hre & Hint) Ha. unfold stated_confidence.
  rewrite (Hlow analysis Ha), (Hre _ (lower_ascii analysis Ha)).
  change (str_lower ascii_builtins analysis) with (lower analysis).
  change (re_search_confidence ascii_builtins) with search_confidence.
  change (int_of_str ascii_builtins) with int_of_decimal.
  destruct (contains "confidence" (lower analysis)); [|reflexivity].
  destruct (search_confidence (lower analysis)) as [digits|] eqn:E;
    [|reflexivity].
  now rewrite (Hint digits (search_confidence_decimal _ _ E)).
Qed.

Lemma conforms_collect results :
  conforms py -> ascii_results results = true ->
  forall recs confs,
    collect py results recs confs = collect ascii_builtins results recs confs.
Proof.
  intros Hpy. induction results as [|[agent_type result] rest IH];
    intros Hascii recs confs; [reflexivity|].
  cbn [ascii_results forallb] in Hascii. apply andb_prop in Hascii.
  destruct Hascii as (Ha & Hrest). unfold analysis_of in Ha. cbn [snd] in Ha.
  cbn [collect]. destruct (dict_mem result "error"); [now apply IH|].
  rewrite (conforms_keyword _ Hpy Ha), (conforms_stated_confidence _ Hpy Ha).
  destruct (stated_confidence ascii_builtins _); cbn [bind];
    [now apply IH | reflexivity].
Qed.

(** On ASCII text the consensus is the one computed with the builtins
    of that range. *)
Lemma conforms_consensus results :
  conforms py -> ascii_results results = true ->
  _determine_consensus py results
  = _determine_consensus ascii_builtins results.
Proof.
  intros Hpy Hascii. unfold _determine_consensus.
  now rewrite (conforms_collect results Hpy Hascii).
Qed.

(** C3.  On the result mapping {A: "BUY, confidence: 8", B: "BUY,
    confidence: 6", C: "SELL"}, all three entries successful, the
    consensus is: recommendation BUY; breakdown BUY 2, SELL 1, HOLD 0;
    agreement 66.7, which is the share 2/3 of the winning tally as a
    percentage rounded to one decimal place; confidence 7.0, which is
    the mean of the extracted confidences 8 and 6 rounded to one decimal
    place. *)
Theorem consensus_three_opinions :
  conforms py ->
  _determine_consensus py three_opinions
  = Ok [ ("recommendation", VStr "BUY");
         ("confidence", VFloat (ratio 70 10));
         ("agreement", VFloat (ratio 667 10));
         ("breakdown",
          VDict [("BUY", VInt 2); ("SELL", VInt 1); ("HOLD", VInt 0)]) ]
  /\ collect py three_opinions [] [] = Ok (["BUY"; "BUY"; "SELL"], [8; 6])
  /\ int_truediv 2 3 = Ok (ratio 2 3)
  /\ percentage (ratio 2 3) = ratio 667 10
  /\ int_truediv (8 + 6) 2 = Ok (ratio 7 1)
  /\ round1 (ratio 7 1) = ratio 70 10.
Proof.
  intros Hpy.
  rewrite (conforms_consensus three_opinions Hpy eq_refl).
  rewrite (conforms_collect three_opinions Hpy eq_refl).
  repeat split; vm_compute; reflexivity.
Qed.

Lemma count_nonneg l x : 0 <= count l x.
Proof. unfold count. lia. Qed.

Lemma count_le_len l x : count l x <= len l.
Proof. unfold count, len. apply inj_le. apply count_occ_bound. Qed.

Lemma len_pos (A : Type) (x : A) (l : list A) : 0 < len (x :: l).
Proof. unfold len. simpl. lia. Qed.


Lemma majority_cases b s h total :
  majority b s h total
  = (agreement <- int_truediv b total ;; Ok ("BUY", agreement))
  \/ majority b s h total
     = (agreement <- int_truediv s total ;; Ok ("SELL", agreement))
  \/ majority b s h total
     = (agreement <- int_truediv h total ;; Ok ("HOLD", agreement))
  \/ majority b s h total
     = (agreement <- int_truediv (max3 b s h) total ;; Ok ("MIXED", agreement)).
Proof.
  unfold majority.
  destruct ((s <? b) && (h <? b)); [now left|].
  destruct ((b <? s) && (h <? s)); [now right; left|].
  destruct ((b <? h) && (s <? h)); [now right; right; left|].
  now right; right; right.
Qed.

(** After the early return, the verdict is assembled from the majority
    test and the average confidence. *)
Lemma consensus_unfold results r recs scores :
  collect py results [] [] = Ok (r :: recs, scores) ->
  _determine_consensus py results
  = ('(consensus, agreement) <-
       majority (count (r :: recs) "BUY") (count (r :: recs) "SELL")
                (count (r :: recs) "HOLD") (len (r :: recs)) ;;
     avg_confidence <- average_confidence scores ;;
     Ok (verdict consensus (round1_num avg_confidence)
                 (percentage agreement) (r :: recs))).
Proof.
  intros Hc. unfold _determine_consensus. rewrite Hc. reflexivity.
Qed.

(** An exception raised by a conversion is the outcome of the
    consensus. *)
Lemma consensus_raises results e :
  collect py results [] [] = Raise e ->
  _determine_consensus py results = Raise e.
Proof.
  intros Hc. unfold _determine_consensus. now rewrite Hc.
Qed.

(** The share of any count in a non-empty list is a float. *)
Lemma share_returns l x :
  l <> [] ->
  exists q, int_truediv (count l x) (len l) = Ok q /\ nonneg_finite q.
Proof.
  intros Hne. destruct l as [|y l]; [congruence|].
  pose proof (count_nonneg (y :: l) x). pose proof (count_le_len (y :: l) x).
  pose proof (len_pos _ y l).
  apply int_truediv_returns; lia.
Qed.

Lemma largest_is_a_count l :
  largest l = count l "BUY" \/ largest l = count l "SELL"
  \/ largest l = count l "HOLD".
Proof. unfold largest, max3. lia. Qed.

Lemma largest_share_returns l :
  l <> [] -> exists q, int_truediv (largest l) (len l) = Ok q.
Proof.
  intros Hne.
  destruct (largest_is_a_count l) as [E|[E|E]]; rewrite E;
    match goal with
    | |- context [count l ?x] =>
        destruct (share_returns l x Hne) as (q & Hq & _)
    end; eauto.
Qed.

Lemma majority_returns recs :
  recs <> [] ->
  exists consensus share,
    majority (count recs "BUY") (count recs "SELL") (count recs "HOLD")
             (len recs) = Ok (consensus, share).
Proof.
  intros Hne.
  destruct (largest_share_returns recs Hne) as (qm & Hqm).
  unfold largest in Hqm.
  destruct (majority_cases (count recs "BUY") (count recs "SELL")
              (count recs "HOLD") (len recs)) as [E|[E|[E|E]]];
    rewrite E; [| | |rewrite Hqm; simpl; eauto];
    match goal with
    | |- context [int_truediv (count recs ?x)] =>
        destruct (share_returns recs x Hne) as (q & Hq & _)
    end; rewrite Hq; simpl; eauto.
Qed.

Lemma sum_from l : forall acc, fold_left Z.add l acc = acc + sum l.
Proof.
  unfold sum. induction l as [|x l IH]; simpl; intros acc; [lia|].
  rewrite IH, (IH x). lia.
Qed.

Lemma sum_bounds l B :
  Forall (fun z => 0 <= z) l -> Forall (fun z => z < B) l ->
  0 <= sum l /\ (l <> [] -> sum l < B * len l).
Proof.
  intros H0 HB. induction l as [|x l IH].
  - split; [reflexivity | congruence].
  - inversion H0; subst. inversion HB; subst.
    destruct IH as [IH0 IHB]; auto.
    unfold sum in *. simpl. rewrite sum_from. fold (sum l).
    unfold sum. split; [lia|]. intros _.
    unfold len in *. simpl List.length. rewrite Nat2Z.inj_succ.
    destruct l as [|y l]; [simpl; lia|].
    specialize (IHB ltac:(congruence)). lia.
Qed.

(** The average of confidences within the float range is a number. *)
Lemma average_confidence_returns scores :
  Forall (fun z => 0 <= z < 2 ^ 1000) scores ->
  exists avg, average_confidence scores = Ok avg.
Proof.
  intros HB. unfold average_confidence.
  destruct scores as [|x l]; [eexists; reflexivity|].
  destruct (sum_bounds (x :: l) (2 ^ 1000)) as [Hs Hlt].
  { eapply Forall_impl; [|exact HB]. intros z Hz. exact (proj1 Hz). }
  { eapply Forall_impl; [|exact HB]. intros z Hz. exact (proj2 Hz). }
  specialize (Hlt ltac:(congruence)).
  destruct (int_truediv_returns (sum (x :: l)) (len (x :: l)))
    as (q & Hq & _); auto using len_pos.
  rewrite Hq. eexists. reflexivity.
Qed.

(** *** Rounding to one decimal place *)

Lemma round_half_even_nearest num den :
  0 <= num -> 0 < den ->
  let k := round_half_even num den in
  0 <= k
  /\ 2 * Z.abs (num - k * den) <= den
  /\ (2 * Z.abs (num - k * den) = den -> Z.even k = true).
Proof.
  intros Hnum Hden. unfold round_half_even.
  pose proof (Z.div_mod num den ltac:(lia)) as Hdm.
  pose proof (Z.mod_pos_bound num den Hden) as Hr.
  pose proof (Z.div_pos num den Hnum Hden) as Hq.
  set (q := num / den) in *. set (r := num mod den) in *.
  destruct (Z.compare_spec (2 * r) den) as [Heq|Hlt|Hgt].
  - destruct (Z.even q) eqn:Heven.
    + split; [lia|]. split; [|intros _; exact Heven].
      replace (num - q * den) with r by lia. lia.
    + split; [lia|]. split.
      * replace (num - (q + 1) * den) with (r - den) by lia. lia.
      * intros _. rewrite Z.add_1_r, Z.even_succ, <- Z.negb_even.
        now rewrite Heven.
  - split; [lia|]. replace (num - q * den) with r by lia.
    split; lia.
  - split; [lia|]. replace (num - (q + 1) * den) with (r - den) by lia.
    split; lia.
Qed.

(** [round1] rounds to the nearest tenth, ties to even. *)
Lemma round1_one_decimal x : one_decimal x (round1 x).
Proof.
  destruct x as [s|s| |s m e]; try reflexivity.
  unfold one_decimal, round1, tenths, tenfold_num, tenfold_den.
  destruct (Z.leb_spec 0 e) as [He|He].
  - exists (Zpos m * 2 ^ e * 10).
    rewrite (Z.max_l e 0), (Z.max_r (- e) 0) by lia.
    pose proof (Z.pow_pos_nonneg 2 e ltac:(lia) He).
    split; [nia|]. change (2 ^ 0) with 1.
    replace (10 * Zpos m * 2 ^ e - Zpos m * 2 ^ e * 10 * 1) with 0 by lia.
    split; [simpl; lia|]. split; [simpl; lia | reflexivity].
  - exists (round_half_even (Zpos m * 10) (2 ^ (- e))).
    rewrite (Z.max_r e 0), (Z.max_l (- e) 0) by lia.
    change (2 ^ 0) with 1.
    replace (10 * Zpos m * 1) with (Zpos m * 10) by lia.
    pose proof (Z.pow_pos_nonneg 2 (- e) ltac:(lia) ltac:(lia)) as Hden.
    destruct (round_half_even_nearest (Zpos m * 10) (2 ^ (- e))
                ltac:(lia) Hden) as (Hk & Hnear & Htie).
    repeat split; assumption || reflexivity.
Qed.

(** Rounding to one decimal place determines its result. *)
Lemma one_decimal_unique x a b :
  one_decimal x a -> one_decimal x b -> a = b.
Proof.
  destruct x as [s|s| |s m e]; cbn [one_decimal]; try congruence.
  intros (k & Hk & Hn & Ht & ->) (k' & Hk' & Hn' & Ht' & ->).
  f_equal.
  assert (HD : 0 < tenfold_den e).
  { unfold tenfold_den. apply Z.pow_pos_nonneg; lia. }
  set (N := tenfold_num m e) in *. set (D := tenfold_den e) in *.
  destruct (Z.eq_dec k k') as [|Hne]; [assumption|exfalso].
  assert (Hstep : k' = k + 1 \/ k = k' + 1) by nia.
  destruct Hstep as [-> | ->].
  - assert (H1 : 2 * Z.abs (N - k * D) = D) by nia.
    assert (H2 : 2 * Z.abs (N - (k + 1) * D) = D) by nia.
    specialize (Ht H1). specialize (Ht' H2).
    rewrite Z.add_1_r, Z.even_succ, <- Z.negb_even, Ht in Ht'.
    discriminate.
  - assert (H1 : 2 * Z.abs (N - k' * D) = D) by nia.
    assert (H2 : 2 * Z.abs (N - (k' + 1) * D) = D) by nia.
    specialize (Ht H2). specialize (Ht' H1).
    rewrite Z.add_1_r, Z.even_succ, <- Z.negb_even, Ht' in Ht.
    discriminate.
Qed.


(** A verdict assembled by the code states the share it was given as
    a percentage rounded to one decimal place. *)
Lemma verdict_agrees consensus confidence tally total share recs :
  int_truediv tally total = Ok share ->
  agrees (verdict consensus confidence (percentage share) recs)
         consensus tally total.
Proof.
  intros Hshare. split; [reflexivity|].
  exists share, (percentage share). split; [exact Hshare|].
  split; [apply round1_one_decimal | reflexivity].
Qed.


(** C6, counterexample.  When every entry failed no tally is collected,
    and the verdict returned has no breakdown, whatever the builtins
    do. *)
Lemma breakdown_missing_without_tallies :
  ~ exists py', verdict_has_breakdown py' all_failed.
Proof.
  intros (py' & H). specialize (H insufficient_data eq_refl).
  discriminate H.
Qed.

(** C6, amended.  When at least one tally is collected, every verdict
    returned includes the per-class breakdown counts for BUY, SELL and
    HOLD alongside the recommendation, the confidence and the agreement
    (and a verdict is returned whenever the confidences stated are below
    [2 ^ 1000]); when no tally is collected, the verdict is exactly
    recommendation INSUFFICIENT_DATA, confidence 0, agreement 0, without
    a breakdown.  When the conversion of a stated confidence raises, no
    verdict is returned. *)
Theorem verdict_fields results :
  (forall recs scores,
      collect py results [] [] = Ok (recs, scores) ->
      (recs = [] ->
       _determine_consensus py results = Ok insufficient_data
       /\ dict_mem insufficient_data "breakdown" = false)
      /\ (recs <> [] ->
          (forall v,
              _determine_consensus py results = Ok v ->
              has_all_fields v = true
              /\ dict_get v "breakdown" = Some (breakdown recs))
          /\ (Forall (fun z => 0 <= z < 2 ^ 1000) scores ->
              exists v, _determine_consensus py results = Ok v)))
  /\ (forall e,
         collect py results [] [] = Raise e ->
         _determine_consensus py results = Raise e).
Proof.
  split; [|apply consensus_raises].
  intros recs scores Hc. split.
  - intros ->. unfold _determine_consensus. rewrite Hc. now split.
  - intros Hne. destruct recs as [|r recs]; [congruence|].
    rewrite (consensus_unfold _ _ _ _ Hc).
    destruct (majority_returns (r :: recs) Hne) as (consensus & share & Hm).
    rewrite Hm. cbn [bind]. split.
    + intros v.
      destruct (average_confidence scores) as [avg|e]; cbn [bind];
        [|discriminate].
      intros [= <-]. split; reflexivity.
    + intros HB.
      destruct (average_confidence_returns scores HB) as (avg & ->).
      cbn [bind]. eauto.
Qed.
End ConsensusFacts.



Lemma consensus_three_opinions_witness :
  _determine_consensus ascii_builtins three_opinions
  = Ok [ ("recommendation", VStr "BUY");
         ("confidence", VFloat (ratio 70 10));
         ("agreement", VFloat (ratio 667 10));
         ("breakdown",
          VDict [("BUY", VInt 2); ("SELL", VInt 1); ("HOLD", VInt 0)]) ]
  /\ collect ascii_builtins three_opinions [] []
     = Ok (["BUY"; "BUY"; "SELL"], [8; 6])
  /\ int_truediv 2 3 = Ok (ratio 2 3)
  /\ percentage (ratio 2 3) = ratio 667 10
  /\ int_truediv (8 + 6) 2 = Ok (ratio 7 1)
  /\ round1 (ratio 7 1) = ratio 70 10.
Proof.
  exact (consensus_three_opinions ascii_builtins ascii_conforms).
Defined.


Lemma verdict_fields_witness :
  collect ascii_builtins three_opinions [] []
  = Ok (["BUY"; "BUY"; "SELL"], [8; 6])
  /\ (exists v, _determine_consensus ascii_builtins three_opinions = Ok v)
  /\ collect ascii_builtins all_failed [] [] = Ok ([], [])
  /\ _determine_consensus ascii_builtins all_failed = Ok insufficient_data.
Proof.
  destruct (verdict_fields ascii_builtins three_opinions) as (H3 & _).
  destruct (verdict_fields ascii_builtins all_failed) as (H0 & _).
  split; [reflexivity|]. split.
  - destruct (H3 ["BUY"; "BUY"; "SELL"] [8; 6] eq_refl) as (_ & H).
    destruct H as (_ & H); [discriminate|].
    apply H. repeat constructor; lia.
  - split; [reflexivity|].
    destruct (H0 [] [] eq_refl) as (H & _). apply H. reflexivity.
Defined.

(** ** The summary *)

Section Summary.







End Summary.

(** ** The cost estimate *)

Section CostEstimate.

Lemma binary_round_aux_sign (sx : bool) (mx ex : Z) (lx : location) :
  let r := binary_round_aux prec emax sx mx ex lx in
  r = S754_zero sx \/ (exists m e, r = S754_finite sx m e)
  \/ r = S754_infinity sx \/ r = S754_nan.
Proof.
  unfold binary_round_aux.
  destruct (shr_fexp prec emax mx ex lx) as [mrs' e'].
  destruct (shr_fexp prec emax _ e' loc_Exact) as [mrs'' e''].
  destruct (shr_m mrs'') as [|m|m]; [now left| |now right; right; right].
  destruct (e'' <=? emax - prec); [right; left; eauto | now right; right; left].
Qed.

(** Whatever [a / b] returns for non-negative [a] and positive [b] is a
    non-negative finite float. *)
Lemma int_truediv_nonneg (a b : Z) (q : float) :
  0 <= a -> 0 < b -> int_truediv a b = Ok q -> nonneg_finite q.
Proof.
  intros Ha Hb. unfold int_truediv.
  destruct b as [|b|b]; try lia.
  destruct a as [|a|a]; try lia.
  - intros [= <-]. now left.
  - change (Z.pos a <? 0) with false. change (Z.pos b <? 0) with false.
    unfold fdiv, SFdiv.
    destruct (SFdiv_core_binary prec emax _ 0 _ 0) as [[mz ez] lz].
    change (xorb false false) with false.
    destruct (binary_round_aux_sign false mz ez lz)
      as [E|[(m & e & E)|[E|E]]]; rewrite E; try discriminate.
    + intros [= <-]. now left.
    + intros [= <-]. right. eauto.
Qed.

Lemma times_zero (x y : float) :
  nonneg_finite x -> nonneg_finite y ->
  fadd (fmul x fzero) (fmul y fzero) = fzero.
Proof.
  intros [->|(m & e & ->)] [->|(m' & e' & ->)]; reflexivity.
Qed.

(** Multiplying a cost of the table by [1.0] leaves it unchanged. *)
Lemma known_costs model ci co :
  dict_get COST_MAP model = Some (cost_entry ci co) ->
  fadd (fmul (ratio 1 1) ci) (fmul (ratio 1 1) co) = fadd ci co.
Proof.
  intros H. apply dict_get_some_in in H. unfold COST_MAP in H.
  repeat (destruct H as [H|H];
          [injection H as _ <- <-; vm_compute; reflexivity|]).
  destruct H.
Qed.

(** C8.  For every model name and non-negative token counts [i] and
    [o], [estimate_cost] is [(i / 1_000_000) * inputCost + (o /
    1_000_000) * outputCost] when the model is in the cost table, and 0
    when it is not (a miss is not an error); both quotients are floats
    for all counts below [2 ^ 1000] (beyond the float range the
    division itself raises).  In particular [estimate_cost(model,
    1_000_000, 1_000_000)] is [inputCost + outputCost] for a known model
    and 0 for an unknown one. *)
Theorem estimate_cost_formula (provider model : string) (i o : Z) :
  0 <= i -> 0 <= o ->
  (forall ci co,
      dict_get COST_MAP model = Some (cost_entry ci co) ->
      estimate_cost provider model i o
      = (x <- int_truediv i 1000000 ;;
         y <- int_truediv o 1000000 ;;
         Ok (fadd (fmul x ci) (fmul y co)))
      /\ estimate_cost provider model 1000000 1000000 = Ok (fadd ci co))
  /\ (dict_get COST_MAP model = None ->
      estimate_cost provider model i o
      = (x <- int_truediv i 1000000 ;;
         y <- int_truediv o 1000000 ;;
         Ok fzero)
      /\ estimate_cost provider model 1000000 1000000 = Ok fzero)
  /\ (i < 2 ^ 1000 -> o < 2 ^ 1000 ->
      exists x y,
        int_truediv i 1000000 = Ok x /\ int_truediv o 1000000 = Ok y).
Proof.
  intros Hi Ho. split; [|split].
  - intros ci co Hknown.
    assert (Hgen : forall i' o',
               estimate_cost provider model i' o'
               = (x <- int_truediv i' 1000000 ;;
                  y <- int_truediv o' 1000000 ;;
                  Ok (fadd (fmul x ci) (fmul y co)))).
    { intros i' o'. unfold estimate_cost, dict_get_default.
      rewrite Hknown.
      destruct (int_truediv i' 1000000), (int_truediv o' 1000000);
        reflexivity. }
    split; [apply Hgen|]. rewrite Hgen.
    change (int_truediv 1000000 1000000) with (Ok (ratio 1 1)).
    cbn [bind]. now rewrite (known_costs model ci co Hknown).
  - intros Hmiss. unfold estimate_cost, dict_get_default.
    rewrite Hmiss. split; [|reflexivity].
    destruct (int_truediv i 1000000) as [x|] eqn:Hx;
      destruct (int_truediv o 1000000) as [y|] eqn:Hy;
      try reflexivity.
    simpl. f_equal. apply times_zero.
    + apply (int_truediv_nonneg i 1000000); auto; lia.
    + apply (int_truediv_nonneg o 1000000); auto; lia.
  - intros Hi' Ho'.
    destruct (int_truediv_returns i 1000000) as (x & Hx & _); try lia.
    destruct (int_truediv_returns o 1000000) as (y & Hy & _); try lia.
    eauto.
Qed.

Lemma estimate_cost_formula_witness :
  estimate_cost "openai" "gpt-4o" 1500 500
  = (x <- int_truediv 1500 1000000 ;;
     y <- int_truediv 500 1000000 ;;
     Ok (fadd (fmul x (ratio 250 100)) (fmul y (ratio 1000 100))))
  /\ estimate_cost "openai" "gpt-4o" 1000000 1000000
     = Ok (fadd (ratio 250 100) (ratio 1000 100))
  /\ estimate_cost "openai" "gpt-5" 1500 500
     = (x <- int_truediv 1500 1000000 ;;
        y <- int_truediv 500 1000000 ;;
        Ok fzero)
  /\ estimate_cost "openai" "gpt-5" 1000000 1000000 = Ok fzero.
Proof.
  destruct (estimate_cost_formula "openai" "gpt-4o" 1500 500)
    as (Hknown & _ & _); [lia | lia |].
  destruct (estimate_cost_formula "openai" "gpt-5" 1500 500)
    as (_ & Hmiss & _); [lia | lia |].
  destruct (Hknown (ratio 250 100) (ratio 1000 100) eq_refl) as (H1 & H2).
  destruct (Hmiss eq_refl) as (H3 & H4).
  repeat split; assumption.
Defined.
End CostEstimate.

(** ** The agent cache *)

Section AgentCache.
Variable LLM : Type.
Variable construct : chat_class -> string -> float -> result LLM.

(** The three ways a request ends: a cache hit, a failed attempt after
    a selection by the router, or a new cached agent. *)
Lemma step_cases t c w r w' :
  _get_or_create_agent construct t c w = (r, w') ->
  (exists a, cached w t a /\ r = Ok a /\ w' = w)
  \/ (dict_get (agents (self w)) t = None
      /\ exists e, r = Raise e /\ w' = log (Routed t) w)
  \/ (dict_get (agents (self w)) t = None
      /\ exists a, r = Ok a /\ w' = cache t a (log (Routed t) w)).
Proof.
  unfold _get_or_create_agent, cached.
  destruct (dict_get (agents (self w)) t) as [a|] eqn:Hget.
  - intros [= <- <-]. left. eauto.
  - destruct (route_task _ _ _ _ _) as [[[llm provider] model]|e].
    + destruct (class_of t) as [cls|].
      * destruct (new_agent _ _ _ _ _) as [a|e].
        -- intros [= <- <-]. right. right. eauto.
        -- intros [= <- <-]. right. left. eauto.
      * intros [= <- <-]. right. left. eauto.
    + intros [= <- <-]. right. left. eauto.
Qed.

Lemma selections_log t t' (w : World LLM) :
  selections t' (log (Routed t) w)
  = (selections t' w + if String.eqb t t' then 1 else 0)%nat.
Proof.
  unfold selections, log. simpl. rewrite filter_app, length_app. simpl.
  now destruct (String.eqb t t').
Qed.

Lemma constructions_log t t' (w : World LLM) :
  constructions t' (log (Routed t) w) = constructions t' w.
Proof.
  unfold constructions, log. simpl. rewrite filter_app, length_app. simpl.
  lia.
Qed.

Lemma selections_cache t t' a (w : World LLM) :
  selections t' (cache t a w) = selections t' w.
Proof.
  unfold selections, cache. simpl. rewrite filter_app, length_app. simpl.
  lia.
Qed.

Lemma constructions_cache t t' a (w : World LLM) :
  constructions t' (cache t a w)
  = (constructions t' w + if String.eqb t t' then 1 else 0)%nat.
Proof.
  unfold constructions, cache. simpl. rewrite filter_app, length_app. simpl.
  now destruct (String.eqb t t').
Qed.

(** A request never evicts or replaces a cached agent. *)
Lemma step_keeps t c w r w' t' a' :
  _get_or_create_agent construct t c w = (r, w') ->
  cached w t' a' -> cached w' t' a'.
Proof.
  intros Hstep Hc.
  destruct (step_cases _ _ _ _ _ Hstep)
    as [(a & _ & _ & ->)|[(_ & e & _ & ->)|(Hnone & a & _ & ->)]];
    try exact Hc.
  unfold cached, cache in *. simpl.
  rewrite dict_get_set_ne; [exact Hc|]. congruence.
Qed.

(** A request leaves the selections of a cached type alone. *)
Lemma step_selections t c w r w' t' a' :
  _get_or_create_agent construct t c w = (r, w') ->
  cached w t' a' -> selections t' w' = selections t' w.
Proof.
  intros Hstep Hc.
  destruct (step_cases _ _ _ _ _ Hstep)
    as [(a & _ & _ & ->)|[(Hnone & e & _ & ->)|(Hnone & a & _ & ->)]];
    [reflexivity| |rewrite selections_cache];
    rewrite selections_log;
    (destruct (String.eqb_spec t t') as [->|]; [|lia]);
    unfold cached in Hc; congruence.
Qed.

Lemma step_consistent t c w r w' :
  _get_or_create_agent construct t c w = (r, w') ->
  consistent w -> consistent w'.
Proof.
  intros Hstep [Hnd Hcount].
  destruct (step_cases _ _ _ _ _ Hstep)
    as [(a & _ & _ & ->)|[(Hnone & e & _ & ->)|(Hnone & a & _ & ->)]].
  - now split.
  - split; [exact Hnd|]. intros t'. rewrite constructions_log. apply Hcount.
  - split.
    + unfold cache. simpl. now apply dict_set_nodup.
    + intros t'. rewrite constructions_cache, constructions_log, Hcount.
      unfold cache, dict_mem. simpl.
      destruct (String.eqb_spec t t') as [<-|Hne].
      * rewrite dict_get_set_eq, Hnone. reflexivity.
      * rewrite dict_get_set_ne by exact Hne.
        destruct (dict_get (agents (self w)) t'); lia.
Qed.

Lemma requests_keeps reqs :
  forall w t' a',
    cached w t' a' ->
    cached (snd (requests construct reqs w)) t' a'
    /\ selections t' (snd (requests construct reqs w)) = selections t' w.
Proof.
  induction reqs as [|[t c] rest IH]; intros w t' a' Hc; simpl; [now split|].
  destruct (_get_or_create_agent construct t c w) as [r w1] eqn:Hstep.
  pose proof (step_keeps _ _ _ _ _ _ _ Hstep Hc) as Hc1.
  pose proof (step_selections _ _ _ _ _ _ _ Hstep Hc) as Hs1.
  destruct (IH w1 t' a' Hc1) as [Hc2 Hs2].
  destruct (requests construct rest w1) as [rs w2]. simpl in *.
  split; [exact Hc2 | congruence].
Qed.

Lemma requests_consistent reqs :
  forall w, consistent w -> consistent (snd (requests construct reqs w)).
Proof.
  induction reqs as [|[t c] rest IH]; intros w Hw; simpl; [exact Hw|].
  destruct (_get_or_create_agent construct t c w) as [r w1] eqn:Hstep.
  pose proof (step_consistent _ _ _ _ _ Hstep Hw) as Hw1.
  specialize (IH w1 Hw1).
  now destruct (requests construct rest w1) as [rs w2].
Qed.

Lemma init_consistent router workers :
  consistent (Coordinator.__init__ LLM router workers).
Proof. split; [constructor | reflexivity]. Qed.

(** C9, amended.  For every coordinator and every sequence of agent
    requests made to it since its construction: at most one agent
    construction succeeds per sub-task type and the cache holds at most
    one agent per type; once [_get_or_create_agent] has returned an
    agent for a type, every later call for that type returns the
    identical cached instance without invoking the router again; a call
    that raises (the router fails, the type is unknown, or the agent
    cannot be built) caches nothing, so that each such call invokes the
    router once more. *)
Theorem agent_cache
    (router : MultiLLMRouter) (workers : Z)
    (before after : list (string * TaskComplexity))
    (t : string) (c c' : TaskComplexity) :
  let w1 := snd (requests construct before
                          (Coordinator.__init__ LLM router workers)) in
  (forall t', (constructions t' w1 <= 1)%nat)
  /\ NoDup (dict_keys (agents (self w1)))
  /\ (forall a w2,
         _get_or_create_agent construct t c w1 = (Ok a, w2) ->
         let w3 := snd (requests construct after w2) in
         _get_or_create_agent construct t c' w3 = (Ok a, w3)
         /\ selections t w3 = selections t w2
         /\ constructions t w3 = 1%nat)
  /\ (forall e w2,
         _get_or_create_agent construct t c w1 = (Raise e, w2) ->
         agents (self w2) = agents (self w1)
         /\ selections t w2 = S (selections t w1)).
Proof.
  intros w1.
  assert (Hw1 : consistent w1)
    by (apply requests_consistent, init_consistent).
  split; [|split; [|split]].
  - intros t'. destruct Hw1 as [_ Hcount]. rewrite Hcount.
    destruct (dict_mem _ t'); lia.
  - apply Hw1.
  - intros a w2 Hstep w3.
    assert (Hc2 : cached w2 t a).
    { destruct (step_cases _ _ _ _ _ Hstep)
        as [(a0 & Hc & [= <-] & ->)|[(_ & e & [=] & _)|(_ & a0 & [= <-] & ->)]];
        [exact Hc|].
      unfold cached, cache. simpl. apply dict_get_set_eq. }
    destruct (requests_keeps after w2 t a Hc2) as [Hc3 Hs3].
    fold w3 in Hc3, Hs3.
    split; [|split; [exact Hs3|]].
    + unfold _get_or_create_agent. unfold cached in Hc3. now rewrite Hc3.
    + assert (Hw3 : consistent w3).
      { apply requests_consistent.
        exact (step_consistent _ _ _ _ _ Hstep Hw1). }
      destruct Hw3 as [_ Hcount]. rewrite Hcount.
      unfold dict_mem. unfold cached in Hc3. now rewrite Hc3.
  - intros e w2 Hstep.
    destruct (step_cases _ _ _ _ _ Hstep)
      as [(a0 & _ & [=] & _)|[(_ & e0 & _ & ->)|(_ & a0 & [=] & _)]].
    split; [reflexivity|]. rewrite selections_log, String.eqb_refl. lia.
Qed.
End AgentCache.

(** C9, counterexample.  With Google as the only provider configured,
    the router selects it, and the technical agent, which knows only
    OpenAI, Anthropic and Groq, cannot be built: nothing is cached, and
    a second request for the same type makes the router select again. *)
Lemma router_selects_again_after_failure :
  ~ single_selection always router_google 4 twice_technical.
Proof.
  intros H. destruct (H "technical") as [Hsel _].
  vm_compute in Hsel. lia.
Qed.

Lemma agent_cache_witness :
  let w0 := Coordinator.__init__ chat_class router_openai 4 in
  exists a w1,
    _get_or_create_agent always "technical" MODERATE w0 = (Ok a, w1)
    /\ let w2 := snd (requests always [("fundamental", COMPLEX)] w1) in
       _get_or_create_agent always "technical" CRITICAL w2 = (Ok a, w2)
       /\ selections "technical" w2 = 1%nat
       /\ constructions "technical" w2 = 1%nat.
Proof.
  intros w0.
  destruct (_get_or_create_agent always "technical" MODERATE w0)
    as [r w1] eqn:Hstep.
  vm_compute in Hstep. injection Hstep as <- <-.
  eexists. eexists. split; [reflexivity|].
  destruct (agent_cache chat_class always router_openai 4 []
              [("fundamental", COMPLEX)] "technical" MODERATE CRITICAL)
    as (_ & _ & Hhit & _).
  destruct (Hhit _ _ eq_refl) as (H1 & H2 & H3).
  split; [exact H1|]. split; [|exact H3].
  etransitivity; [exact H2 | reflexivity].
Defined.

(** ** Batch analysis of an unsupported asset type *)

Section UnsupportedAssetType.
Variable py : Builtins.
Variable execute : Task -> result AgentResult.
Variable as_completed : forall A : Type, list A -> list A.
Hypothesis as_completed_perm :
  forall (A : Type) (l : list A), Permutation (as_completed A l) l.
Variable now : string.
Variable Agent : Type.
Variable self : TaskCoordinator Agent.

Lemma nothing_submitted tickers asset_type :
  asset_type <> "stock" -> asset_type <> "crypto" ->
  submit_all py execute as_completed now self tickers asset_type = [].
Proof.
  intros Hs Hc. apply String.eqb_neq in Hs, Hc.
  induction tickers as [|ticker rest IH]; simpl; [reflexivity|].
  now rewrite Hs, Hc.
Qed.

(** C10, amended.  For every list of asset identifiers, [batch_analyze]
    called with an asset type that is neither "stock" nor "crypto" on a
    coordinator whose [max_workers] is positive does not raise: every
    ticker is skipped, and the record returned has [batch_analysis]
    true, the asset type given, [total_analyzed] 0, an empty results
    mapping and a timestamp.  On a coordinator whose [max_workers] is
    not positive it raises [ValueError] when it creates its worker
    pool, before the asset type is looked at. *)
Theorem batch_analyze_unsupported tickers asset_type analysis_type :
  asset_type <> "stock" -> asset_type <> "crypto" ->
  (0 < max_workers self ->
   batch_analyze py execute as_completed now self tickers asset_type
                 analysis_type
   = Ok [ ("batch_analysis", VBool true);
          ("asset_type", VStr asset_type);
          ("total_analyzed", VInt 0);
          ("results", VDict []);
          ("timestamp", VStr now) ])
  /\ (max_workers self <= 0 ->
      batch_analyze py execute as_completed now self tickers asset_type
                    analysis_type
      = Raise (Exn ValueError "max_workers must be greater than 0")).
Proof.
  intros Hs Hc. unfold batch_analyze, ThreadPoolExecutor. split; intros Hw.
  - destruct (Z.leb_spec (max_workers self) 0); [lia|]. simpl.
    rewrite (nothing_submitted tickers asset_type Hs Hc).
    rewrite (Permutation_nil (Permutation_sym (as_completed_perm _ []))).
    reflexivity.
  - destruct (Z.leb_spec (max_workers self) 0); [reflexivity | lia].
Qed.
End UnsupportedAssetType.

(** C10, counterexample.  On a coordinator built with [max_workers=0],
    [batch_analyze] with the asset type "bond" raises. *)
Lemma batch_analyze_needs_workers :
  "bond" <> "stock" /\ "bond" <> "crypto"
  /\ batch_analyze ascii_builtins technical_fails last_first
                   "2024-01-01T00:00:00" idle_coordinator
                   ["AAPL"; "MSFT"] "bond" "comprehensive"
     = Raise (Exn ValueError "max_workers must be greater than 0").
Proof. repeat split; discriminate || reflexivity. Qed.

Lemma batch_analyze_unsupported_witness :
  batch_analyze ascii_builtins technical_fails last_first
                "2024-01-01T00:00:00" coordinator
                ["AAPL"; "MSFT"] "bond" "comprehensive"
  = Ok [ ("batch_analysis", VBool true);
         ("asset_type", VStr "bond");
         ("total_analyzed", VInt 0);
         ("results", VDict []);
         ("timestamp", VStr "2024-01-01T00:00:00") ].
Proof.
  apply (batch_analyze_unsupported ascii_builtins technical_fails last_first
           (fun A l => Permutation_sym (Permutation_rev l))
           "2024-01-01T00:00:00" unit coordinator
           ["AAPL"; "MSFT"] "bond" "comprehensive").
  - discriminate.
  - discriminate.
  - reflexivity.
Defined.

(** ** Further properties of the router *)

Lemma recommended_are_known complexity p m :
  In (p, m) (COMPLEXITY_MODELS complexity) ->
  p = "openai" \/ p = "anthropic" \/ p = "groq" \/ p = "google".
Proof.
  destruct complexity; simpl; intros H;
    repeat (destruct H as [H|H]; [injection H as <- _; tauto|]);
    destruct H.
Qed.

Section RouterMore.
Variable LLM : Type.
Variable construct : chat_class -> string -> float -> result LLM.
Variable getenv : string -> option string.

(** The providers of a constructed router's map are the four the router
    can build a chat model for. *)
Lemma available_is_known dp dm co temp p :
  available (Router.__init__ getenv dp dm co temp) p ->
  p = "openai" \/ p = "anthropic" \/ p = "groq" \/ p = "google".
Proof.
  intros H. apply dict_get_some_in in H. simpl in H.
  destruct H as [H|[H|[H|[H|[]]]]]; injection H as <- _; tauto.
Qed.

Lemma create_known self p model :
  p = "openai" \/ p = "anthropic" \/ p = "groq" \/ p = "google" ->
  exists cls, _create_llm construct self p model
              = construct cls model (temperature self).
Proof.
  intros [->|[->|[->| ->]]]; eexists; reflexivity.
Qed.

Lemma unavailable_recommended self max_cost recommended :
  (forall p, ~ available self p) ->
  route_recommended construct self max_cost recommended = None.
Proof.
  intros Hnone. induction recommended as [|[p m] rest IH];
    cbn [route_recommended]; [reflexivity|].
  destruct (dict_get_default (available_providers self) p false) eqn:Hav.
  - exfalso. apply (Hnone p). now apply get_default_true.
  - exact IH.
Qed.

(** X1.  A router built in an environment
    where no provider has an API key raises the "No LLM providers
    available" error for every task, tier and ceiling, whatever its
    default provider and model and whatever the constructors do. *)
Theorem route_task_without_provider
    (dp dm : option string) (co : bool) (temp : float)
    (task_description : string) (complexity : TaskComplexity)
    (max_cost : option float) :
  let self := Router.__init__ getenv dp dm co temp in
  (forall p, ~ available self p) ->
  route_task construct self task_description complexity max_cost
  = Raise no_provider.
Proof.
  intros self Hnone.
  assert (Hdef : default_applies self = false).
  { unfold default_applies. destruct (default_provider self) as [p|];
      [|now rewrite andb_false_r].
    destruct (dict_get_default (available_providers self) p false) eqn:Hav;
      [|now rewrite andb_false_r].
    exfalso. apply (Hnone p). now apply get_default_true. }
  assert (Htier : route_by_tier construct self complexity max_cost
                  = Raise no_provider).
  { unfold route_by_tier.
    rewrite (unavailable_recommended self max_cost _ Hnone).
    rewrite route_fallback_unavailable; [reflexivity|].
    intros p Hin. apply (Hnone p).
    apply dict_get_in; [apply init_keys_distinct | exact Hin]. }
  unfold route_task. rewrite Hdef, Htier.
  now destruct (default_provider self), (default_model self).
Qed.

Lemma fallback_found self items p :
  never_raises construct ->
  (forall q, In (q, true) items ->
             q = "openai" \/ q = "anthropic" \/ q = "groq" \/ q = "google") ->
  In (p, true) items ->
  exists r, route_fallback construct self items = Some r.
Proof.
  intros Hok. induction items as [|[q [|]] rest IH]; intros Hknown Hin;
    cbn [route_fallback].
  - destruct Hin.
  - destruct (create_known self q (_get_fallback_model q)) as (cls & ->).
    { apply Hknown. now left. }
    destruct (Hok cls (_get_fallback_model q) (temperature self)) as (llm & ->).
    eauto.
  - destruct Hin as [[=]|Hin]. apply IH; [|exact Hin].
    intros q' Hq'. apply Hknown. now right.
Qed.

Lemma route_task_total
    (dp dm : option string) (co : bool) (temp : float)
    (task_description : string) (complexity : TaskComplexity)
    (max_cost : option float) (p : string) :
  let self := Router.__init__ getenv dp dm co temp in
  never_raises construct ->
  available self p ->
  exists llm q m,
    route_task construct self task_description complexity max_cost
    = Ok (llm, q, m).
Proof.
  intros self Hok Hav.
  assert (Htier : exists r,
             route_by_tier construct self complexity max_cost = Ok r).
  { unfold route_by_tier.
    destruct (route_recommended construct self max_cost _) as [r|];
      [eauto|].
    destruct (fallback_found self (available_providers self) p Hok) as (r & ->).
    - intros q Hq. apply (available_is_known dp dm co temp).
      apply dict_get_in; [apply init_keys_distinct | exact Hq].
    - now apply dict_get_some_in.
    - eauto. }
  destruct Htier as ([[llm q] m] & Htier).
  unfold route_task.
  destruct (default_provider self) as [d|] eqn:Hd; [|eauto].
  destruct (default_model self) as [md|] eqn:Hm; [|eauto].
  destruct (default_applies self) eqn:Hdef; [|eauto].
  assert (Hdav : available self d).
  { unfold default_applies in Hdef. rewrite Hd in Hdef.
    apply andb_prop in Hdef. now apply get_default_true. }
  destruct (create_known self d md (available_is_known dp dm co temp d Hdav))
    as (cls & ->).
  destruct (Hok cls md (temperature self)) as (llm' & ->). simpl. eauto.
Qed.

(** X2.  When the chat-model constructors do not
    raise and at least one provider has an API key, [route_task] of a
    constructed router returns a triple for every task, tier and
    ceiling: neither the final [RuntimeError] nor the "Unsupported
    provider" error of [_create_llm] can occur. *)
Theorem route_task_returns
    (dp dm : option string) (co : bool) (temp : float)
    (task_description : string) (complexity : TaskComplexity)
    (max_cost : option float) (p : string) :
  let self := Router.__init__ getenv dp dm co temp in
  never_raises construct ->
  available self p ->
  exists llm q m,
    route_task construct self task_description complexity max_cost
    = Ok (llm, q, m).
Proof.
  intros self Hok Hav.
  exact (route_task_total dp dm co temp task_description complexity
           max_cost p Hok Hav).
Qed.

Lemma route_recommended_first self max_cost recommended llm p m :
  route_recommended construct self max_cost recommended = Some (llm, p, m) ->
  exists before after,
    recommended = (before ++ (p, m) :: after)%list
    /\ Forall (passed_over construct self max_cost) before
    /\ dict_get_default (available_providers self) p false = true
    /\ over_budget self max_cost m = false
    /\ _create_llm construct self p m = Ok llm.
Proof.
  induction recommended as [|[q mq] rest IH]; cbn [route_recommended];
    [discriminate|].
  destruct (dict_get_default (available_providers self) q false) eqn:Hav;
    cbn [negb].
  - destruct (over_budget self max_cost mq) eqn:Hob.
    + intros H. destruct (IH H) as (before & after & -> & Hb & Hrest).
      exists ((q, mq) :: before), after. split; [reflexivity|].
      split; [|exact Hrest]. constructor; [|exact Hb].
      right. now left.
    + destruct (_create_llm construct self q mq) as [l|e] eqn:Hc.
      * intros [= <- <- <-]. exists [], rest. auto.
      * intros H. destruct (IH H) as (before & after & -> & Hb & Hrest).
        exists ((q, mq) :: before), after. split; [reflexivity|].
        split; [|exact Hrest]. constructor; [|exact Hb].
        right. right. eauto.
  - intros H. destruct (IH H) as (before & after & -> & Hb & Hrest).
    exists ((q, mq) :: before), after. split; [reflexivity|].
    split; [|exact Hrest]. constructor; [|exact Hb]. now left.
Qed.

Lemma route_recommended_none self max_cost recommended :
  route_recommended construct self max_cost recommended = None ->
  Forall (passed_over construct self max_cost) recommended.
Proof.
  induction recommended as [|[q mq] rest IH];
    cbn [route_recommended]; intros Hrec; [constructor|].
  destruct (dict_get_default (available_providers self) q false) eqn:Hav;
    cbn [negb] in Hrec.
  - destruct (over_budget self max_cost mq) eqn:Hob.
    + constructor; [right; now left | now apply IH].
    + destruct (_create_llm construct self q mq) eqn:Hc; [discriminate|].
      constructor; [right; right; eauto | now apply IH].
  - constructor; [now left | now apply IH].
Qed.

Lemma route_task_by_tier self task_description complexity max_cost :
  default_applies self = false ->
  route_task construct self task_description complexity max_cost
  = route_by_tier construct self complexity max_cost.
Proof.
  intros Hdef. unfold route_task. rewrite Hdef.
  now destruct (default_provider self), (default_model self).
Qed.

Lemma route_by_tier_outcome self complexity max_cost llm p m :
  route_by_tier construct self complexity max_cost = Ok (llm, p, m) ->
  (exists before after,
      COMPLEXITY_MODELS complexity = (before ++ (p, m) :: after)%list
      /\ Forall (passed_over construct self max_cost) before
      /\ ~ passed_over construct self max_cost (p, m))
  \/ (Forall (passed_over construct self max_cost)
             (COMPLEXITY_MODELS complexity)
      /\ m = _get_fallback_model p).
Proof.
  unfold route_by_tier.
  destruct (route_recommended construct self max_cost _) as [r|] eqn:Hrec.
  - intros [= ->]. left.
    destruct (route_recommended_first _ _ _ _ _ _ Hrec)
      as (before & after & Heq & Hb & Hav & Hob & Hc).
    exists before, after. split; [exact Heq|]. split; [exact Hb|].
    unfold passed_over. simpl. intros [H|[H|(e & H)]]; congruence.
  - destruct (route_fallback construct self _) as [r|] eqn:Hfb;
      [|discriminate].
    intros [= ->]. right. split.
    + now apply route_recommended_none.
    + now apply route_fallback_in in Hfb.
Qed.

(** X3.  When the default does not apply,
    the pair that [route_task] returns is the first candidate of the
    tier's list that is available, within budget and constructible,
    every candidate before it having been passed over for one of those
    three reasons; and when the whole list was passed over, the model
    is the fallback model of the returned provider. *)
Theorem first_eligible_candidate_wins
    (self : MultiLLMRouter) (task_description : string)
    (complexity : TaskComplexity) (max_cost : option float)
    (llm : LLM) (p m : string) :
  default_applies self = false ->
  route_task construct self task_description complexity max_cost
  = Ok (llm, p, m) ->
  (exists before after,
      COMPLEXITY_MODELS complexity = (before ++ (p, m) :: after)%list
      /\ Forall (passed_over construct self max_cost) before
      /\ ~ passed_over construct self max_cost (p, m))
  \/ (Forall (passed_over construct self max_cost)
             (COMPLEXITY_MODELS complexity)
      /\ m = _get_fallback_model p).
Proof.
  intros Hdef Hroute.
  rewrite (route_task_by_tier _ _ _ _ Hdef) in Hroute.
  now apply route_by_tier_outcome in Hroute.
Qed.

Lemma over_budget_without_ceiling self c model :
  float_truthy c = false \/ cost_optimization self = false ->
  over_budget self (Some c) model = over_budget self None model.
Proof.
  unfold over_budget. intros [-> | ->]; [reflexivity|].
  now rewrite andb_false_r.
Qed.

(** X4.  A ceiling that is falsy (zero) or a
    router built with [cost_optimization=False] routes exactly as if
    no ceiling had been given. *)
Theorem ceiling_without_effect
    (self : MultiLLMRouter) (task_description : string)
    (complexity : TaskComplexity) (c : float) :
  float_truthy c = false \/ cost_optimization self = false ->
  route_task construct self task_description complexity (Some c)
  = route_task construct self task_description complexity None.
Proof.
  intros H.
  assert (Hrec : forall recommended,
             route_recommended construct self (Some c) recommended
             = route_recommended construct self None recommended).
  { induction recommended as [|[p m] rest IH]; cbn [route_recommended];
      [reflexivity|].
    now rewrite (over_budget_without_ceiling self c m H), IH. }
  unfold route_task, route_by_tier. now rewrite Hrec.
Qed.

(** X5.  With cost optimisation on, a
    non-zero ceiling and no applicable default, the pair returned is
    either a candidate of the tier whose average cost does not exceed
    the ceiling, or the provider's fallback model after every candidate
    of the tier was passed over. *)
Theorem ceiling_respected_by_tier
    (self : MultiLLMRouter) (task_description : string)
    (complexity : TaskComplexity) (c : float)
    (llm : LLM) (p m : string) :
  cost_optimization self = true ->
  float_truthy c = true ->
  default_applies self = false ->
  route_task construct self task_description complexity (Some c)
  = Ok (llm, p, m) ->
  (In (p, m) (COMPLEXITY_MODELS complexity) /\ fgt (avg_cost m) c = false)
  \/ (m = _get_fallback_model p
      /\ forall q mq, In (q, mq) (COMPLEXITY_MODELS complexity) ->
                      passed_over construct self (Some c) (q, mq)).
Proof.
  intros Hco Hc Hdef Hroute.
  rewrite (route_task_by_tier _ _ _ _ Hdef) in Hroute.
  destruct (route_by_tier_outcome _ _ _ _ _ _ Hroute)
    as [(before & after & Heq & _ & Hnot)|(Hall & Hm)].
  - left. split.
    + rewrite Heq. apply in_or_app. right. now left.
    + destruct (fgt (avg_cost m) c) eqn:Hgt; [|reflexivity].
      exfalso. apply Hnot. right. left. unfold over_budget. simpl.
      now rewrite Hc, Hco, Hgt.
  - right. split; [exact Hm|]. intros q mq Hin.
    rewrite Forall_forall in Hall. exact (Hall (q, mq) Hin).
Qed.
End RouterMore.

Lemma router_none_unavailable : forall p, ~ available router_none p.
Proof.
  intros p H. apply dict_get_some_in in H. simpl in H.
  destruct H as [H|[H|[H|[H|[]]]]]; discriminate.
Qed.

Lemma always_never_raises : never_raises always.
Proof. intros cls model t. now exists cls. Qed.

Lemma route_task_without_provider_witness :
  route_task always router_none "technical analysis" MODERATE None
  = Raise no_provider.
Proof.
  apply (route_task_without_provider chat_class always env_empty
           None None true (ratio 1 10) "technical analysis" MODERATE None).
  exact router_none_unavailable.
Defined.

Lemma route_task_returns_witness :
  exists llm q m,
    route_task always router_openai "technical analysis" CRITICAL
               (Some (ratio 1 100))
    = Ok (llm, q, m).
Proof.
  apply (route_task_returns chat_class always env_openai
           None None true (ratio 1 10) "technical analysis" CRITICAL
           (Some (ratio 1 100)) "openai").
  - exact always_never_raises.
  - reflexivity.
Defined.

Lemma first_eligible_candidate_wins_witness :
  (exists before after,
      COMPLEXITY_MODELS SIMPLE
      = (before ++ ("google", "gemini-2.0-flash-exp") :: after)%list
      /\ Forall (passed_over always router_google None) before
      /\ ~ passed_over always router_google None
                       ("google", "gemini-2.0-flash-exp"))
  \/ (Forall (passed_over always router_google None)
             (COMPLEXITY_MODELS SIMPLE)
      /\ "gemini-2.0-flash-exp" = _get_fallback_model "google").
Proof.
  apply (first_eligible_candidate_wins chat_class always router_google
           "quick lookup" SIMPLE None ChatGoogleGenerativeAI
           "google" "gemini-2.0-flash-exp").
  - reflexivity.
  - reflexivity.
Defined.

Lemma ceiling_without_effect_witness :
  route_task always router_openai "fundamental analysis" COMPLEX (Some fzero)
  = route_task always router_openai "fundamental analysis" COMPLEX None.
Proof.
  apply (ceiling_without_effect chat_class always router_openai
           "fundamental analysis" COMPLEX fzero).
  left. reflexivity.
Defined.

Lemma ceiling_respected_by_tier_witness :
  (In ("openai", "gpt-4o") (COMPLEXITY_MODELS COMPLEX)
   /\ fgt (avg_cost "gpt-4o") (ratio 10 1) = false)
  \/ ("gpt-4o" = _get_fallback_model "openai"
      /\ forall q mq, In (q, mq) (COMPLEXITY_MODELS COMPLEX) ->
                      passed_over always router_openai
                                  (Some (ratio 10 1)) (q, mq)).
Proof.
  apply (ceiling_respected_by_tier chat_class always router_openai
           "fundamental analysis" COMPLEX (ratio 10 1) ChatOpenAI
           "openai" "gpt-4o").
  - reflexivity.
  - reflexivity.
  - reflexivity.
  - reflexivity.
Defined.

(** ** Recommendation by task type *)

Section Recommend.
Variable getenv : string -> option string.

Lemma recommend_from_some self budget recommended p m :
  recommend_from self budget recommended = Some (p, m) ->
  In (p, m) recommended
  /\ dict_get_default (available_providers self) p false = true
  /\ over_given_budget budget m = false.
Proof.
  induction recommended as [|[q mq] rest IH]; cbn [recommend_from];
    [discriminate|].
  destruct (dict_get_default (available_providers self) q false) eqn:Hav;
    cbn [negb].
  - destruct (over_given_budget budget mq) eqn:Hob.
    + intros H. destruct (IH H) as (Hin & Hrest). split; [now right | exact Hrest].
    + intros [= <- <-]. split; [now left | auto].
  - intros H. destruct (IH H) as (Hin & Hrest). split; [now right | exact Hrest].
Qed.

Lemma recommend_from_unavailable self budget recommended :
  (forall p, ~ available self p) ->
  recommend_from self budget recommended = None.
Proof.
  intros Hnone. induction recommended as [|[p m] rest IH];
    cbn [recommend_from]; [reflexivity|].
  destruct (dict_get_default (available_providers self) p false) eqn:Hav.
  - exfalso. apply (Hnone p). now apply get_default_true.
  - exact IH.
Qed.

Lemma first_available_some items p m :
  first_available items = Some (p, m) ->
  In (p, true) items /\ m = _get_fallback_model p.
Proof.
  induction items as [|[q [|]] rest IH]; cbn [first_available];
    [discriminate| |].
  - intros [= <- <-]. split; [now left | reflexivity].
  - intros H. destruct (IH H) as (Hin & Hm). split; [now right | exact Hm].
Qed.

Lemma first_available_none items :
  first_available items = None <-> forall p, ~ In (p, true) items.
Proof.
  induction items as [|[q [|]] rest IH]; cbn [first_available].
  - split; [intros _ p [] | reflexivity].
  - split; [discriminate|]. intros H. exfalso. apply (H q). now left.
  - rewrite IH. split; intros H p.
    + intros [[=]|Hin]. exact (H p Hin).
    + intros Hin. apply (H p). now right.
Qed.

(** X6.  The provider that [recommend_model]
    returns has an API key; the model is either a candidate of the tier
    of the task type (the MODERATE tier for an unknown task type) that
    is within the budget, or the provider's fallback model. *)
Theorem recommend_model_available
    (dp dm : option string) (co : bool) (temp : float)
    (task_type : string) (budget : option float) (p m : string) :
  let self := Router.__init__ getenv dp dm co temp in
  recommend_model self task_type budget = Ok (p, m) ->
  available self p
  /\ ((In (p, m) (COMPLEXITY_MODELS
                   (dict_get_default task_complexity_map task_type MODERATE))
       /\ over_given_budget budget m = false)
      \/ m = _get_fallback_model p).
Proof.
  intros self. unfold recommend_model.
  destruct (recommend_from self budget _) as [r|] eqn:Hrec.
  - intros [= ->]. apply recommend_from_some in Hrec.
    destruct Hrec as (Hin & Hav & Hob).
    split; [now apply get_default_true | left; auto].
  - destruct (first_available (available_providers self)) as [r|] eqn:Hfb;
      [|discriminate].
    intros [= ->]. apply first_available_some in Hfb.
    destruct Hfb as (Hin & Hm). split; [|now right].
    apply dict_get_in; [apply init_keys_distinct | exact Hin].
Qed.

(** X7.  [recommend_model] raises exactly
    when no provider has an API key, and the only error it raises is
    "No suitable model found"; the budget never makes it fail. *)
Theorem recommend_model_fails_iff
    (dp dm : option string) (co : bool) (temp : float)
    (task_type : string) (budget : option float) :
  let self := Router.__init__ getenv dp dm co temp in
  (recommend_model self task_type budget = Raise no_suitable_model
   <-> forall p, ~ available self p)
  /\ forall e, recommend_model self task_type budget = Raise e ->
               e = no_suitable_model.
Proof.
  intros self. split; [split|].
  - unfold recommend_model.
    destruct (recommend_from self budget _) as [r|]; [discriminate|].
    destruct (first_available (available_providers self)) as [r|] eqn:Hfb;
      [discriminate|].
    intros _ p Hav. apply dict_get_some_in in Hav.
    rewrite first_available_none in Hfb. exact (Hfb p Hav).
  - intros Hnone. unfold recommend_model.
    rewrite (recommend_from_unavailable self budget _ Hnone).
    assert (Hfb : first_available (available_providers self) = None).
    { apply first_available_none. intros p Hin. apply (Hnone p).
      apply dict_get_in; [apply init_keys_distinct | exact Hin]. }
    now rewrite Hfb.
  - unfold recommend_model. intros e.
    destruct (recommend_from self budget _); [discriminate|].
    destruct (first_available (available_providers self)); [discriminate|].
    now intros [= <-].
Qed.

Variable LLM : Type.
Variable construct : chat_class -> string -> float -> result LLM.

Lemma recommend_from_route self budget recommended :
  never_raises construct ->
  cost_optimization self = true ->
  (forall p m, In (p, m) recommended ->
     p = "openai" \/ p = "anthropic" \/ p = "groq" \/ p = "google") ->
  recommend_from self budget recommended
  = names (route_recommended construct self budget recommended).
Proof.
  intros Hok Hco. induction recommended as [|[p m] rest IH]; intros Hknown;
    cbn [recommend_from route_recommended]; [reflexivity|].
  assert (IH' : recommend_from self budget rest
                = names (route_recommended construct self budget rest)).
  { apply IH. intros q mq Hin. apply (Hknown q mq). now right. }
  assert (Hob : over_budget self budget m = over_given_budget budget m).
  { unfold over_budget, over_given_budget. destruct budget; [|reflexivity].
    now rewrite Hco, andb_true_r. }
  rewrite Hob.
  destruct (negb (dict_get_default (available_providers self) p false));
    [exact IH'|].
  destruct (over_given_budget budget m); [exact IH'|].
  destruct (create_known LLM construct self p m) as (cls & ->).
  { apply (Hknown p m). now left. }
  destruct (Hok cls m (temperature self)) as (llm & ->). reflexivity.
Qed.

Lemma first_available_route self items :
  never_raises construct ->
  (forall p, In (p, true) items ->
     p = "openai" \/ p = "anthropic" \/ p = "groq" \/ p = "google") ->
  first_available items = names (route_fallback construct self items).
Proof.
  intros Hok. induction items as [|[p [|]] rest IH]; intros Hknown;
    cbn [first_available route_fallback]; [reflexivity| |].
  - destruct (create_known LLM construct self p (_get_fallback_model p))
      as (cls & ->).
    { apply Hknown. now left. }
    destruct (Hok cls (_get_fallback_model p) (temperature self))
      as (llm & ->). reflexivity.
  - apply IH. intros q Hin. apply Hknown. now right.
Qed.

(** X8.  For a router built
    with cost optimisation on whose default does not apply, and
    constructors that do not raise, [recommend_model] with a known task
    type names the very provider and model that [route_task] selects
    for the tier of that task type under the same budget; and it
    raises exactly when [route_task] does. *)
Theorem recommend_model_agrees_with_route_task
    (dp dm : option string) (temp : float)
    (task_type task_description : string) (complexity : TaskComplexity)
    (budget : option float) :
  let self := Router.__init__ getenv dp dm true temp in
  never_raises construct ->
  default_applies self = false ->
  dict_get task_complexity_map task_type = Some complexity ->
  match route_task construct self task_description complexity budget with
  | Ok (_, p, m) => recommend_model self task_type budget = Ok (p, m)
  | Raise e =>
      e = no_provider
      /\ recommend_model self task_type budget = Raise no_suitable_model
  end.
Proof.
  intros self Hok Hdef Htype.
  rewrite (route_task_by_tier LLM construct self _ _ _ Hdef).
  unfold recommend_model, route_by_tier, dict_get_default. rewrite Htype.
  rewrite (recommend_from_route self budget _ Hok eq_refl
             (recommended_are_known complexity)).
  destruct (route_recommended construct self budget _) as [[[llm p] m]|];
    [reflexivity|]. cbn [names].
  rewrite (first_available_route self (available_providers self) Hok).
  - destruct (route_fallback construct self _) as [[[llm p] m]|];
      [reflexivity | split; reflexivity].
  - intros p Hin. apply (available_is_known getenv dp dm true temp).
    apply dict_get_in; [apply init_keys_distinct | exact Hin].
Qed.
End Recommend.

Lemma recommend_model_available_witness :
  available router_openai "openai"
  /\ ((In ("openai", "gpt-4o")
          (COMPLEXITY_MODELS
             (dict_get_default task_complexity_map "analysis" MODERATE))
       /\ over_given_budget (Some (ratio 10 1)) "gpt-4o" = false)
      \/ "gpt-4o" = _get_fallback_model "openai").
Proof.
  apply (recommend_model_available env_openai None None true (ratio 1 10)
           "analysis" (Some (ratio 10 1)) "openai" "gpt-4o").
  reflexivity.
Defined.

Lemma recommend_model_fails_iff_witness :
  recommend_model router_none "analysis" (Some (ratio 10 1))
  = Raise no_suitable_model.
Proof.
  destruct (recommend_model_fails_iff env_empty None None true (ratio 1 10)
              "analysis" (Some (ratio 10 1))) as ((_ & H) & _).
  apply H. exact router_none_unavailable.
Defined.

Lemma recommend_model_agrees_with_route_task_witness :
  route_task always router_openai "deep dive" CRITICAL (Some (ratio 1 1))
  = Ok (ChatOpenAI, "openai", "gpt-4o-mini")
  /\ recommend_model router_openai "deep_analysis" (Some (ratio 1 1))
     = Ok ("openai", "gpt-4o-mini").
Proof.
  split; [reflexivity|].
  exact (recommend_model_agrees_with_route_task env_openai chat_class always
           None None (ratio 1 10) "deep_analysis" "deep dive" CRITICAL
           (Some (ratio 1 1)) always_never_raises eq_refl eq_refl).
Defined.

(** ** Available models by provider *)

Section AvailableModelsFacts.
Variable list_of_set : list string -> list string.

Lemma collect_models_keys items (acc : pydict (list string)) :
  NoDup (dict_keys acc ++ dict_keys items) ->
  dict_keys (collect_models list_of_set items acc)
  = (dict_keys acc
     ++ map fst (filter (fun entry => snd entry) items))%list.
Proof.
  revert acc. induction items as [|[p [|]] rest IH]; intros acc Hnd;
    cbn [collect_models filter snd map fst].
  - now rewrite app_nil_r.
  - assert (Hfresh : dict_get acc p = None).
    { apply dict_get_none_iff. simpl in Hnd.
      apply NoDup_remove_2 in Hnd. intros Hin. apply Hnd.
      apply in_or_app. now left. }
    rewrite dict_set_fresh by exact Hfresh.
    rewrite IH; unfold dict_keys; rewrite map_app; simpl;
      rewrite <- app_assoc; [reflexivity | exact Hnd].
  - apply IH. simpl in Hnd. now apply NoDup_remove_1 in Hnd.
Qed.

Lemma in_available_keys (items : pydict bool) p :
  In p (map fst (filter (fun entry => snd entry) items))
  <-> In (p, true) items.
Proof.
  rewrite in_map_iff. split.
  - intros ([q b] & <- & Hin). apply filter_In in Hin.
    destruct Hin as (Hin & Hb). simpl in Hb. now subst b.
  - intros Hin. exists (p, true). split; [reflexivity|].
    apply filter_In. now split.
Qed.

Lemma available_keys_distinct (items : pydict bool) :
  NoDup (dict_keys items) ->
  NoDup (map fst (filter (fun entry => snd entry) items)).
Proof.
  unfold dict_keys. induction items as [|[q b] rest IH]; intros Hnd;
    [constructor|].
  simpl in Hnd. inversion Hnd as [|? ? Hq Hrest]; subst.
  cbn [filter snd]. destruct b; [|now apply IH].
  cbn [map fst]. constructor; [|now apply IH].
  intros Hin. apply Hq. apply in_map_iff in Hin.
  destruct Hin as (x & <- & Hin). apply filter_In in Hin.
  apply in_map. tauto.
Qed.

Lemma collect_models_value items (acc : pydict (list string)) p ms :
  dict_get (collect_models list_of_set items acc) p = Some ms ->
  dict_get acc p = Some ms \/ ms = list_of_set (models_of p).
Proof.
  revert acc. induction items as [|[q [|]] rest IH]; intros acc;
    cbn [collect_models]; [now left| |apply IH].
  intros H. destruct (IH _ H) as [Hacc|Hms]; [|now right].
  destruct (string_dec q p) as [->|Hne].
  - rewrite dict_get_set_eq in Hacc. right. congruence.
  - rewrite dict_get_set_ne in Hacc by exact Hne. now left.
Qed.

Lemma in_models_of p m :
  In m (models_of p) <-> exists complexity, In (p, m) (COMPLEXITY_MODELS complexity).
Proof.
  unfold models_of. rewrite in_map_iff. split.
  - intros ([q m'] & Hm & Hin). simpl in Hm. subst m'.
    apply filter_In in Hin. destruct Hin as (Hin & Heq). simpl in Heq.
    apply String.eqb_eq in Heq. subst q. unfold all_recommendations in Hin.
    repeat (apply in_app_or in Hin; destruct Hin as [Hin|Hin]; [eauto|]).
    eauto.
  - intros (complexity & Hin). exists (p, m). split; [reflexivity|].
    apply filter_In. split; [|apply String.eqb_refl].
    unfold all_recommendations.
    destruct complexity;
      [ apply in_or_app; left
      | apply in_or_app; right; apply in_or_app; left
      | do 2 (apply in_or_app; right); apply in_or_app; left
      | do 3 (apply in_or_app; right) ]; exact Hin.
Qed.

(** X9.  The providers listed by
    [get_available_models] of a constructed router are exactly those
    with an API key, each listed once. *)
Theorem get_available_models_providers
    (getenv : string -> option string)
    (dp dm : option string) (co : bool) (temp : float) :
  let self := Router.__init__ getenv dp dm co temp in
  let listed := dict_keys (get_available_models list_of_set self) in
  NoDup listed /\ forall p, In p listed <-> available self p.
Proof.
  intros self listed.
  assert (Hkeys : listed
                  = map fst (filter (fun entry => snd entry)
                                    (available_providers self))).
  { unfold listed, get_available_models.
    rewrite collect_models_keys; [reflexivity|].
    apply (init_keys_distinct getenv dp dm co temp). }
  assert (Hnd := init_keys_distinct getenv dp dm co temp).
  fold self in Hnd. split.
  - rewrite Hkeys. now apply available_keys_distinct.
  - intros p. rewrite Hkeys, in_available_keys. split.
    + now apply dict_get_in.
    + apply dict_get_some_in.
Qed.

(** X10.  Whatever order [list(set(...))]
    produces, the models listed under a provider are exactly the models
    that some tier recommends for that provider, each listed once. *)
Theorem get_available_models_models
    (self : MultiLLMRouter) (p : string) (ms : list string) :
  set_like list_of_set ->
  dict_get (get_available_models list_of_set self) p = Some ms ->
  NoDup ms
  /\ forall m, In m ms
               <-> exists complexity, In (p, m) (COMPLEXITY_MODELS complexity).
Proof.
  intros Hset Hget. unfold get_available_models in Hget.
  apply collect_models_value in Hget. destruct Hget as [Hget| ->];
    [discriminate|].
  destruct (Hset (models_of p)) as (Hnd & Hin). split; [exact Hnd|].
  intros m. now rewrite Hin, in_models_of.
Qed.
End AvailableModelsFacts.

Lemma nodup_set_like : set_like (nodup string_dec).
Proof.
  intros l. split; [apply NoDup_nodup | intros x; apply nodup_In].
Qed.

Lemma get_available_models_models_witness :
  NoDup ["gpt-4o-mini"; "gpt-4o"]
  /\ forall m, In m ["gpt-4o-mini"; "gpt-4o"]
               <-> exists complexity,
                     In ("openai", m) (COMPLEXITY_MODELS complexity).
Proof.
  apply (get_available_models_models (nodup string_dec) router_openai
           "openai" ["gpt-4o-mini"; "gpt-4o"]).
  - exact nodup_set_like.
  - reflexivity.
Defined.

(** ** The cost of no tokens *)

(** X11.  For every model, known or not, the
    estimate for zero input and zero output tokens is [0.0]. *)
Theorem estimate_cost_zero_tokens (provider model : string) :
  estimate_cost provider model 0 0 = Ok fzero.
Proof.
  unfold estimate_cost, dict_get_default.
  destruct (dict_get COST_MAP model) as [costs|] eqn:Hget;
    [|reflexivity].
  apply dict_get_some_in in Hget. unfold COST_MAP in Hget.
  repeat (destruct Hget as [Hget|Hget];
          [injection Hget as _ <-; vm_compute; reflexivity|]).
  destruct Hget.
Qed.

(** ** Batches with arbitrary task names *)

Section BatchKeys.
Variable execute : Task -> result AgentResult.

Lemma settle_is_set (results : pydict AgentResult) (name : string)
    (outcome : result AgentResult) :
  settle results name outcome = dict_set results name (entry_of outcome).
Proof. now destruct outcome. Qed.

Lemma dict_set_keys_in (V : Type) (d : pydict V) (k : string) (v : V) x :
  In x (dict_keys (dict_set d k v)) <-> In x (dict_keys d) \/ x = k.
Proof.
  rewrite dict_keys_set. destruct (dict_mem d k) eqn:Hmem.
  - split; [tauto|]. intros [H| ->]; [exact H|].
    unfold dict_mem in Hmem. destruct (dict_get d k) eqn:Hget;
      [|discriminate].
    apply dict_get_some_in in Hget. unfold dict_keys.
    change k with (fst (k, v0)). now apply in_map.
  - rewrite in_app_iff. simpl. intuition.
Qed.

(** Settling any outcomes, with names that may repeat, keeps the keys
    distinct and adds exactly the names settled. *)
Lemma settle_keys (X : Type) (name : X -> string)
    (outcome : X -> result AgentResult) (l : list X) :
  forall acc : pydict AgentResult,
    NoDup (dict_keys acc) ->
    let results :=
      fold_left (fun results x => settle results (name x) (outcome x))
                l acc in
    NoDup (dict_keys results)
    /\ forall k, In k (dict_keys results)
                 <-> In k (dict_keys acc) \/ In k (map name l).
Proof.
  induction l as [|x l IH]; intros acc Hnd; cbn [fold_left map].
  - split; [exact Hnd|]. simpl. tauto.
  - rewrite settle_is_set.
    destruct (IH (dict_set acc (name x) (entry_of (outcome x)))
                 (dict_set_nodup _ _ _ _ Hnd)) as (Hnd' & Hin).
    split; [exact Hnd'|]. intros k. rewrite Hin, dict_set_keys_in.
    simpl. intuition.
Qed.

(** The last task settled under a name decides the entry. *)
Lemma settle_last (X : Type) (name : X -> string)
    (outcome : X -> result AgentResult) (l : list X) (k : string) :
  ~ In k (map name l) ->
  forall acc : pydict AgentResult,
    dict_get (fold_left (fun results x =>
                           settle results (name x) (outcome x)) l acc) k
    = dict_get acc k.
Proof.
  induction l as [|x l IH]; intros Hnot acc; cbn [fold_left];
    [reflexivity|].
  rewrite IH by (intros H; apply Hnot; now right).
  rewrite settle_is_set. apply dict_get_set_ne.
  intros Heq. apply Hnot. now left.
Qed.

Variable as_completed : forall A : Type, list A -> list A.
Hypothesis as_completed_perm :
  forall (A : Type) (l : list A), Permutation (as_completed A l) l.

(** X12.  Whatever the tasks do and whether or
    not their names repeat, both execution paths return a mapping
    whose keys are exactly the task names, each once; the parallel
    path for every order of completion, on a coordinator whose worker
    pool can be created. *)
Theorem batch_one_entry_per_name (Agent : Type)
    (self : TaskCoordinator Agent) (tasks : list Task) :
  0 < max_workers self ->
  (NoDup (dict_keys (_execute_sequential execute tasks))
   /\ forall k, In k (dict_keys (_execute_sequential execute tasks))
                <-> In k (map task_type tasks))
  /\ exists results,
       _execute_parallel execute as_completed self tasks = Ok results
       /\ NoDup (dict_keys results)
       /\ forall k, In k (dict_keys results) <-> In k (map task_type tasks).
Proof.
  intros Hw. split.
  - destruct (settle_keys Task task_type execute tasks [] (NoDup_nil _))
      as (Hnd & Hin).
    split; [exact Hnd|]. intros k. unfold _execute_sequential.
    rewrite Hin. simpl. tauto.
  - unfold _execute_parallel, ThreadPoolExecutor.
    destruct (Z.leb_spec (max_workers self) 0); [lia|]. cbn [bind].
    set (futures := map (fun task => (task_type task, execute task)) tasks).
    eexists. split; [reflexivity|].
    destruct (settle_keys _ (@fst string (result AgentResult))
                (@snd string (result AgentResult))
                (as_completed _ futures) [] (NoDup_nil _)) as (Hnd & Hin).
    split; [exact Hnd|]. intros k. rewrite Hin. simpl.
    assert (Hperm : Permutation (map fst (as_completed _ futures))
                                (map task_type tasks)).
    { rewrite (Permutation_map fst (as_completed_perm _ futures)).
      unfold futures. rewrite map_map. simpl. apply Permutation_refl. }
    split.
    + intros [[]|Hk]. exact (Permutation_in _ Hperm Hk).
    + intros Hk. right. exact (Permutation_in _ (Permutation_sym Hperm) Hk).
Qed.

(** X13.  When several tasks of a
    sequential batch carry the same name, the entry under that name is
    the outcome of the last of them. *)
Theorem sequential_last_write_wins (front back : list Task) (t : Task) :
  ~ In (task_type t) (map task_type back) ->
  dict_get (_execute_sequential execute (front ++ t :: back)) (task_type t)
  = Some (entry_of (execute t)).
Proof.
  intros Hlast. unfold _execute_sequential.
  rewrite fold_left_app. cbn [fold_left].
  rewrite (settle_last Task task_type execute back _ Hlast).
  rewrite settle_is_set. apply dict_get_set_eq.
Qed.

Lemma perm_same_lookup (V : Type) (d d' : pydict V) :
  Permutation d d' -> NoDup (dict_keys d) ->
  forall k, dict_get d k = dict_get d' k.
Proof.
  intros Hperm Hnd k.
  assert (Hnd' : NoDup (dict_keys d')).
  { unfold dict_keys.
    exact (Permutation_NoDup (Permutation_map fst Hperm) Hnd). }
  destruct (dict_get d k) as [v|] eqn:Hget.
  - symmetry. apply dict_get_in; [exact Hnd'|].
    apply (Permutation_in _ Hperm). now apply dict_get_some_in.
  - destruct (dict_get d' k) as [v'|] eqn:Hget'; [|reflexivity].
    apply dict_get_some_in in Hget'.
    apply (Permutation_in _ (Permutation_sym Hperm)) in Hget'.
    rewrite (dict_get_in _ _ _ _ Hnd Hget') in Hget. discriminate.
Qed.

(** X14.  For distinct task names, on a coordinator whose worker pool
    can be created ([max_workers] positive), the parallel path, in
    every order of completion, returns the entries of the sequential
    path, possibly in another order: the two mappings hold the same
    value under every key.  When [max_workers] is not positive the
    parallel path raises [ValueError] and returns no mapping. *)
Theorem parallel_agrees_with_sequential (Agent : Type)
    (self : TaskCoordinator Agent) (tasks : list Task) :
  NoDup (map task_type tasks) ->
  (0 < max_workers self ->
   exists results,
     _execute_parallel execute as_completed self tasks = Ok results
     /\ Permutation results (_execute_sequential execute tasks)
     /\ forall k, dict_get results k
                  = dict_get (_execute_sequential execute tasks) k)
  /\ (max_workers self <= 0 ->
      _execute_parallel execute as_completed self tasks
      = Raise (Exn ValueError "max_workers must be greater than 0")).
Proof.
  intros Hnd. split; intros Hw.
  - destruct (parallel_entries execute as_completed as_completed_perm
                Agent self tasks Hw Hnd) as (results & Hrun & Hperm).
    exists results. split; [exact Hrun|].
    rewrite (sequential_entries execute tasks Hnd).
    split; [exact Hperm|].
    apply perm_same_lookup; [exact Hperm|].
    unfold dict_keys.
    apply (Permutation_NoDup
             (Permutation_sym (Permutation_map fst Hperm))).
    rewrite map_map. exact Hnd.
  - unfold _execute_parallel, ThreadPoolExecutor.
    destruct (Z.leb_spec (max_workers self) 0); [reflexivity | lia].
Qed.
End BatchKeys.

Lemma last_first_perm (A : Type) (l : list A) :
  Permutation (last_first A l) l.
Proof. apply Permutation_sym, Permutation_rev. Qed.

Lemma batch_one_entry_per_name_witness :
  (NoDup (dict_keys (_execute_sequential echo repeated_tasks))
   /\ forall k, In k (dict_keys (_execute_sequential echo repeated_tasks))
                <-> In k (map task_type repeated_tasks))
  /\ exists results,
       _execute_parallel echo last_first coordinator repeated_tasks
       = Ok results
       /\ NoDup (dict_keys results)
       /\ forall k, In k (dict_keys results)
                    <-> In k (map task_type repeated_tasks).
Proof.
  apply (batch_one_entry_per_name echo last_first last_first_perm
           unit coordinator repeated_tasks).
  reflexivity.
Defined.

Lemma sequential_last_write_wins_witness :
  dict_get (_execute_sequential echo repeated_tasks) "technical"
  = Some [("ticker", "MSFT"); ("analysis", "HOLD")].
Proof.
  apply (sequential_last_write_wins echo [technical; fundamental] []
           {| task_type := "technical"; task_args := [VStr "MSFT"] |}).
  simpl. tauto.
Defined.

Lemma parallel_agrees_with_sequential_witness :
  exists results,
    _execute_parallel technical_fails last_first coordinator three_tasks
    = Ok results
    /\ Permutation results (_execute_sequential technical_fails three_tasks)
    /\ forall k, dict_get results k
                 = dict_get (_execute_sequential technical_fails three_tasks)
                            k.
Proof.
  destruct (parallel_agrees_with_sequential technical_fails last_first
              last_first_perm unit coordinator three_tasks
              three_tasks_distinct) as (Hpar & _).
  apply Hpar. reflexivity.
Defined.

(** ** Further properties of the consensus *)

Section ConsensusMore.
Variable py : Builtins.

Lemma push_app (A : Type) (l : list A) (o : option A) :
  push l o = (l ++ push [] o)%list.
Proof. destruct o; simpl; [reflexivity | now rewrite app_nil_r]. Qed.

Lemma collect_tallies results :
  forall recs confs,
    collect py results recs confs
    = (others <- scores py results ;;
       Ok ((recs ++ opinions py results)%list, (confs ++ others)%list)).
Proof.
  induction results as [|[agent_type result] rest IH]; intros recs confs.
  - cbn. now rewrite !app_nil_r.
  - cbn [collect scores]. unfold opinions. cbn [flat_map].
    unfold opinion at 1, is_failure, analysis_of. cbn [snd].
    destruct (dict_mem result "error"); [apply IH|].
    destruct (stated_confidence py _) as [confidence|e]; cbn [bind];
      [|reflexivity].
    rewrite IH. fold (opinions py rest).
    destruct (scores py rest) as [others|e]; cbn [bind]; [|reflexivity].
    rewrite (push_app _ recs), (push_app _ confs).
    now rewrite <- !app_assoc.
Qed.

Lemma collect_from_empty results :
  collect py results [] []
  = (others <- scores py results ;; Ok (opinions py results, others)).
Proof. now rewrite collect_tallies. Qed.

Lemma collect_returns results recs confs :
  collect py results [] [] = Ok (recs, confs) ->
  recs = opinions py results /\ scores py results = Ok confs.
Proof.
  rewrite collect_from_empty.
  destruct (scores py results) as [others|e]; cbn [bind]; [|discriminate].
  now intros [= <- <-].
Qed.

Lemma sum_cons x l : sum (x :: l) = x + sum l.
Proof. unfold sum. simpl. now rewrite sum_from. Qed.

Lemma sum_perm l l' : Permutation l l' -> sum l = sum l'.
Proof.
  induction 1 as [|x l l' _ IH|x y l|l l' l'' _ IH1 _ IH2].
  - reflexivity.
  - rewrite !sum_cons. lia.
  - rewrite !sum_cons. lia.
  - congruence.
Qed.

Lemma count_perm l l' x : Permutation l l' -> count l x = count l' x.
Proof.
  intros H. unfold count. f_equal.
  now apply (Permutation_count_occ string_dec).
Qed.

Lemma len_perm (A : Type) (l l' : list A) :
  Permutation l l' -> len l = len l'.
Proof. intros H. unfold len. f_equal. now apply Permutation_length. Qed.

Lemma average_confidence_perm l l' :
  Permutation l l' -> average_confidence l = average_confidence l'.
Proof.
  intros H. destruct l as [|x l], l' as [|x' l'].
  - reflexivity.
  - now apply Permutation_nil_cons in H.
  - apply Permutation_sym in H. now apply Permutation_nil_cons in H.
  - unfold average_confidence.
    now rewrite (sum_perm _ _ H), (len_perm _ _ _ H).
Qed.

(** The consensus is a function of the tallies and the confidences, up
    to their order. *)
Lemma consensus_of_tallies results results' recs confs recs' confs' :
  collect py results [] [] = Ok (recs, confs) ->
  collect py results' [] [] = Ok (recs', confs') ->
  Permutation recs recs' ->
  Permutation confs confs' ->
  _determine_consensus py results = _determine_consensus py results'.
Proof.
  intros Hc Hc' Hrecs Hconfs.
  destruct recs as [|r recs], recs' as [|r' recs'].
  - unfold _determine_consensus. now rewrite Hc, Hc'.
  - now apply Permutation_nil_cons in Hrecs.
  - apply Permutation_sym in Hrecs. now apply Permutation_nil_cons in Hrecs.
  - rewrite (consensus_unfold py results r recs confs Hc).
    rewrite (consensus_unfold py results' r' recs' confs' Hc').
    unfold verdict, breakdown.
    rewrite !(count_perm _ _ _ Hrecs), (len_perm _ _ _ Hrecs).
    now rewrite (average_confidence_perm _ _ Hconfs).
Qed.

(** In another order the conversions return the same confidences, or
    one of them raises in both orders. *)
Lemma scores_perm results results' :
  Permutation results results' ->
  match scores py results, scores py results' with
  | Ok a, Ok b => Permutation a b
  | Raise _, Raise _ => True
  | _, _ => False
  end.
Proof.
  induction 1 as [|x l l' _ IH|x y l|l l' l'' _ IH1 _ IH2].
  - apply Permutation_refl.
  - cbn [scores]. destruct (is_failure x); [exact IH|].
    destruct (stated_confidence py (analysis_of x)); cbn [bind]; [|exact I].
    destruct (scores py l), (scores py l'); cbn [bind];
      [now apply Permutation_app_head | | |]; exact IH.
  - cbn [scores].
    destruct (is_failure x), (is_failure y);
      try (destruct (stated_confidence py (analysis_of x)); cbn [bind]);
      try (destruct (stated_confidence py (analysis_of y)); cbn [bind]);
      try (destruct (scores py l); cbn [bind]);
      try exact I; try apply Permutation_refl.
    apply Permutation_app_swap_app.
  - destruct (scores py l), (scores py l'), (scores py l'');
      try exact I; try contradiction.
    now apply (perm_trans IH1).
Qed.

Lemma stated_confidence_raises analysis e :
  stated_confidence py analysis = Raise e -> conversion_error py e.
Proof.
  unfold stated_confidence.
  destruct (contains "confidence" _); [|discriminate].
  destruct (re_search_confidence py _) as [digits|]; [|discriminate].
  destruct (int_of_str py digits) as [z|e'] eqn:E; cbn [bind];
    [discriminate|].
  intros [= <-]. now exists digits.
Qed.

Lemma scores_raise results e :
  scores py results = Raise e -> conversion_error py e.
Proof.
  induction results as [|entry rest IH]; cbn [scores]; [discriminate|].
  destruct (is_failure entry); [exact IH|].
  destruct (stated_confidence py (analysis_of entry)) as [c|e'] eqn:E;
    cbn [bind].
  - destruct (scores py rest) as [others|e']; cbn [bind]; [discriminate|].
    intros [= <-]. now apply IH.
  - intros [= <-]. exact (stated_confidence_raises _ _ E).
Qed.

Lemma opinions_perm results results' :
  Permutation results results' ->
  Permutation (opinions py results) (opinions py results').
Proof. intros H. unfold opinions. now apply Permutation_flat_map. Qed.

(** Both orders give the same verdict, or both raise; the two
    outcomes are equal when no conversion raises. *)
Lemma consensus_perm (results results' : pydict AgentResult) :
  Permutation results results' ->
  same_verdict py (_determine_consensus py results)
               (_determine_consensus py results')
  /\ ((exists tallies, collect py results [] [] = Ok tallies) ->
      _determine_consensus py results = _determine_consensus py results').
Proof.
  intros Hperm. pose proof (scores_perm _ _ Hperm) as Hs.
  pose proof (opinions_perm _ _ Hperm) as Ho.
  destruct (scores py results) as [confs|e] eqn:E,
           (scores py results') as [confs'|e'] eqn:E';
    try contradiction.
  - assert (Heq : _determine_consensus py results
                  = _determine_consensus py results').
    { apply (consensus_of_tallies results results'
               (opinions py results) confs (opinions py results') confs');
        try assumption; rewrite collect_from_empty;
        [now rewrite E | now rewrite E']. }
    split; [|intros _; exact Heq]. rewrite Heq.
    destruct (_determine_consensus py results'); [reflexivity | now left].
  - split.
    + rewrite (consensus_raises py results e), (consensus_raises py results' e');
        [| |]; try (rewrite collect_from_empty; now rewrite ?E, ?E').
      right. split; [exact (scores_raise _ _ E) | exact (scores_raise _ _ E')].
    + intros (tallies & Hc). rewrite collect_from_empty, E in Hc.
      discriminate.
Qed.

(** X15.  The consensus does not depend on the order of the entries
    of the result mapping, so the order in which parallel agents
    complete cannot change the verdict: two orders return the same
    verdict, or both raise, the same exception unless each raises the
    error of converting the confidence of some entry; the two outcomes
    are equal whenever no conversion of a stated confidence raises. *)
Theorem consensus_order_independent (results results' : pydict AgentResult) :
  Permutation results results' ->
  same_verdict py (_determine_consensus py results)
               (_determine_consensus py results')
  /\ ((exists tallies, collect py results [] [] = Ok tallies) ->
      _determine_consensus py results = _determine_consensus py results').
Proof. apply consensus_perm. Qed.

Lemma filter_opinions results :
  opinions py (filter is_success results) = opinions py results.
Proof.
  unfold opinions. induction results as [|entry rest IH]; [reflexivity|].
  cbn [filter flat_map].
  destruct (is_success entry) eqn:Hs; cbn [flat_map]; [now rewrite IH|].
  unfold is_success in Hs. apply negb_false_iff in Hs.
  assert (Hnone : opinion py entry = [])
    by (unfold opinion; now rewrite Hs).
  now rewrite Hnone, IH.
Qed.

Lemma filter_scores results :
  scores py (filter is_success results) = scores py results.
Proof.
  induction results as [|entry rest IH]; [reflexivity|].
  cbn [filter scores].
  destruct (is_success entry) eqn:Hs; unfold is_success in Hs.
  - apply negb_true_iff in Hs. cbn [scores]. now rewrite Hs, IH.
  - apply negb_false_iff in Hs. now rewrite Hs.
Qed.

(** X16.  Entries with an ["error"] key have no influence on the
    consensus: it is the consensus of the successful entries alone. *)
Theorem consensus_ignores_failures (results : pydict AgentResult) :
  _determine_consensus py results
  = _determine_consensus py (filter is_success results).
Proof.
  unfold _determine_consensus.
  now rewrite !collect_from_empty, filter_opinions, filter_scores.
Qed.

Lemma strict_winner_share recs winner :
  strict_winner recs winner ->
  recs <> []
  /\ majority (count recs "BUY") (count recs "SELL") (count recs "HOLD")
              (len recs)
     = (agreement <- int_truediv (count recs winner) (len recs) ;;
        Ok (winner, agreement)).
Proof.
  intros (Hw & Hwin).
  assert (Hb := Hwin "BUY"). assert (Hs := Hwin "SELL").
  assert (Hh := Hwin "HOLD").
  assert (Hne : recs <> []).
  { intros ->. destruct Hw as [<-|[<-|[<-|[]]]];
      [ specialize (Hwin "SELL") | specialize (Hwin "BUY")
      | specialize (Hwin "BUY") ];
      unfold count in Hwin; simpl in Hwin;
      assert (0 < 0) by (apply Hwin; [tauto | discriminate]); lia. }
  split; [exact Hne|]. unfold majority.
  destruct Hw as [<-|[<-|[<-|[]]]].
  - assert (H1 : count recs "SELL" < count recs "BUY")
      by (apply Hs; [simpl; tauto | discriminate]).
    assert (H2 : count recs "HOLD" < count recs "BUY")
      by (apply Hh; [simpl; tauto | discriminate]).
    apply Z.ltb_lt in H1, H2. now rewrite H1, H2.
  - assert (H1 : count recs "BUY" < count recs "SELL")
      by (apply Hb; [simpl; tauto | discriminate]).
    assert (H2 : count recs "HOLD" < count recs "SELL")
      by (apply Hh; [simpl; tauto | discriminate]).
    assert (H3 : (count recs "SELL" <? count recs "BUY") = false)
      by (apply Z.ltb_ge; lia).
    apply Z.ltb_lt in H1, H2. now rewrite H1, H2, H3.
  - assert (H1 : count recs "BUY" < count recs "HOLD")
      by (apply Hb; [simpl; tauto | discriminate]).
    assert (H2 : count recs "SELL" < count recs "HOLD")
      by (apply Hs; [simpl; tauto | discriminate]).
    assert (H3 : (count recs "HOLD" <? count recs "BUY") = false)
      by (apply Z.ltb_ge; lia).
    assert (H4 : (count recs "HOLD" <? count recs "SELL") = false)
      by (apply Z.ltb_ge; lia).
    apply Z.ltb_lt in H1, H2. rewrite H1, H2, H3, H4.
    now rewrite !andb_false_r.
Qed.

(** X17.  When one of BUY, SELL and HOLD has strictly more tallies
    than each of the other two, every verdict that the consensus
    returns has it as recommendation, its share of all tallies as a
    percentage rounded to one decimal place as agreement, and the
    three counts as breakdown; a verdict is returned whenever the
    confidences stated are below [2 ^ 1000]. *)
Theorem consensus_strict_majority
    (results : pydict AgentResult) (recs : list string) (confs : list Z)
    (winner : string) :
  collect py results [] [] = Ok (recs, confs) ->
  strict_winner recs winner ->
  (forall v,
      _determine_consensus py results = Ok v ->
      agrees v winner (count recs winner) (len recs)
      /\ dict_get v "breakdown" = Some (breakdown recs))
  /\ (Forall (fun z => 0 <= z < 2 ^ 1000) confs ->
      exists v, _determine_consensus py results = Ok v).
Proof.
  intros Hc Hwin.
  destruct (strict_winner_share recs winner Hwin) as (Hne & Hmaj).
  destruct (share_returns recs winner Hne) as (share & Hshare & _).
  assert (Hgen : _determine_consensus py results
                 = (avg_confidence <- average_confidence confs ;;
                    Ok (verdict winner (round1_num avg_confidence)
                                (percentage share) recs))).
  { destruct recs as [|r recs]; [congruence|].
    rewrite (consensus_unfold py results r recs confs Hc).
    rewrite Hmaj, Hshare. reflexivity. }
  rewrite Hgen. split.
  - intros v.
    destruct (average_confidence confs) as [avg|e]; cbn [bind];
      [|discriminate].
    intros [= <-]. split; [now apply verdict_agrees | reflexivity].
  - intros HB.
    destruct (average_confidence_returns confs HB) as (avg & ->).
    cbn [bind]. eauto.
Qed.

Lemma keyword_is_class analysis r :
  keyword py analysis = Some r -> r = "BUY" \/ r = "SELL" \/ r = "HOLD".
Proof.
  unfold keyword.
  destruct (contains "BUY" _); [intros [= <-]; tauto|].
  destruct (contains "SELL" _); [intros [= <-]; tauto|].
  destruct (contains "HOLD" _); [intros [= <-]; tauto|].
  discriminate.
Qed.

Lemma count_app l l' x : count (l ++ l') x = count l x + count l' x.
Proof. unfold count. rewrite count_occ_app. lia. Qed.

Lemma len_app (A : Type) (l l' : list A) : len (l ++ l') = len l + len l'.
Proof. unfold len. rewrite length_app. lia. Qed.

Lemma opinion_tally entry :
  count (opinion py entry) "BUY" + count (opinion py entry) "SELL"
  + count (opinion py entry) "HOLD" = len (opinion py entry)
  /\ len (opinion py entry) <= (if is_success entry then 1 else 0).
Proof.
  unfold opinion, is_success. destruct (is_failure entry); cbn [negb].
  - split; reflexivity.
  - destruct (keyword py _) as [r|] eqn:Hk; cbn [push app].
    + apply keyword_is_class in Hk.
      destruct Hk as [->|[->| ->]]; split; reflexivity.
    + split; [reflexivity | unfold len; simpl; lia].
Qed.

Lemma successes_cons entry rest :
  successes (entry :: rest)
  = (if is_success entry then 1 else 0) + successes rest.
Proof.
  unfold successes. cbn [filter].
  destruct (is_success entry); unfold len; cbn [List.length]; lia.
Qed.

Lemma opinions_tally results :
  count (opinions py results) "BUY" + count (opinions py results) "SELL"
  + count (opinions py results) "HOLD" = len (opinions py results)
  /\ len (opinions py results) <= successes results.
Proof.
  induction results as [|entry rest (IH1 & IH2)];
    [split; reflexivity|].
  unfold opinions in *. cbn [flat_map].
  rewrite !count_app, !len_app, successes_cons.
  destruct (opinion_tally entry) as (Hsum & Hle). lia.
Qed.

Lemma scores_tally results :
  forall confs,
    scores py results = Ok confs -> len confs <= successes results.
Proof.
  induction results as [|entry rest IH]; intros confs; cbn [scores].
  - now intros [= <-].
  - rewrite successes_cons. unfold is_success.
    destruct (is_failure entry); cbn [negb].
    + intros H. specialize (IH confs H). lia.
    + destruct (stated_confidence py _) as [c|e]; cbn [bind];
        [|discriminate].
      destruct (scores py rest) as [others|e]; cbn [bind]; [|discriminate].
      intros [= <-]. specialize (IH others eq_refl). rewrite len_app.
      destruct c; cbn [push app]; unfold len at 1; cbn [List.length]; lia.
Qed.

(** X18.  The three counts of the breakdown add up to the number of
    tallies; there is at most one tally, and at most one confidence,
    per successful entry. *)
Theorem tallies_add_up (results : pydict AgentResult)
    (recs : list string) (confs : list Z) :
  collect py results [] [] = Ok (recs, confs) ->
  count recs "BUY" + count recs "SELL" + count recs "HOLD" = len recs
  /\ len recs <= successes results
  /\ len confs <= successes results.
Proof.
  intros Hc. destruct (collect_returns results recs confs Hc) as (-> & Hs).
  destruct (opinions_tally results) as (Hsum & Hle).
  split; [exact Hsum|]. split; [exact Hle|].
  now apply scores_tally.
Qed.
End ConsensusMore.

Lemma consensus_order_independent_witness :
  same_verdict ascii_builtins
    (_determine_consensus ascii_builtins three_opinions)
    (_determine_consensus ascii_builtins (rev three_opinions))
  /\ _determine_consensus ascii_builtins three_opinions
     = _determine_consensus ascii_builtins (rev three_opinions).
Proof.
  destruct (consensus_order_independent ascii_builtins three_opinions
              (rev three_opinions) (Permutation_rev three_opinions))
    as (Hsame & Heq).
  split; [exact Hsame|]. apply Heq. eexists. reflexivity.
Defined.

Lemma sell_wins : strict_winner ["SELL"; "BUY"; "SELL"] "SELL".
Proof.
  split; [simpl; tauto|].
  intros other [<-|[<-|[<-|[]]]] Hne;
    [vm_compute; reflexivity | congruence | vm_compute; reflexivity].
Qed.

Lemma consensus_strict_majority_witness :
  _determine_consensus ascii_builtins sell_majority
  = Ok (verdict "SELL" (VFloat (ratio 90 10)) (ratio 667 10)
                ["SELL"; "BUY"; "SELL"])
  /\ agrees (verdict "SELL" (VFloat (ratio 90 10)) (ratio 667 10)
                     ["SELL"; "BUY"; "SELL"])
            "SELL" 2 3.
Proof.
  split; [reflexivity|].
  destruct (consensus_strict_majority ascii_builtins sell_majority
              ["SELL"; "BUY"; "SELL"] [9] "SELL" eq_refl sell_wins)
    as (Hv & _).
  apply Hv. reflexivity.
Defined.

Lemma tallies_add_up_witness :
  count ["BUY"; "BUY"; "SELL"] "BUY" + count ["BUY"; "BUY"; "SELL"] "SELL"
  + count ["BUY"; "BUY"; "SELL"] "HOLD" = len ["BUY"; "BUY"; "SELL"]
  /\ len ["BUY"; "BUY"; "SELL"] <= successes three_opinions
  /\ len [8; 6] <= successes three_opinions.
Proof.
  exact (tallies_add_up ascii_builtins three_opinions
           ["BUY"; "BUY"; "SELL"] [8; 6] eq_refl).
Defined.

(** ** The first sentence of the summary *)

(** X19.  The first sentence that the summary
    takes from an analysis is the longest prefix of the analysis
    without a period: it holds no period, and what follows it in the
    analysis is nothing or starts with a period. *)
Theorem first_sentence_is_prefix (analysis : string) :
  exists rest,
    analysis = before_period analysis ++ rest
    /\ contains "." (before_period analysis) = false
    /\ (rest = EmptyString \/ exists r, rest = String "."%char r).
Proof.
  induction analysis as [|c s (rest & Heq & Hno & Hrest)].
  - exists EmptyString. simpl. auto.
  - cbn [before_period]. destruct (Ascii.eqb_spec c "."%char) as [->|Hne].
    + exists (String "."%char s). simpl. eauto.
    + exists rest. cbn [append]. split; [now rewrite <- Heq|].
      split; [|exact Hrest].
      cbn [contains String.prefix].
      destruct (ascii_dec "."%char c) as [Heqc|_]; [congruence|].
      exact Hno.
Qed.

(** ** The comprehensive analyses *)

Section Pipelines.
Variable py : Builtins.
Variable execute : Task -> result AgentResult.
Variable as_completed : forall A : Type, list A -> list A.
Hypothesis as_completed_perm :
  forall (A : Type) (l : list A), Permutation (as_completed A l) l.
Variable now : string.
Variable Agent : Type.
Variable self : TaskCoordinator Agent.

Lemma aggregate_perm (key id : string) (results results' : pydict AgentResult) :
  key = "ticker" \/ key = "symbol" ->
  Permutation results results' ->
  same_analysis py (aggregate py now key id results)
                (aggregate py now key id results').
Proof.
  intros Hkey Hperm. unfold aggregate.
  destruct (consensus_perm py _ _ Hperm) as (Hsame & _).
  destruct (_determine_consensus py results) as [c|e],
           (_determine_consensus py results') as [c'|e'];
    cbn [bind same_verdict] in *; try contradiction; [|exact Hsame].
  subst c'. unfold same_analysis.
  destruct Hkey as [-> | ->]; (split; [reflexivity|]);
    (split; [reflexivity|]); do 2 eexists;
    (split; [reflexivity|]); (split; [reflexivity|]);
    now apply Permutation_map.
Qed.

Lemma run_perm (tasks : list Task) :
  0 < max_workers self ->
  NoDup (map task_type tasks) ->
  exists results,
    run execute as_completed self true tasks = Ok results
    /\ run execute as_completed self false tasks
       = Ok (map (recorded execute) tasks)
    /\ Permutation results (map (recorded execute) tasks).
Proof.
  intros Hw Hnd. unfold run.
  destruct (parallel_entries execute as_completed as_completed_perm
              Agent self tasks Hw Hnd) as (results & Hrun & Hperm).
  exists results. split; [exact Hrun|].
  now rewrite (sequential_entries execute tasks Hnd).
Qed.

Lemma stock_tasks_distinct (ticker : string) (f t : bool) :
  NoDup (map task_type
           ((if f
             then [ {| task_type := "fundamental";
                       task_args := [VStr ticker] |} ]
             else [])
            ++ (if t
                then [ {| task_type := "technical";
                          task_args := [VStr ticker] |} ]
                else [])
            ++ [ {| task_type := "stock_analyst";
                    task_args := [VStr ticker] |} ])%list).
Proof.
  destruct f, t; simpl; repeat constructor; simpl; intuition discriminate.
Qed.

Lemma crypto_tasks_distinct (symbol : string) (o t : bool) :
  NoDup (map task_type
           ([ {| task_type := "crypto_analyst";
                 task_args :=
                   [ VStr symbol;
                     VDict [("include_onchain", VBool o)] ] |} ]
            ++ (if t
                then [ {| task_type := "technical";
                          task_args := [VStr symbol] |} ]
                else []))%list).
Proof.
  destruct t; simpl; repeat constructor; simpl; intuition discriminate.
Qed.

(** X20.  On a coordinator whose worker pool can be created, the
    parallel and the sequential run of a comprehensive stock or crypto
    analysis give the same outcome for every order of completion: both
    raise (the same exception, unless each raises the error of
    converting the confidence of some entry), or both return a record
    with the same consensus and the same entries under ["analyses"],
    possibly in another order. *)
Theorem analysis_order_independent
    (ticker : string) (include_fundamental include_onchain
                       include_technical : bool) :
  0 < max_workers self ->
  same_analysis py
    (analyze_stock_comprehensive py execute as_completed now self ticker
       include_fundamental include_technical true)
    (analyze_stock_comprehensive py execute as_completed now self ticker
       include_fundamental include_technical false)
  /\ same_analysis py
       (analyze_crypto_comprehensive py execute as_completed now self ticker
          include_onchain include_technical true)
       (analyze_crypto_comprehensive py execute as_completed now self ticker
          include_onchain include_technical false).
Proof.
  intros Hw. split.
  - unfold analyze_stock_comprehensive.
    destruct (run_perm _ Hw (stock_tasks_distinct ticker include_fundamental
                               include_technical))
      as (results & -> & -> & Hperm).
    cbn [bind]. apply aggregate_perm; [now left | exact Hperm].
  - unfold analyze_crypto_comprehensive.
    destruct (run_perm _ Hw (crypto_tasks_distinct ticker include_onchain
                               include_technical))
      as (results & -> & -> & Hperm).
    cbn [bind]. apply aggregate_perm; [now right | exact Hperm].
Qed.

Lemma all_failures_consensus (results : pydict AgentResult) :
  Forall (fun entry => is_failure entry = true) results ->
  _determine_consensus py results = Ok insufficient_data.
Proof.
  intros Hall.
  assert (Hc : collect py results [] [] = Ok ([], [])).
  { generalize (@nil string) (@nil Z).
    induction Hall as [|[name result] rest Hf _ IH]; intros recs confs;
      [reflexivity|].
    cbn [collect]. unfold is_failure in Hf. cbn [snd] in Hf.
    rewrite Hf. apply IH. }
  unfold _determine_consensus. now rewrite Hc.
Qed.

Lemma recorded_failures (tasks : list Task) :
  (forall t, exists e, execute t = Raise e) ->
  Forall (fun entry => is_failure entry = true)
         (map (recorded execute) tasks).
Proof.
  intros Hfail. apply Forall_forall. intros entry Hin.
  apply in_map_iff in Hin. destruct Hin as (t & <- & _).
  destruct (Hfail t) as (e & He). unfold recorded, is_failure. cbn [snd].
  now rewrite He.
Qed.

Lemma stock_task_shape (ticker : string) (f t : bool) (task : Task) :
  In task
     ((if f
       then [ {| task_type := "fundamental"; task_args := [VStr ticker] |} ]
       else [])
      ++ (if t
          then [ {| task_type := "technical";
                    task_args := [VStr ticker] |} ]
          else [])
      ++ [ {| task_type := "stock_analyst";
              task_args := [VStr ticker] |} ])%list ->
  task = {| task_type := task_type task; task_args := [VStr ticker] |}.
Proof.
  destruct f, t; simpl; intros H;
    repeat (destruct H as [<-|H]; [reflexivity|]); destruct H.
Qed.

Lemma stock_task_names (ticker : string) (f t : bool) :
  map task_type
      ((if f
        then [ {| task_type := "fundamental"; task_args := [VStr ticker] |} ]
        else [])
       ++ (if t
           then [ {| task_type := "technical";
                     task_args := [VStr ticker] |} ]
           else [])
       ++ [ {| task_type := "stock_analyst";
               task_args := [VStr ticker] |} ])%list
  = stock_sub_tasks f t.
Proof. destruct f, t; reflexivity. Qed.

(** X21.  When every agent call raises, a comprehensive stock analysis
    still returns a record, in the sequential mode always and in the
    parallel mode when the worker pool can be created: its consensus
    is the INSUFFICIENT_DATA verdict, and under ["analyses"] it has
    exactly one entry per sub-task selected, each the error record of
    the exception that the call of that sub-task raised. *)
Theorem analysis_survives_total_failure
    (ticker : string) (include_fundamental include_technical
                       parallel : bool) :
  (parallel = true -> 0 < max_workers self) ->
  (forall t, exists e, execute t = Raise e) ->
  exists record analyses,
    analyze_stock_comprehensive py execute as_completed now self ticker
      include_fundamental include_technical parallel = Ok record
    /\ dict_get record "consensus" = Some (VDict insufficient_data)
    /\ dict_get record "analyses" = Some (VDict analyses)
    /\ NoDup (dict_keys analyses)
    /\ (forall name,
           In name (dict_keys analyses)
           <-> In name (stock_sub_tasks include_fundamental
                                        include_technical))
    /\ forall name entry,
         In (name, entry) analyses ->
         exists e,
           execute {| task_type := name; task_args := [VStr ticker] |}
           = Raise e
           /\ entry = VDict [("error", VStr (exn_msg e))].
Proof.
  intros Hw Hfail. unfold analyze_stock_comprehensive.
  set (tasks := (_ ++ _ ++ [_])%list).
  assert (Hnd : NoDup (map task_type tasks))
    by apply stock_tasks_distinct.
  assert (Hboth : exists results',
             run execute as_completed self parallel tasks = Ok results'
             /\ Permutation results' (map (recorded execute) tasks)).
  { destruct parallel.
    - destruct (run_perm tasks (Hw eq_refl) Hnd) as (results & Hpar & _ & Hp).
      eauto.
    - exists (map (recorded execute) tasks). unfold run.
      rewrite (sequential_entries execute tasks Hnd).
      split; [reflexivity | apply Permutation_refl]. }
  destruct Hboth as (results' & -> & Hperm).
  cbn [bind]. unfold _aggregate_stock_results, aggregate.
  assert (Hcons : _determine_consensus py results' = Ok insufficient_data).
  { apply all_failures_consensus.
    apply (Permutation_Forall (Permutation_sym Hperm)).
    now apply recorded_failures. }
  rewrite Hcons. cbn [bind]. do 2 eexists. split; [reflexivity|].
  split; [reflexivity|]. split; [reflexivity|].
  assert (Hkeys : Permutation
                    (dict_keys
                       (map (fun entry : string * AgentResult =>
                               (fst entry,
                                VDict (map (fun f => (fst f, VStr (snd f)))
                                           (snd entry))))
                            results'))
                    (stock_sub_tasks include_fundamental include_technical)).
  { unfold dict_keys. rewrite map_map. cbn [fst].
    rewrite (Permutation_map fst Hperm), map_map. cbn [recorded fst].
    unfold tasks. rewrite stock_task_names. apply Permutation_refl. }
  split; [|split].
  - apply (Permutation_NoDup (Permutation_sym Hkeys)).
    rewrite <- (stock_task_names ticker). exact Hnd.
  - intros name. split; intros Hin.
    + exact (Permutation_in _ Hkeys Hin).
    + exact (Permutation_in _ (Permutation_sym Hkeys) Hin).
  - intros name entry Hin. apply in_map_iff in Hin.
    destruct Hin as ([key result] & Heq & Hin). cbn [fst snd] in Heq.
    injection Heq as <- <-.
    apply (Permutation_in _ Hperm) in Hin. apply in_map_iff in Hin.
    destruct Hin as (task & Htask & Hin). unfold recorded in Htask.
    injection Htask as <- <-.
    destruct (Hfail task) as (e & He). exists e.
    rewrite <- (stock_task_shape ticker _ _ task Hin).
    split; [exact He|]. now rewrite He.
Qed.

Lemma fold_set_keys (V X : Type) (name : X -> string) (val : X -> V)
    (l : list X) :
  forall acc : pydict V,
    NoDup (dict_keys acc) ->
    let results :=
      fold_left (fun results x => dict_set results (name x) (val x)) l acc in
    NoDup (dict_keys results)
    /\ forall k, In k (dict_keys results)
                 <-> In k (dict_keys acc) \/ In k (map name l).
Proof.
  induction l as [|x l IH]; intros acc Hnd; cbn [fold_left map].
  - split; [exact Hnd|]. simpl. tauto.
  - destruct (IH (dict_set acc (name x) (val x))
                 (dict_set_nodup _ _ _ _ Hnd)) as (Hnd' & Hin).
    split; [exact Hnd'|]. intros k. rewrite Hin, dict_set_keys_in.
    simpl. intuition.
Qed.

Lemma submitted_tickers (tickers : list string) (asset_type : string) :
  asset_type = "stock" \/ asset_type = "crypto" ->
  map fst (submit_all py execute as_completed now self tickers asset_type)
  = tickers.
Proof.
  intros [-> | ->]; induction tickers as [|t rest IH]; simpl;
    congruence.
Qed.

(** X22.  For the asset types ["stock"] and
    ["crypto"], on a coordinator whose worker pool can be created,
    [batch_analyze] never raises, whatever the single analyses do: its
    results hold exactly one entry per distinct ticker, and
    [total_analyzed] is the number of distinct tickers. *)
Theorem batch_analyze_supported
    (tickers : list string) (asset_type analysis_type : string) :
  0 < max_workers self ->
  asset_type = "stock" \/ asset_type = "crypto" ->
  exists results,
    batch_analyze py execute as_completed now self tickers asset_type
                  analysis_type
    = Ok (batch_record asset_type results now)
    /\ NoDup (dict_keys results)
    /\ (forall t, In t (dict_keys results) <-> In t tickers)
    /\ len results = len (nodup string_dec tickers).
Proof.
  intros Hw Htype. unfold batch_analyze, ThreadPoolExecutor.
  destruct (Z.leb_spec (max_workers self) 0); [lia|]. cbn [bind].
  set (futures := submit_all py execute as_completed now self tickers asset_type).
  set (entry := fun outcome : result (pydict pyval) =>
                  match outcome with
                  | Ok result => VDict result
                  | Raise e => VDict [("error", VStr (exn_msg e))]
                  end).
  assert (Hfold : forall l acc,
             fold_left (fun results future =>
                          settle_ticker results (fst future) (snd future))
                       l acc
             = fold_left (fun results (future : string * result (pydict pyval))
                          => dict_set results (fst future)
                                      (entry (snd future)))
                         l acc).
  { induction l as [|x l IH]; intros acc; cbn [fold_left]; [reflexivity|].
    rewrite IH. f_equal. unfold settle_ticker, entry.
    now destruct (snd x). }
  rewrite Hfold.
  destruct (fold_set_keys pyval _ fst (fun f => entry (snd f))
              (as_completed _ futures) [] (NoDup_nil _)) as (Hnd & Hin).
  eexists. split; [reflexivity|].
  assert (Hmem : forall t,
             In t (dict_keys
                     (fold_left
                        (fun results
                             (future : string * result (pydict pyval)) =>
                           dict_set results (fst future)
                                    (entry (snd future)))
                        (as_completed _ futures) []))
             <-> In t tickers).
  { intros t. rewrite Hin.
    assert (Hperm : Permutation (map fst (as_completed _ futures)) tickers).
    { rewrite (Permutation_map fst (as_completed_perm _ futures)).
      unfold futures. rewrite (submitted_tickers tickers asset_type Htype).
      apply Permutation_refl. }
    split.
    - intros [[]|Hk]. exact (Permutation_in _ Hperm Hk).
    - intros Hk. right.
      exact (Permutation_in _ (Permutation_sym Hperm) Hk). }
  split; [exact Hnd|]. split; [exact Hmem|].
  unfold len. f_equal. unfold dict_keys in *.
  rewrite <- (length_map fst).
  apply Permutation_length. apply NoDup_Permutation.
  - exact Hnd.
  - apply NoDup_nodup.
  - intros t. rewrite Hmem. symmetry. apply nodup_In.
Qed.
End Pipelines.

Lemma analysis_order_independent_witness :
  same_analysis ascii_builtins
    (analyze_stock_comprehensive ascii_builtins technical_fails last_first
       "2024-01-01" coordinator "AAPL" true true true)
    (analyze_stock_comprehensive ascii_builtins technical_fails last_first
       "2024-01-01" coordinator "AAPL" true true false)
  /\ same_analysis ascii_builtins
       (analyze_crypto_comprehensive ascii_builtins technical_fails
          last_first "2024-01-01" coordinator "AAPL" true true true)
       (analyze_crypto_comprehensive ascii_builtins technical_fails
          last_first "2024-01-01" coordinator "AAPL" true true false).
Proof.
  apply (analysis_order_independent ascii_builtins technical_fails
           last_first last_first_perm "2024-01-01" unit coordinator "AAPL"
           true true true).
  reflexivity.
Defined.

Lemma analysis_survives_total_failure_witness :
  exists record analyses,
    analyze_stock_comprehensive ascii_builtins all_time_out last_first
      "2024-01-01" idle_coordinator "AAPL" true true false = Ok record
    /\ dict_get record "consensus" = Some (VDict insufficient_data)
    /\ dict_get record "analyses" = Some (VDict analyses)
    /\ NoDup (dict_keys analyses)
    /\ (forall name,
           In name (dict_keys analyses)
           <-> In name ["fundamental"; "technical"; "stock_analyst"])
    /\ forall name entry,
         In (name, entry) analyses ->
         exists e,
           all_time_out {| task_type := name; task_args := [VStr "AAPL"] |}
           = Raise e
           /\ entry = VDict [("error", VStr (exn_msg e))].
Proof.
  apply (analysis_survives_total_failure ascii_builtins all_time_out
           last_first last_first_perm "2024-01-01" unit idle_coordinator
           "AAPL" true true false).
  - discriminate.
  - intros t. exists timeout. reflexivity.
Defined.

Lemma batch_analyze_supported_witness :
  exists results,
    batch_analyze ascii_builtins technical_fails last_first "2024-01-01"
                  coordinator ["AAPL"; "MSFT"; "AAPL"] "stock"
                  "comprehensive"
    = Ok (batch_record "stock" results "2024-01-01")
    /\ NoDup (dict_keys results)
    /\ (forall t, In t (dict_keys results)
                  <-> In t ["AAPL"; "MSFT"; "AAPL"])
    /\ len results = len (nodup string_dec ["AAPL"; "MSFT"; "AAPL"]).
Proof.
  apply (batch_analyze_supported ascii_builtins technical_fails last_first
           last_first_perm "2024-01-01" unit coordinator
           ["AAPL"; "MSFT"; "AAPL"] "stock" "comprehensive").
  - reflexivity.
  - now left.
Defined.

(** ** Further properties of the agent cache *)

Section CacheMore.
Variable LLM : Type.
Variable construct : chat_class -> string -> float -> result LLM.

Lemma step_created t c (w : World LLM) a w' :
  dict_get (agents (self w)) t = None ->
  _get_or_create_agent construct t c w = (Ok a, w') ->
  class_of t = Some (agent_kind a)
  /\ agent_id a = next_id w
  /\ w' = cache t a (log (Routed t) w).
Proof.
  unfold _get_or_create_agent. intros ->.
  destruct (route_task _ _ _ _ _) as [[[llm provider] model]|e];
    [|discriminate].
  destruct (class_of t) as [cls|]; [|discriminate].
  unfold new_agent.
  destruct (_initialize_llm construct provider model (ratio 1 10))
    as [l|e]; cbn [bind]; [|discriminate].
  intros [= <- <-]. auto.
Qed.

Lemma step_well_kinded t c (w : World LLM) r w' :
  _get_or_create_agent construct t c w = (r, w') ->
  well_kinded w -> well_kinded w'.
Proof.
  intros Hstep Hwk.
  destruct (step_cases LLM construct t c w r w' Hstep)
    as [(a & _ & _ & ->)|[(_ & e & _ & ->)|(Hnone & a & -> & Hw')]].
  - exact Hwk.
  - exact Hwk.
  - destruct (step_created t c w a w' Hnone Hstep) as (Hcls & Hid & ->).
    intros t' a'. unfold cached. cbn [cache log self agents next_id].
    destruct (string_dec t t') as [<-|Hne].
    + rewrite dict_get_set_eq. intros [= <-]. split; [exact Hcls | lia].
    + rewrite dict_get_set_ne by exact Hne. intros Hc.
      destruct (Hwk t' a' Hc) as (Hk & Hlt). split; [exact Hk | lia].
Qed.

Lemma requests_well_kinded reqs : forall w : World LLM,
  well_kinded w -> well_kinded (snd (requests construct reqs w)).
Proof.
  induction reqs as [|[t c] rest IH]; intros w Hwk; [exact Hwk|].
  cbn [requests].
  destruct (_get_or_create_agent construct t c w) as [r w1] eqn:Hstep.
  specialize (IH w1 (step_well_kinded t c w r w1 Hstep Hwk)).
  destruct (requests construct rest w1) as [rs w2]. exact IH.
Qed.

Lemma init_well_kinded router workers :
  well_kinded (Coordinator.__init__ LLM router workers).
Proof. intros t a H. discriminate. Qed.

Lemma reached_well_kinded router workers reqs :
  well_kinded (reached construct router workers reqs).
Proof.
  apply requests_well_kinded, init_well_kinded.
Qed.

Lemma step_keys_distinct t c (w : World LLM) r w' :
  _get_or_create_agent construct t c w = (r, w') ->
  NoDup (dict_keys (agents (self w))) ->
  NoDup (dict_keys (agents (self w'))).
Proof.
  intros Hstep Hnd.
  destruct (step_cases LLM construct t c w r w' Hstep)
    as [(a & _ & _ & ->)|[(_ & e & _ & ->)|(_ & a & _ & ->)]];
    [exact Hnd | exact Hnd |].
  cbn [cache log self agents]. now apply dict_set_nodup.
Qed.

Lemma requests_keys_distinct reqs : forall w : World LLM,
  NoDup (dict_keys (agents (self w))) ->
  NoDup (dict_keys (agents (self (snd (requests construct reqs w))))).
Proof.
  induction reqs as [|[t c] rest IH]; intros w Hnd; [exact Hnd|].
  cbn [requests].
  destruct (_get_or_create_agent construct t c w) as [r w1] eqn:Hstep.
  specialize (IH w1 (step_keys_distinct t c w r w1 Hstep Hnd)).
  destruct (requests construct rest w1) as [rs w2]. exact IH.
Qed.

Lemma class_of_known t cls :
  class_of t = Some cls ->
  In t ["stock_analyst"; "crypto_analyst"; "technical"; "fundamental"].
Proof.
  unfold class_of.
  destruct (String.eqb_spec t "stock_analyst") as [->|_]; [simpl; tauto|].
  destruct (String.eqb_spec t "crypto_analyst") as [->|_]; [simpl; tauto|].
  destruct (String.eqb_spec t "technical") as [->|_]; [simpl; tauto|].
  destruct (String.eqb_spec t "fundamental") as [->|_]; [simpl; tauto|].
  discriminate.
Qed.

(** X23.  In every state that a new
    coordinator reaches by requests for agents, whatever the router
    and the constructors do, each cached agent is an instance of the
    class that belongs to the type it is cached under, two types never
    share an agent object, and the cache holds at most four agents. *)
Theorem cache_holds_right_agents
    (router : MultiLLMRouter) (workers : Z)
    (reqs : list (string * TaskComplexity)) :
  let w := reached construct router workers reqs in
  (forall t a, cached w t a -> class_of t = Some (agent_kind a))
  /\ (forall t t' a a', cached w t a -> cached w t' a' ->
        agent_id a = agent_id a' -> t = t')
  /\ len (agents (self w)) <= 4.
Proof.
  intros w.
  assert (Hwk : well_kinded w) by apply reached_well_kinded.
  assert (Hnd : NoDup (dict_keys (agents (self w)))).
  { apply requests_keys_distinct. constructor. }
  split; [|split].
  - intros t a Hc. now destruct (Hwk t a Hc).
  - unfold w, reached. clear w Hwk Hnd.
    assert (Hgen : forall (rs : list (string * TaskComplexity)) (w0 : World LLM),
               well_kinded w0 ->
               (forall t t' a a', cached w0 t a -> cached w0 t' a' ->
                  agent_id a = agent_id a' -> t = t') ->
               forall t t' a a',
                 cached (snd (requests construct rs w0)) t a ->
                 cached (snd (requests construct rs w0)) t' a' ->
                 agent_id a = agent_id a' -> t = t').
    { induction rs as [|[t0 c0] rest IH]; intros w0 Hwk Hinj; [exact Hinj|].
      cbn [requests].
      destruct (_get_or_create_agent construct t0 c0 w0) as [r w1] eqn:Hstep.
      assert (Hwk1 := step_well_kinded t0 c0 w0 r w1 Hstep Hwk).
      assert (Hinj1 : forall t t' a a', cached w1 t a -> cached w1 t' a' ->
                        agent_id a = agent_id a' -> t = t').
      { destruct (step_cases LLM construct t0 c0 w0 r w1 Hstep)
          as [(a0 & _ & _ & ->)|[(_ & e & _ & ->)|(Hnone & a0 & -> & _)]];
          [exact Hinj | exact Hinj |].
        destruct (step_created t0 c0 w0 a0 w1 Hnone Hstep)
          as (_ & Hid & ->).
        intros t t' a a'. unfold cached. cbn [cache log self agents].
        destruct (string_dec t0 t) as [<-|Hne], (string_dec t0 t') as [<-|Hne'];
          [reflexivity | | |].
        - rewrite dict_get_set_eq, dict_get_set_ne by exact Hne'.
          intros [= <-] Hc' Heq. destruct (Hwk t' a' Hc') as (_ & Hlt). lia.
        - rewrite dict_get_set_eq, dict_get_set_ne by exact Hne.
          intros Hc [= <-] Heq. destruct (Hwk t a Hc) as (_ & Hlt). lia.
        - rewrite !dict_get_set_ne by assumption. apply Hinj. }
      specialize (IH w1 Hwk1 Hinj1).
      destruct (requests construct rest w1) as [rs' w2]. exact IH. }
    apply Hgen; [apply init_well_kinded|].
    intros t t' a a' H. discriminate.
  - assert (Hincl : incl (dict_keys (agents (self w)))
                         ["stock_analyst"; "crypto_analyst"; "technical";
                          "fundamental"]).
    { intros t Hin.
      destruct (dict_get (agents (self w)) t) as [a|] eqn:Hget.
      - destruct (Hwk t a Hget) as (Hcls & _).
        exact (class_of_known t _ Hcls).
      - apply dict_get_none_iff in Hget. contradiction. }
    pose proof (NoDup_incl_length Hnd Hincl) as Hlen.
    unfold len, dict_keys in *. rewrite length_map in Hlen.
    cbn [List.length] in Hlen. lia.
Qed.

Lemma google_is_only_provider getenv dp dm co temp p :
  google_only getenv ->
  available (Router.__init__ getenv dp dm co temp) p -> p = "google".
Proof.
  intros (Ho & Ha & Hg & _) Hav. apply dict_get_some_in in Hav.
  change (In (p, true)
             [ ("openai", has_key getenv "OPENAI_API_KEY");
               ("anthropic", has_key getenv "ANTHROPIC_API_KEY");
               ("groq", has_key getenv "GROQ_API_KEY");
               ("google", has_key getenv "GOOGLE_API_KEY") ]) in Hav.
  rewrite Ho, Ha, Hg in Hav.
  destruct Hav as [H|[H|[H|[H|[]]]]]; try discriminate.
  now injection H as <-.
Qed.

(** X24.  The router can select Google but
    the agents cannot use it.  With the Google key as the only API key
    and constructors that do not raise, every request for an agent of
    one of the four types that is not yet cached raises "Unsupported
    LLM provider: google" after the router's selection, for every
    complexity and every default, and caches nothing. *)
Theorem google_only_builds_no_agent
    (getenv : string -> option string)
    (dp dm : option string) (co : bool) (temp : float)
    (agent_type : string) (cls : agent_class)
    (complexity : TaskComplexity) (w : World LLM) :
  google_only getenv ->
  never_raises construct ->
  llm_router (self w) = Router.__init__ getenv dp dm co temp ->
  class_of agent_type = Some cls ->
  dict_get (agents (self w)) agent_type = None ->
  _get_or_create_agent construct agent_type complexity w
  = (Raise unsupported_google, log (Routed agent_type) w).
Proof.
  intros Hgoogle Hok Hrouter Hcls Hnone.
  unfold _get_or_create_agent. rewrite Hnone, Hrouter, Hcls.
  assert (Hav : available (Router.__init__ getenv dp dm co temp) "google").
  { destruct Hgoogle as (Ho & Ha & Hg & Hgg). unfold available.
    change (dict_get
              [ ("openai", has_key getenv "OPENAI_API_KEY");
                ("anthropic", has_key getenv "ANTHROPIC_API_KEY");
                ("groq", has_key getenv "GROQ_API_KEY");
                ("google", has_key getenv "GOOGLE_API_KEY") ] "google"
            = Some true).
    rewrite Hgg. reflexivity. }
  destruct (route_task_total LLM construct getenv dp dm co temp
              (agent_type ++ " analysis") complexity None "google" Hok Hav)
    as (llm & q & m & Hroute).
  rewrite Hroute.
  assert (Hq : q = "google").
  { apply (google_is_only_provider getenv dp dm co temp q Hgoogle).
    exact (route_task_available LLM construct _ _ _ _ llm q m
             (init_keys_distinct getenv dp dm co temp) Hroute). }
  subst q. reflexivity.
Qed.
End CacheMore.

Lemma env_google_only : google_only env_google.
Proof. repeat split. Qed.

Lemma google_only_builds_no_agent_witness :
  let w := Coordinator.__init__ chat_class router_google 4 in
  _get_or_create_agent always "technical" MODERATE w
  = (Raise unsupported_google, log (Routed "technical") w).
Proof.
  intros w.
  apply (google_only_builds_no_agent chat_class always env_google
           None None true (ratio 1 10) "technical" TechnicalAgent
           MODERATE w).
  - exact env_google_only.
  - exact always_never_raises.
  - reflexivity.
  - reflexivity.
  - reflexivity.
Defined.

(** ** Calling the agents *)

Section DispatchFacts.
Variable LLM : Type.
Variable construct : chat_class -> string -> float -> result LLM.
Variable call :
  Agent LLM -> agent_method -> pyval -> pydict pyval -> result AgentResult.
Variable compare_companies :
  Agent LLM -> list string -> result (pydict pyval).
Variable now : string.

(** A request for an agent on a well-kinded cache answers with an
    agent of the class of the type asked for. *)
Lemma step_kind t c (w : World LLM) a w' :
  well_kinded w ->
  _get_or_create_agent construct t c w = (Ok a, w') ->
  class_of t = Some (agent_kind a).
Proof.
  intros Hwk Hstep.
  destruct (dict_get (agents (self w)) t) as [a0|] eqn:Hget.
  - unfold _get_or_create_agent in Hstep. rewrite Hget in Hstep.
    injection Hstep as <- _. now destruct (Hwk t a0 Hget).
  - now destruct (step_created LLM construct t c w a w' Hget Hstep).
Qed.

Lemma dispatch_by_class t (a : Agent LLM) args (w w1 : World LLM) :
  _get_or_create_agent construct t MODERATE w = (Ok a, w1) ->
  class_of t = Some (agent_kind a) ->
  _execute_agent_task construct call t args w
  = (x <- first_arg (fst (split_kwargs args)) ;;
     call a (method_of (agent_kind a)) x
          (if String.eqb t "crypto_analyst"
           then snd (split_kwargs args) else []),
     w1).
Proof.
  intros Hstep. unfold _execute_agent_task. rewrite Hstep.
  unfold class_of. destruct (split_kwargs args) as [front kwargs].
  cbn [fst snd].
  destruct (String.eqb t "stock_analyst") eqn:E1.
  { apply String.eqb_eq in E1. subst t. cbn [String.eqb Ascii.eqb Bool.eqb].
    intros [= <-]. reflexivity. }
  destruct (String.eqb t "crypto_analyst") eqn:E2;
    [intros [= <-]; reflexivity|].
  destruct (String.eqb t "technical") eqn:E3;
    [intros [= <-]; reflexivity|].
  destruct (String.eqb t "fundamental") eqn:E4;
    [intros [= <-]; reflexivity|].
  discriminate.
Qed.

(** X25.  In every state that a coordinator
    reaches by requests for agents, a task for which an agent is
    obtained calls the analysis method of that agent's own class, with
    the first positional argument; the keyword arguments of a trailing
    dict reach the crypto analyst only, and are dropped for the other
    types; and the final "Unknown agent type" branch is never taken. *)
Theorem dispatch_matches_class
    (router : MultiLLMRouter) (workers : Z)
    (reqs : list (string * TaskComplexity))
    (agent_type : string) (args : list pyval)
    (a : Agent LLM) (w' : World LLM) :
  let w := reached construct router workers reqs in
  _get_or_create_agent construct agent_type MODERATE w = (Ok a, w') ->
  class_of agent_type = Some (agent_kind a)
  /\ _execute_agent_task construct call agent_type args w
     = (x <- first_arg (fst (split_kwargs args)) ;;
        call a (method_of (agent_kind a)) x
             (if String.eqb agent_type "crypto_analyst"
              then snd (split_kwargs args) else []),
        w').
Proof.
  intros w Hstep.
  assert (Hcls : class_of agent_type = Some (agent_kind a)).
  { apply (step_kind agent_type MODERATE w a w');
      [apply reached_well_kinded | exact Hstep]. }
  split; [exact Hcls|].
  now apply dispatch_by_class.
Qed.

(** X26.  In every state that a
    coordinator reaches by requests for agents, a task of a type other
    than the four known ones raises, either the router's error or
    "Unknown agent type", and leaves the cache as it was; no agent
    method is called. *)
Theorem unknown_agent_type_never_runs
    (router : MultiLLMRouter) (workers : Z)
    (reqs : list (string * TaskComplexity))
    (agent_type : string) (args : list pyval) :
  let w := reached construct router workers reqs in
  class_of agent_type = None ->
  exists e,
    _execute_agent_task construct call agent_type args w
    = (Raise e, log (Routed agent_type) w)
    /\ (e = Exn ValueError ("Unknown agent type: " ++ agent_type)
        \/ route_task construct (llm_router (self w))
             (agent_type ++ " analysis") MODERATE None = Raise e).
Proof.
  intros w Hcls.
  assert (Hnone : dict_get (agents (self w)) agent_type = None).
  { destruct (dict_get (agents (self w)) agent_type) as [a|] eqn:Hget;
      [|reflexivity].
    destruct (reached_well_kinded LLM construct router workers reqs
                agent_type a Hget) as (Hk & _).
    fold w in Hk. congruence. }
  unfold _execute_agent_task, _get_or_create_agent.
  rewrite Hnone, Hcls.
  destruct (route_task construct (llm_router (self w)) _ MODERATE None)
    as [[[llm provider] model]|e].
  - eexists. split; [reflexivity | now left].
  - exists e. split; [reflexivity | now right].
Qed.

(** X27.  A task without a
    positional argument -- no argument at all, or a dict alone, which
    is taken for the keyword arguments -- raises [IndexError] for each
    of the four agent types, and does so only after the agent has been
    obtained, so that a newly built agent stays cached. *)
Theorem missing_ticker_raises_after_agent
    (agent_type : string) (cls : agent_class) (args : list pyval)
    (w w' : World LLM) (a : Agent LLM) :
  args = [] \/ (exists kwargs, args = [VDict kwargs]) ->
  class_of agent_type = Some cls ->
  _get_or_create_agent construct agent_type MODERATE w = (Ok a, w') ->
  _execute_agent_task construct call agent_type args w
  = (Raise (Exn IndexError "tuple index out of range"), w').
Proof.
  intros Hargs Hcls Hstep. unfold _execute_agent_task. rewrite Hstep.
  assert (Hsplit : fst (split_kwargs args) = []).
  { destruct Hargs as [->|(kwargs & ->)]; reflexivity. }
  destruct (split_kwargs args) as [front kwargs]. cbn [fst] in Hsplit.
  subst front. unfold class_of in Hcls.
  destruct (String.eqb agent_type "stock_analyst"); [reflexivity|].
  destruct (String.eqb agent_type "crypto_analyst"); [reflexivity|].
  destruct (String.eqb agent_type "technical"); [reflexivity|].
  destruct (String.eqb agent_type "fundamental"); [reflexivity|].
  discriminate.
Qed.

(** ** Comparing assets *)

(** X28.  For an asset type other than
    ["stock"] and ["crypto"], [compare_assets] raises "Unsupported
    asset type" at once: no agent is requested and the coordinator is
    left as it was. *)
Theorem compare_assets_unsupported
    (tickers : list string) (asset_type : string) (w : World LLM) :
  asset_type <> "stock" -> asset_type <> "crypto" ->
  compare_assets construct call compare_companies now tickers asset_type w
  = (Raise (Exn ValueError ("Unsupported asset type: " ++ asset_type)), w).
Proof.
  intros Hs Hc. unfold compare_assets.
  destruct (String.eqb_spec asset_type "stock"); [contradiction|].
  destruct (String.eqb_spec asset_type "crypto"); [contradiction|].
  reflexivity.
Qed.

Lemma compare_each_aborts (a : Agent LLM) (front back : list string)
    (t : string) (e : exn) :
  (forall x, In x front ->
     exists r, call a analyze_crypto (VStr x) [] = Ok r) ->
  call a analyze_crypto (VStr t) [] = Raise e ->
  forall acc, compare_each call a (front ++ t :: back) acc = Raise e.
Proof.
  intros Hfront Hfail. induction front as [|x front IH]; intros acc;
    cbn [app compare_each].
  - now rewrite Hfail.
  - destruct (Hfront x (or_introl eq_refl)) as (r & ->). cbn [bind].
    apply IH. intros y Hy. apply Hfront. now right.
Qed.

(** X29.  The crypto comparison does
    not isolate failures: the first ticker whose analysis raises
    aborts the whole comparison with that error, and the results of
    the tickers before it are lost. *)
Theorem compare_crypto_aborts_on_failure
    (front back : list string) (t : string) (e : exn)
    (w w' : World LLM) (a : Agent LLM) :
  _get_or_create_agent construct "crypto_analyst" MODERATE w = (Ok a, w') ->
  (forall x, In x front ->
     exists r, call a analyze_crypto (VStr x) [] = Ok r) ->
  call a analyze_crypto (VStr t) [] = Raise e ->
  compare_assets construct call compare_companies now
                 (front ++ t :: back) "crypto" w
  = (Raise e, w').
Proof.
  intros Hstep Hfront Hfail. unfold compare_assets.
  cbn [String.eqb Ascii.eqb Bool.eqb]. rewrite Hstep.
  now rewrite (compare_each_aborts a front back t e Hfront Hfail).
Qed.

Lemma compare_each_all (a : Agent LLM) (tickers : list string) :
  (forall x, In x tickers ->
     exists r, call a analyze_crypto (VStr x) [] = Ok r) ->
  forall acc, NoDup (dict_keys acc) ->
    (forall k r, dict_get acc k = Some r ->
       call a analyze_crypto (VStr k) [] = Ok r) ->
    exists results,
      compare_each call a tickers acc = Ok results
      /\ NoDup (dict_keys results)
      /\ (forall k, In k (dict_keys results)
                    <-> In k (dict_keys acc) \/ In k tickers)
      /\ forall k r, dict_get results k = Some r ->
           call a analyze_crypto (VStr k) [] = Ok r.
Proof.
  induction tickers as [|x rest IH]; intros Hall acc Hnd Hacc;
    cbn [compare_each].
  - exists acc. split; [reflexivity|]. split; [exact Hnd|].
    split; [simpl; tauto | exact Hacc].
  - destruct (Hall x (or_introl eq_refl)) as (r & Hr). rewrite Hr.
    cbn [bind].
    destruct (IH (fun y Hy => Hall y (or_intror Hy))
                 (dict_set acc x r) (dict_set_nodup _ _ _ _ Hnd))
      as (results & Hrun & Hnd' & Hkeys & Hvals).
    + intros k r'. destruct (string_dec x k) as [<-|Hne].
      * rewrite dict_get_set_eq. now intros [= <-].
      * rewrite dict_get_set_ne by exact Hne. apply Hacc.
    + exists results. split; [exact Hrun|]. split; [exact Hnd'|].
      split; [|exact Hvals].
      intros k. rewrite Hkeys, dict_set_keys_in. simpl. intuition.
Qed.

(** X30.  When the analysis of every ticker
    returns, the crypto comparison returns a record that lists the
    tickers as given and holds exactly one result per distinct ticker,
    the one that the crypto analyst returned for it. *)
Theorem compare_crypto_complete
    (tickers : list string) (w w' : World LLM) (a : Agent LLM) :
  _get_or_create_agent construct "crypto_analyst" MODERATE w = (Ok a, w') ->
  (forall x, In x tickers ->
     exists r, call a analyze_crypto (VStr x) [] = Ok r) ->
  exists found,
    compare_assets construct call compare_companies now tickers "crypto" w
    = (Ok (inr {| comparison_type := "crypto";
                  assets := tickers;
                  results := found;
                  timestamp := now |}), w')
    /\ NoDup (dict_keys found)
    /\ (forall k, In k (dict_keys found) <-> In k tickers)
    /\ forall k r, dict_get found k = Some r ->
         call a analyze_crypto (VStr k) [] = Ok r.
Proof.
  intros Hstep Hall. unfold compare_assets.
  cbn [String.eqb Ascii.eqb Bool.eqb]. rewrite Hstep.
  destruct (compare_each_all a tickers Hall [] (NoDup_nil _))
    as (found & Hrun & Hnd & Hkeys & Hvals); [discriminate|].
  exists found. rewrite Hrun. cbn [bind].
  split; [reflexivity|]. split; [exact Hnd|]. split; [|exact Hvals].
  intros k. rewrite Hkeys. simpl. tauto.
Qed.
End DispatchFacts.

Lemma dispatch_matches_class_witness :
  class_of "crypto_analyst" = Some CryptoAnalystAgent
  /\ _execute_agent_task always answers_all "crypto_analyst"
       [VStr "BTC"; VDict [("include_onchain", VBool true)]] new_world
     = (Ok [("symbol", "BTC"); ("analysis", "HOLD")],
        snd (_get_or_create_agent always "crypto_analyst" MODERATE
                                  new_world)).
Proof.
  exact (dispatch_matches_class chat_class always answers_all
           router_openai 4 [] "crypto_analyst"
           [VStr "BTC"; VDict [("include_onchain", VBool true)]]
           _ _ eq_refl).
Defined.

Lemma unknown_agent_type_never_runs_witness :
  exists e,
    _execute_agent_task always answers_all "macro" [VStr "AAPL"] new_world
    = (Raise e, log (Routed "macro") new_world)
    /\ (e = Exn ValueError ("Unknown agent type: " ++ "macro")
        \/ route_task always (llm_router (self new_world))
             ("macro" ++ " analysis") MODERATE None = Raise e).
Proof.
  apply (unknown_agent_type_never_runs chat_class always answers_all
           router_openai 4 [] "macro" [VStr "AAPL"]).
  reflexivity.
Defined.

Lemma missing_ticker_raises_after_agent_witness :
  _execute_agent_task always answers_all "crypto_analyst"
    [VDict [("include_onchain", VBool true)]] new_world
  = (Raise (Exn IndexError "tuple index out of range"),
     snd (_get_or_create_agent always "crypto_analyst" MODERATE new_world)).
Proof.
  apply (missing_ticker_raises_after_agent chat_class always answers_all
           "crypto_analyst" CryptoAnalystAgent
           [VDict [("include_onchain", VBool true)]] new_world _
           {| agent_id := 0; agent_kind := CryptoAnalystAgent;
              agent_llm := ChatOpenAI |}).
  - right. eexists. reflexivity.
  - reflexivity.
  - reflexivity.
Defined.

Lemma compare_assets_unsupported_witness :
  compare_assets always answers_all no_comparison "2024-01-01"
                 ["AAPL"] "bond" new_world
  = (Raise (Exn ValueError ("Unsupported asset type: " ++ "bond")),
     new_world).
Proof.
  apply (compare_assets_unsupported chat_class always answers_all
           no_comparison "2024-01-01" ["AAPL"] "bond" new_world);
    discriminate.
Defined.

Lemma compare_crypto_aborts_on_failure_witness :
  compare_assets always answers_btc no_comparison "2024-01-01"
                 (["BTC"] ++ "ETH" :: ["BTC"]) "crypto" new_world
  = (Raise timeout,
     snd (_get_or_create_agent always "crypto_analyst" MODERATE new_world)).
Proof.
  apply (compare_crypto_aborts_on_failure chat_class always answers_btc
           no_comparison "2024-01-01" ["BTC"] ["BTC"] "ETH" timeout
           new_world _
           {| agent_id := 0; agent_kind := CryptoAnalystAgent;
              agent_llm := ChatOpenAI |}).
  - reflexivity.
  - intros x [<-|[]]. eexists. reflexivity.
  - reflexivity.
Defined.

Lemma compare_crypto_complete_witness :
  exists found,
    compare_assets always answers_all no_comparison "2024-01-01"
                   ["BTC"; "ETH"; "BTC"] "crypto" new_world
    = (Ok (inr {| comparison_type := "crypto";
                  assets := ["BTC"; "ETH"; "BTC"];
                  results := found;
                  timestamp := "2024-01-01" |}),
       snd (_get_or_create_agent always "crypto_analyst" MODERATE
                                 new_world))
    /\ NoDup (dict_keys found)
    /\ (forall k, In k (dict_keys found) <-> In k ["BTC"; "ETH"; "BTC"])
    /\ forall k r, dict_get found k = Some r ->
         answers_all {| agent_id := 0; agent_kind := CryptoAnalystAgent;
                        agent_llm := ChatOpenAI |}
                     analyze_crypto (VStr k) [] = Ok r.
Proof.
  apply (compare_crypto_complete chat_class always answers_all
           no_comparison "2024-01-01" ["BTC"; "ETH"; "BTC"] new_world _
           {| agent_id := 0; agent_kind := CryptoAnalystAgent;
              agent_llm := ChatOpenAI |}).
  - reflexivity.
  - intros x [<-|[<-|[<-|[]]]]; eexists; reflexivity.
Defined.
